(** * dnim-cwgangp: a conditional WGAN-GP on the DNIM day/night pairs

    A shallow embedding of [src/dnim-cwgangp.py].

    - [Net]: the layer stacks of [CGeneratorNetwork] and
      [CDiscriminatorNetwork], with the shape arithmetic of [torch.nn] and an
      idealised (real-valued) reading of the element-wise activations.
    - [Gan]: the dataset wrapper, the model wrapper with its [_state_hooks]
      dictionary, the conditional discriminator loss, the two callbacks and
      the training loop that drives them.

    Tensors hold floating-point numbers in the program.  Shapes are modelled
    exactly (as lists of integers); element values are idealised as real
    numbers where a statement speaks about them, and are abstract elsewhere. *)

From Stdlib Require Import ZArith List Lia Reals Lra DecimalString DecimalNat.
From stdpp Require Import gmap strings list.

Open Scope Z_scope.

(** ** Command line ([main]) *)

(** The options of [argparse] that reach the modelled code.  The three
    floating-point hyper-parameters (the two learning rates and the penalty
    weight) are not represented: they scale numbers inside the numeric
    framework.  [Adam] refuses a negative learning rate, so what is said
    below about a run that was built is said about runs with learning rates
    the optimizers accept. *)
Record Args := {
  save_directory : string;
  batch_size : Z;
  epochs : Z;
  image_frequency : Z;
  generator_frequency : Z;
  discriminator_instancenorm : bool;
  generator_instancenorm : bool;
  cuda : bool
}.

(** The defaults of [main] ([--no-cuda] absent and no device present). *)
Definition default_args : Args := {|
  save_directory := "output/dnim_cwgangp/v1";
  batch_size := 3;
  epochs := 100;
  image_frequency := 10;
  generator_frequency := 10;
  discriminator_instancenorm := false;
  generator_instancenorm := true;
  cuda := false
|}.

(** * Networks *)

Module Net.

(** The [torch.nn] modules that occur in the two [nn.Sequential] stacks.
    [Reshape] is [gan_utils.Reshape]. *)
Inductive Layer : Type :=
| Conv2d (in_channels out_channels kernel_size stride padding : Z)
| ConvTranspose2d (in_channels out_channels kernel_size stride padding : Z)
| InstanceNorm2d (num_features : Z)
| InstanceNorm1d (num_features : Z)
| LeakyReLU
| Dropout
| Sigmoid
| Linear (in_features out_features : Z)
| Reshape (shape : list Z).

(** What differs between releases of the framework: whether
    [nn.InstanceNorm1d] takes a rank-2 input (later releases read it as an
    unbatched [(C, L)] signal) or raises [ValueError] on anything but rank 3
    (the releases that still need [Variable]). *)
Record Torch := { instancenorm1d_rank2 : bool }.

(** Output length of one spatial axis of [nn.Conv2d] (dilation 1); the
    framework raises when the kernel is larger than the padded input. *)
Definition conv_out (h k s p : Z) : option Z :=
  if h + 2 * p <? k then None else Some ((h + 2 * p - k) / s + 1).

(** Output length of one spatial axis of [nn.ConvTranspose2d]
    (dilation 1, no output padding). *)
Definition conv_transpose_out (h k s p : Z) : option Z :=
  let o := (h - 1) * s - 2 * p + k in
  if o <=? 0 then None else Some o.

Definition numel (s : list Z) : Z := fold_right Z.mul 1 s.

(** [Tensor.view]: at most one [-1], inferred from the number of elements. *)
Definition view (s : list Z) (target : list Z) : option (list Z) :=
  let known := numel (filter (λ d, d ≠ -1) target) in
  match length (filter (λ d, d = -1) target) with
  | O => if decide (known = numel s) then Some target else None
  | S O =>
      if decide (known = 0) then None
      else if decide (numel s mod known = 0)
           then Some ((λ d, if decide (d = -1) then numel s / known else d) <$> target)
           else None
  | _ => None
  end.

(** Shape of the output of one layer, [None] where the framework raises.

    The two-dimensional layers take a batch [[n; c; h; w]] or a single
    sample without the batch axis, [[c; h; w]].  A convolution checks the
    channel count.  An instance norm (built without affine parameters) does
    not, but raises [ValueError] when a sample has a single spatial element:
    it needs more than one value per channel to normalise. *)
Definition out_shape (torch : Torch) (m : Layer) (s : list Z) : option (list Z) :=
  match m with
  | Conv2d cin cout k st p =>
      match s with
      | [n; c; h; w] =>
          if decide (c = cin)
          then h' ← conv_out h k st p; w' ← conv_out w k st p; Some [n; cout; h'; w']
          else None
      | [c; h; w] =>
          if decide (c = cin)
          then h' ← conv_out h k st p; w' ← conv_out w k st p; Some [cout; h'; w']
          else None
      | _ => None
      end
  | ConvTranspose2d cin cout k st p =>
      match s with
      | [n; c; h; w] =>
          if decide (c = cin)
          then h' ← conv_transpose_out h k st p;
               w' ← conv_transpose_out w k st p; Some [n; cout; h'; w']
          else None
      | [c; h; w] =>
          if decide (c = cin)
          then h' ← conv_transpose_out h k st p;
               w' ← conv_transpose_out w k st p; Some [cout; h'; w']
          else None
      | _ => None
      end
  | InstanceNorm2d _ =>
      match s with
      | [_; _; h; w] => if decide (h * w = 1) then None else Some s
      | [_; h; w] => if decide (h * w = 1) then None else Some s
      | _ => None
      end
  | InstanceNorm1d _ =>
      match s with
      | [_; _; l] => if decide (l = 1) then None else Some s
      | [_; l] =>
          if instancenorm1d_rank2 torch
          then if decide (l = 1) then None else Some s
          else None
      | _ => None
      end
  | LeakyReLU | Dropout | Sigmoid => Some s
  | Linear fin fout =>
      match reverse s with
      | d :: rest => if decide (d = fin) then Some (reverse (fout :: rest)) else None
      | [] => None
      end
  | Reshape target => view s target
  end.

(** [nn.Sequential] on shapes. *)
Fixpoint sequential_shape (torch : Torch) (ms : list Layer) (s : list Z)
  : option (list Z) :=
  match ms with
  | [] => Some s
  | m :: ms' => s' ← out_shape torch m s; sequential_shape torch ms' s'
  end.

(** [class CGeneratorNetwork(nn.Sequential)]: the list comprehension drops
    the [None] entries that stand for a disabled instance norm. *)
Definition CGeneratorNetwork (args : Args) : list Layer :=
  let inorm c := if generator_instancenorm args then Some (InstanceNorm2d c) else None in
  omap (λ m : option Layer, m) [
    Some (Conv2d 3 32 3 1 3);
    inorm 32;
    Some LeakyReLU;
    Some Dropout;
    Some (Conv2d 32 64 4 2 1);
    inorm 64;
    Some LeakyReLU;
    Some Dropout;
    Some (Conv2d 64 128 4 2 1);
    inorm 128;
    Some LeakyReLU;
    Some Dropout;
    Some (Conv2d 128 256 4 2 1);
    inorm 256;
    Some LeakyReLU;
    Some Dropout;
    Some (ConvTranspose2d 256 128 4 2 1);
    inorm 128;
    Some LeakyReLU;
    Some Dropout;
    Some (ConvTranspose2d 128 64 4 2 1);
    inorm 64;
    Some LeakyReLU;
    Some Dropout;
    Some (ConvTranspose2d 64 32 4 2 0);
    inorm 32;
    Some LeakyReLU;
    Some (Conv2d 32 3 3 1 0);
    Some Sigmoid ].

(** [CDiscriminatorNetwork.trunk]. *)
Definition CDiscriminatorNetwork_trunk (args : Args) : list Layer :=
  let inorm2 c := if discriminator_instancenorm args then Some (InstanceNorm2d c) else None in
  let inorm1 c := if discriminator_instancenorm args then Some (InstanceNorm1d c) else None in
  omap (λ m : option Layer, m) [
    Some (Conv2d 6 64 4 2 1);
    inorm2 64;
    Some LeakyReLU;
    Some (Conv2d 64 128 4 2 1);
    inorm2 128;
    Some LeakyReLU;
    Some (Reshape [-1; 128 * 8 * 8]);
    Some (Linear (128 * 8 * 8) 1024);
    inorm1 1024;
    Some LeakyReLU;
    Some (Linear 1024 1);
    Some (Reshape [-1]) ].

(** [torch.cat((x, y), dim=1)] on shapes: all axes but the channel axis must
    agree. *)
Definition cat1_shape (sx sy : list Z) : option (list Z) :=
  match sx, sy with
  | n :: c :: rest, n' :: c' :: rest' =>
      if decide (n = n' ∧ rest = rest') then Some (n :: (c + c') :: rest) else None
  | _, _ => None
  end.

(** [CDiscriminatorNetwork.forward] on shapes. *)
Definition CDiscriminatorNetwork_shape (torch : Torch) (args : Args)
    (sx sy : list Z) : option (list Z) :=
  h ← cat1_shape sx sy;
  sequential_shape torch (CDiscriminatorNetwork_trunk args) h.

(** *** Element values

    A tensor is its shape and its elements, addressed by a multi-index.
    Elements are idealised as real numbers. *)
Record Tensor := { shape : list Z; elem : list Z → R }.

(** [nn.Sigmoid]. *)
Definition sigmoid (x : R) : R := (1 / (1 + exp (- x)))%R.

(** [nn.LeakyReLU()] with its default negative slope [0.01]:
    [max(0, x) + negative_slope * min(0, x)]. *)
Definition leaky_relu (x : R) : R := (Rmax 0 x + (1 / 100) * Rmin 0 x)%R.

(** The elements computed by the layers that hold weights or draw random
    masks (convolutions, linear maps, normalisations, dropout) and by the
    re-indexing of [Reshape]: they depend on the parameters and on the
    random state, which are left open. *)
Class Weights := { learned : Layer → Tensor → list Z → R }.

Definition layer_forward `{Weights} (torch : Torch) (m : Layer) (t : Tensor)
  : option Tensor :=
  s' ← out_shape torch m (shape t);
  Some {| shape := s';
          elem := match m with
                  | Sigmoid => λ i, sigmoid (elem t i)
                  | LeakyReLU => λ i, leaky_relu (elem t i)
                  | _ => learned m t
                  end |}.

(** [nn.Sequential.forward]. *)
Fixpoint Sequential_forward `{Weights} (torch : Torch) (ms : list Layer)
    (t : Tensor) : option Tensor :=
  match ms with
  | [] => Some t
  | m :: ms' => t' ← layer_forward torch m t; Sequential_forward torch ms' t'
  end.

(** [torch.cat((x, y), dim=1)]. *)
Definition cat1 (x y : Tensor) : option Tensor :=
  s ← cat1_shape (shape x) (shape y);
  Some {| shape := s;
          elem := λ i, match i, shape x with
                       | n :: c :: rest, _ :: cx :: _ =>
                           if c <? cx then elem x i else elem y (n :: (c - cx) :: rest)
                       | _, _ => 0%R
                       end |}.

(** [CDiscriminatorNetwork.forward]. *)
Definition CDiscriminatorNetwork_forward `{Weights} (torch : Torch) (args : Args)
    (x y : Tensor) : option Tensor :=
  h ← cat1 x y;
  Sequential_forward torch (CDiscriminatorNetwork_trunk args) h.

(** A weight-free instance, all learned layers returning zeros, to run the
    stacks on concrete shapes. *)
Definition zero_weights : Weights := {| learned := λ _ _ _, 0%R |}.

Definition zeros (s : list Z) : Tensor := {| shape := s; elem := λ _, 0%R |}.

End Net.

(** * Dataset, model wrapper, loss, callbacks and training loop *)

Module Gan.

(** The two sub-networks of [CGANModel]; a parameter tensor is named by the
    sub-network that owns it and its position in [.parameters()]. *)
Inductive Submodule : Type := discriminator | generator.

#[global] Instance Submodule_eq_dec : EqDecision Submodule.
Proof. solve_decision. Defined.

#[global] Instance Submodule_countable : Countable Submodule.
Proof.
  refine (inj_countable'
            (λ s, match s with discriminator => false | generator => true end)
            (λ b : bool, if b then generator else discriminator) _).
  by intros [].
Defined.

Abbreviation pname := (Submodule * nat)%type.

(** What the numeric framework computes.  A batch (a tensor with a leading
    batch axis) is the list of its rows; [Img] is one [C×H×W] image, [Val] a
    parameter or gradient tensor, [Loss] a scalar that still carries its
    differentiation graph.

    [format_images], [initializer] ([gan_utils]) and the two WGAN losses
    ([wgan_loss]) are imported by the program from modules of the repository
    that are outside [src/].

    The operations are total here.  In the framework they raise on tensors
    whose shapes do not fit (a condition batch of another size than the
    image batch, images the networks do not accept; [Net] has the shapes):
    a statement below about a step or a run that returns is about the steps
    and runs in which the framework's operations returned. *)
Class Backend := {
  Img : Type;
  Scores : Type;
  Val : Type;
  Loss : Type;
  Moments : Type;
  (** the generator on a batch of conditions, given its parameters and the
      train/eval mode (dropout) *)
  generator_forward : gmap pname Val → bool → list Img → list Img;
  (** the critic on a batch of images and a batch of conditions *)
  discriminator_forward : gmap pname Val → list Img → list Img → Scores;
  format_images : list Img → list Img;
  (** [ε·xreal + (1−ε)·xfake] for freshly drawn [ε] *)
  interpolate : list Img → list Img → list Img;
  (** [mean(yfake) − mean(yreal) + λ·penalty(ymix, xmix)] *)
  wgan_discriminator_loss : Scores → Scores → Scores → list Img → Loss;
  (** [−mean(yfake)] *)
  wgan_generator_loss : Scores → Loss;
  (** the gradient that [loss.backward()] sends to each parameter it reaches *)
  backward_grads : Loss → gmap pname Val;
  accumulate : Val → Val → Val;
  zeros_like : Val → Val;
  (** one Adam update of a parameter from its gradient and moment estimates *)
  adam : option Moments → Val → Val → Moments * Val;
  (** the parameter values after [self.apply(initializer)] *)
  initializer : gmap pname Val
}.

Section Program.
Context `{Backend}.

(** ** [class DNIMWrapper(Dataset)] *)

Record DNIMWrapper := { days : list Img; nights : list Img }.

(** [__init__]: [data] is the array read by [np.load], one row per pair;
    [data[:, 0]] are the days and [data[:, 1]] the nights. *)
Definition DNIMWrapper_init (data : list (Img * Img)) : DNIMWrapper :=
  {| days := data.*1; nights := data.*2 |}.

Definition DNIMWrapper_len (self : DNIMWrapper) : nat := length (days self).

(** [__getitem__]: the tuple [(x, y, y)], [None] for [IndexError].  The
    index is one of those the program passes: the sampler's, the literal [0]
    of the image callback and the outcome of [randint(0, len)], none of
    which is negative (Python would count a negative index from the end). *)
Definition DNIMWrapper_getitem (self : DNIMWrapper) (item : nat)
  : option (list Img) :=
  x ← days self !! item;
  y ← nights self !! item;
  Some [x; y; y].

(** ** [DataLoader] *)

Record DataLoader := { dataset : DNIMWrapper; loader_batch_size : Z }.

(** [DataLoader(..., shuffle=True)] raises [ValueError] on an empty dataset
    (its random sampler needs a positive number of samples) and unless the
    batch size is positive. *)
Definition dnim_cgan_data_loader (args : Args) (data : list (Img * Img))
  : option DataLoader :=
  match data with
  | [] => None
  | _ =>
      if 0 <? batch_size args
      then Some {| dataset := DNIMWrapper_init data;
                   loader_batch_size := batch_size args |}
      else None
  end.

(** The batch sampler: consecutive groups of [b] indices, the last one
    possibly shorter ([drop_last] is off). *)
Fixpoint chunks {A} (fuel b : nat) (l : list A) : list (list A) :=
  match fuel with
  | O => []
  | S fuel' =>
      match l with
      | [] => []
      | _ => take b l :: chunks fuel' b (drop b l)
      end
  end.

Definition batch_sampler {A} (b : nat) (l : list A) : list (list A) :=
  chunks (length l) b l.

(** The default collate function: a list of tuples becomes the tuple of
    the stacked components. *)
Definition collate (items : list (list Img)) : list (list Img) :=
  (λ k, omap (λ item : list Img, item !! k) items) <$> seq 0 3.

(** One batch of the loader, for the indices the sampler yields. *)
Definition fetch_batch (loader : DataLoader) (idxs : list nat)
  : option (list (list Img)) :=
  items ← mapM (DNIMWrapper_getitem (dataset loader)) idxs;
  Some (collate items).

(** ** [class CGANModel(nn.Module)] *)

Record CGANModel := {
  _state_hooks : gmap string (list Img);
  data : gmap pname Val;
  grad : gmap pname Val;
  training : bool
}.

Definition set_hooks (h : gmap string (list Img)) (m : CGANModel) : CGANModel :=
  {| _state_hooks := h; data := data m; grad := grad m; training := training m |}.

Definition set_data (d : gmap pname Val) (m : CGANModel) : CGANModel :=
  {| _state_hooks := _state_hooks m; data := d; grad := grad m; training := training m |}.

Definition set_grad (g : gmap pname Val) (m : CGANModel) : CGANModel :=
  {| _state_hooks := _state_hooks m; data := data m; grad := g; training := training m |}.

Definition set_training (b : bool) (m : CGANModel) : CGANModel :=
  {| _state_hooks := _state_hooks m; data := data m; grad := grad m; training := b |}.

(** [model.<sub>.parameters()] *)
Definition parameters (sub : Submodule) (m : CGANModel) : gmap pname Val :=
  filter (λ kv, kv.1.1 = sub) (data m).

Definition CGANModel_init : CGANModel :=
  {| _state_hooks := ∅; data := initializer; grad := ∅; training := true |}.

Definition CGANModel_generate (self : CGANModel) (y : list Img)
  : list Img * CGANModel :=
  let xfake := generator_forward (parameters generator self) (training self) y in
  let h1 := <["xfake" := xfake]> (_state_hooks self) in
  let h2 := <["y" := y]> h1 in
  let h3 := <["generated_images" := format_images xfake]> h2 in
  (xfake, set_hooks h3 self).

Definition CGANModel_discriminate (self : CGANModel) (x y : list Img) : Scores :=
  discriminator_forward (parameters discriminator self) x y.

Definition CGANModel_y_fake (self : CGANModel) (y : list Img) : Scores * CGANModel :=
  let '(xfake, self1) := CGANModel_generate self y in
  (CGANModel_discriminate self1 xfake y, self1).

Definition CGANModel_y_real (self : CGANModel) (xreal y : list Img)
  : Scores * CGANModel :=
  let yreal := CGANModel_discriminate self xreal y in
  let h1 := <["xreal" := xreal]> (_state_hooks self) in
  let h2 := <["real_images" := format_images xreal]> h1 in
  (yreal, set_hooks h2 self).

(** [forward]: the tuple is evaluated left to right. *)
Definition CGANModel_forward (self : CGANModel) (xreal y : list Img)
  : (Scores * Scores) * CGANModel :=
  let '(yreal, self1) := CGANModel_y_real self xreal y in
  let '(yfake, self2) := CGANModel_y_fake self1 y in
  ((yreal, yfake), self2).

(** ** [class CWGANDiscriminatorLoss(WGANDiscriminatorLoss)] *)

(** [discriminate]: [None] is the [KeyError] of a missing ['y']. *)
Definition CWGANDiscriminatorLoss_discriminate (model : CGANModel)
    (xmix : list Img) : option Scores :=
  y ← _state_hooks model !! "y";
  Some (CGANModel_discriminate model xmix y).

(** Modelled from the spec: [WGANDiscriminatorLoss.forward] of [wgan_loss],
    which is not under [src/].  The loss takes the pair of scores returned by
    the model, reads the real and the generated images back from the model
    wrapper's cache, interpolates them, scores the interpolation through
    [self.discriminate] (the method overridden above) and combines the
    three scores with the gradient penalty. *)
Definition WGANDiscriminatorLoss_forward (model : CGANModel)
    (prediction : Scores * Scores) (target : list (list Img)) : option Loss :=
  xreal ← _state_hooks model !! "xreal";
  xfake ← _state_hooks model !! "xfake";
  let xmix := interpolate xreal xfake in
  ymix ← CWGANDiscriminatorLoss_discriminate model xmix;
  Some (wgan_discriminator_loss prediction.1 prediction.2 ymix xmix).

(** *** Sequences of calls on the model wrapper *)

Inductive Call : Type :=
| call_generate (y : list Img)
| call_discriminate (x y : list Img)
| call_y_fake (y : list Img)
| call_y_real (xreal y : list Img)
| call_forward (xreal y : list Img).

Definition exec_call (m : CGANModel) (c : Call) : CGANModel :=
  match c with
  | call_generate y => (CGANModel_generate m y).2
  | call_discriminate x y => m
  | call_y_fake y => (CGANModel_y_fake m y).2
  | call_y_real xreal y => (CGANModel_y_real m xreal y).2
  | call_forward xreal y => (CGANModel_forward m xreal y).2
  end.

(** The state of the wrapper after the calls of [trace], oldest first. *)
Definition exec (trace : list Call) (m : CGANModel) : CGANModel :=
  foldl exec_call m trace.

(** The condition of the most recent call that generates ([generate],
    [y_fake], or [forward], which ends in [y_fake]). *)
Definition last_generate (trace : list Call) : option (list Img) :=
  last (omap (λ c, match c with
                   | call_generate y | call_y_fake y | call_forward _ y => Some y
                   | _ => None
                   end) trace).

(** The condition of the most recent call of [generate], [y_fake] or
    [y_real], whichever came last. *)
Definition last_generate_or_y_real (trace : list Call) : option (list Img) :=
  last (omap (λ c, match c with
                   | call_generate y | call_y_fake y | call_forward _ y
                   | call_y_real _ y => Some y
                   | _ => None
                   end) trace).

(** ** Autograd and [torch.optim.Adam] *)

(** [loss.backward()]: gradients accumulate in [.grad] of every parameter
    the loss reaches, whichever optimizer holds it. *)
Definition backward (loss : Loss) (m : CGANModel) : CGANModel :=
  set_grad (union_with (λ g0 g, Some (accumulate g0 g)) (grad m) (backward_grads loss)) m.

Record Adam := {
  param_groups : gset pname;
  state : gmap pname Moments;
  steps : nat  (* calls of [step] so far *)
}.

Definition Adam_init (params : gmap pname Val) : Adam :=
  {| param_groups := dom params; state := ∅; steps := 0 |}.

(** [zero_grad]: only the gradients of the optimizer's own parameters. *)
Definition Adam_zero_grad (self : Adam) (m : CGANModel) : CGANModel :=
  set_grad (map_imap (λ p g, Some (if decide (p ∈ param_groups self)
                                   then zeros_like g else g)) (grad m)) m.

(** The update of parameter [p] in [step], if [p] is one of the optimizer's
    parameters and has a gradient. *)
Definition Adam_update (self : Adam) (m : CGANModel) (p : pname) (v : Val)
  : option (Moments * Val) :=
  if decide (p ∈ param_groups self)
  then g ← grad m !! p; Some (adam (state self !! p) v g)
  else None.

Definition Adam_step (self : Adam) (m : CGANModel) : Adam * CGANModel :=
  let data' := map_imap (λ p v, Some (from_option snd v (Adam_update self m p v))) (data m) in
  let state' := map_imap (λ p v, fst <$> Adam_update self m p v) (data m) ∪ state self in
  ({| param_groups := param_groups self; state := state'; steps := S (steps self) |},
   set_data data' m).

(** ** The callbacks and the trainer *)

Record CGenerateDataCallback := {
  gd_count : Z;
  gd_image_count : nat;
  gd_frequency : Z;
  gd_gridsize : Z;
  gd_dataset : DNIMWrapper;
  gd_y : list Img
}.

Record CGeneratorTrainingCallback := {
  gt_opt : Adam;
  gt_batch_size : Z;
  gt_count : Z;
  gt_frequency : Z;
  gt_dataset : DNIMWrapper;
  gt_len : nat
}.

(** The state of the [inferno] trainer the program builds: the model with
    the discriminator's optimizer, the two registered callbacks, and what the
    run leaves behind (the image files written, in order, and the number of
    draws taken from [np.random]). *)
Record Trainer := {
  model : CGANModel;
  optimizer : Adam;
  image_callback : CGenerateDataCallback;
  generator_callback : CGeneratorTrainingCallback;
  train_loader : DataLoader;
  max_num_epochs : Z;
  trainer_save_directory : string;
  files : list (string * list Img);
  np_random_calls : nat
}.

Definition set_model (m : CGANModel) (t : Trainer) : Trainer :=
  {| model := m; optimizer := optimizer t; image_callback := image_callback t;
     generator_callback := generator_callback t; train_loader := train_loader t;
     max_num_epochs := max_num_epochs t;
     trainer_save_directory := trainer_save_directory t;
     files := files t; np_random_calls := np_random_calls t |}.

Definition set_optimizer (o : Adam) (t : Trainer) : Trainer :=
  {| model := model t; optimizer := o; image_callback := image_callback t;
     generator_callback := generator_callback t; train_loader := train_loader t;
     max_num_epochs := max_num_epochs t;
     trainer_save_directory := trainer_save_directory t;
     files := files t; np_random_calls := np_random_calls t |}.

Definition set_image_callback (c : CGenerateDataCallback) (t : Trainer) : Trainer :=
  {| model := model t; optimizer := optimizer t; image_callback := c;
     generator_callback := generator_callback t; train_loader := train_loader t;
     max_num_epochs := max_num_epochs t;
     trainer_save_directory := trainer_save_directory t;
     files := files t; np_random_calls := np_random_calls t |}.

Definition set_generator_callback (c : CGeneratorTrainingCallback) (t : Trainer)
  : Trainer :=
  {| model := model t; optimizer := optimizer t; image_callback := image_callback t;
     generator_callback := c; train_loader := train_loader t;
     max_num_epochs := max_num_epochs t;
     trainer_save_directory := trainer_save_directory t;
     files := files t; np_random_calls := np_random_calls t |}.

Definition set_files (f : list (string * list Img)) (t : Trainer) : Trainer :=
  {| model := model t; optimizer := optimizer t; image_callback := image_callback t;
     generator_callback := generator_callback t; train_loader := train_loader t;
     max_num_epochs := max_num_epochs t;
     trainer_save_directory := trainer_save_directory t;
     files := f; np_random_calls := np_random_calls t |}.

Definition set_np_random_calls (n : nat) (t : Trainer) : Trainer :=
  {| model := model t; optimizer := optimizer t; image_callback := image_callback t;
     generator_callback := generator_callback t; train_loader := train_loader t;
     max_num_epochs := max_num_epochs t;
     trainer_save_directory := trainer_save_directory t;
     files := files t; np_random_calls := n |}.

Definition gd_set_count (c : Z) (self : CGenerateDataCallback) : CGenerateDataCallback :=
  {| gd_count := c; gd_image_count := gd_image_count self;
     gd_frequency := gd_frequency self; gd_gridsize := gd_gridsize self;
     gd_dataset := gd_dataset self; gd_y := gd_y self |}.

Definition gd_set_image_count (n : nat) (self : CGenerateDataCallback)
  : CGenerateDataCallback :=
  {| gd_count := gd_count self; gd_image_count := n;
     gd_frequency := gd_frequency self; gd_gridsize := gd_gridsize self;
     gd_dataset := gd_dataset self; gd_y := gd_y self |}.

Definition gt_set_count (c : Z) (self : CGeneratorTrainingCallback)
  : CGeneratorTrainingCallback :=
  {| gt_opt := gt_opt self; gt_batch_size := gt_batch_size self; gt_count := c;
     gt_frequency := gt_frequency self; gt_dataset := gt_dataset self;
     gt_len := gt_len self |}.

Definition gt_set_opt (o : Adam) (self : CGeneratorTrainingCallback)
  : CGeneratorTrainingCallback :=
  {| gt_opt := o; gt_batch_size := gt_batch_size self; gt_count := gt_count self;
     gt_frequency := gt_frequency self; gt_dataset := gt_dataset self;
     gt_len := gt_len self |}.

(** *** [class CGenerateDataCallback(Callback)] *)

(** [os.sep], the path separator ['/'] of [posixpath]. *)
Definition os_sep : Ascii.ascii := Ascii.ascii_of_nat 47.

Definition startswith_sep (s : string) : bool :=
  match s with
  | String c _ => bool_decide (c = os_sep)
  | EmptyString => false
  end.

Fixpoint endswith_sep (s : string) : bool :=
  match s with
  | EmptyString => false
  | String c EmptyString => bool_decide (c = os_sep)
  | String _ s' => endswith_sep s'
  end.

(** [os.path.join(a, b)]: an absolute [b] replaces [a]; otherwise [b] is
    appended, after a separator unless [a] is empty or already ends in
    one. *)
Definition os_path_join (a b : string) : string :=
  if startswith_sep b then b
  else if bool_decide (a = EmptyString) || endswith_sep a then a +:+ b
  else a +:+ String os_sep EmptyString +:+ b.

(** ['{:08d}'.format(n)] for a natural number: its decimal digits, padded
    with zeros on the left to at least eight characters. *)
Definition format_08d (n : nat) : string :=
  let digits := NilZero.string_of_uint (Nat.to_uint n) in
  String.concat "" (replicate (8 - String.length digits) "0"%string) +:+ digits.

(** [int(s)] for a non-empty string of decimal digits (leading zeros
    allowed), [None] where Python raises [ValueError]: the inverse used to
    read a counter back from a file name. *)
Definition int_of_digits (s : string) : option nat :=
  Nat.of_uint <$> NilZero.uint_of_string s.

(** [__init__]: [self.dataset[0][1].unsqueeze(0)] is a batch of one. *)
Definition CGenerateDataCallback_init (args : Args) (gridsize : Z)
    (data : list (Img * Img)) : option CGenerateDataCallback :=
  let ds := DNIMWrapper_init data in
  item ← DNIMWrapper_getitem ds 0;
  y ← item !! 1%nat;
  Some {| gd_count := 0; gd_image_count := 0;
          gd_frequency := image_frequency args; gd_gridsize := gridsize;
          gd_dataset := ds; gd_y := [y] |}.

(** [generate]: eval mode, generate from the stored condition, train mode. *)
Definition CGenerateDataCallback_generate (t : Trainer) : list Img * Trainer :=
  let m := set_training false (model t) in
  let y := gd_y (image_callback t) in
  let '(generated, m1) := CGANModel_generate m y in
  (generated, set_model (set_training true m1) t).

Definition CGenerateDataCallback_save_images (t : Trainer) : Trainer :=
  let self := image_callback t in
  let path := os_path_join (trainer_save_directory t) "generated_images" in
  let image_path := os_path_join path (format_08d (gd_image_count self) +:+ ".png") in
  let t1 := set_image_callback (gd_set_image_count (S (gd_image_count self)) self) t in
  let '(generated, t2) := CGenerateDataCallback_generate t1 in
  let grid := format_images generated in
  set_files (files t2 ++ [(image_path, grid)]) t2.

Definition CGenerateDataCallback_end_of_training_iteration (t : Trainer) : Trainer :=
  let self := image_callback t in
  let t1 := set_image_callback (gd_set_count (gd_count self + 1) self) t in
  if gd_count (image_callback t1) >? gd_frequency (image_callback t1)
  then let t2 := CGenerateDataCallback_save_images t1 in
       set_image_callback (gd_set_count 0 (image_callback t2)) t2
  else t1.

(** *** [class CGeneratorTrainingCallback(Callback)] *)

Definition CGeneratorTrainingCallback_init (args : Args)
    (parameters : gmap pname Val) (data : list (Img * Img))
  : CGeneratorTrainingCallback :=
  let ds := DNIMWrapper_init data in
  {| gt_opt := Adam_init parameters; gt_batch_size := batch_size args;
     gt_count := 0; gt_frequency := generator_frequency args;
     gt_dataset := ds; gt_len := DNIMWrapper_len ds |}.

(** [np.random.randint(low, high)] draws from the discrete uniform
    distribution on [[low, high)]: the list of its equally likely outcomes. *)
Definition np_random_randint (low high : Z) : list Z :=
  (λ k : nat, low + Z.of_nat k) <$> seq 0 (Z.to_nat (high - low)).

(** The outcome a raw random number [r] selects among equally likely
    ones; [None] is numpy's [ValueError] for an empty range. *)
Definition sample {A} (r : nat) (outcomes : list A) : option A :=
  outcomes !! (r mod length outcomes)%nat.

(** What a run takes from outside the program: the order in which the
    shuffling sampler visits the dataset in each pass over the loader, the
    raw numbers behind the successive calls of [np.random.randint], and the
    order in which the trainer goes through its callbacks.  The trainer
    keeps the callbacks of an event in a [set], so they are called in the
    set's iteration order, which need not be the order of registration; it
    is the same in every iteration of a run. *)
Record Entropy := {
  sampler_order : nat → list nat;
  np_random_raw : nat → nat;
  image_callback_first : bool
}.

(** The condition of [train_generator] for the drawn index [i]:
    [self.dataset[i][1]] with a batch axis in front ([unsqueeze(0)]). *)
Definition CGeneratorTrainingCallback_condition (self : CGeneratorTrainingCallback)
    (i : Z) : option (list Img) :=
  item ← DNIMWrapper_getitem (gt_dataset self) (Z.to_nat i);
  y0 ← item !! 1%nat;
  Some [y0].

(** [train_generator], once the index [i] has been drawn. *)
Definition CGeneratorTrainingCallback_train_generator_at (i : Z) (t : Trainer)
  : option Trainer :=
  let self := generator_callback t in
  y ← CGeneratorTrainingCallback_condition self i;
  let '(yfake, m1) := CGANModel_y_fake (model t) y in
  let loss := wgan_generator_loss yfake in
  let m2 := Adam_zero_grad (gt_opt self) m1 in
  let m3 := backward loss m2 in
  let '(opt', m4) := Adam_step (gt_opt self) m3 in
  Some (set_generator_callback (gt_set_opt opt' self) (set_model m4 t)).

Definition CGeneratorTrainingCallback_train_generator (ent : Entropy) (t : Trainer)
  : option Trainer :=
  let self := generator_callback t in
  i ← sample (np_random_raw ent (np_random_calls t))
             (np_random_randint 0 (Z.of_nat (gt_len self)));
  CGeneratorTrainingCallback_train_generator_at i
    (set_np_random_calls (S (np_random_calls t)) t).

Definition CGeneratorTrainingCallback_end_of_training_iteration (ent : Entropy)
    (t : Trainer) : option Trainer :=
  let self := generator_callback t in
  let t1 := set_generator_callback (gt_set_count (gt_count self + 1) self) t in
  if gt_count (generator_callback t1) >? gt_frequency (generator_callback t1)
  then t2 ← CGeneratorTrainingCallback_train_generator ent t1;
       Some (set_generator_callback (gt_set_count 0 (generator_callback t2)) t2)
  else Some t1.

(** *** The trainer *)

(** The loader was bound with [num_inputs=2]: the first two components of
    a batch are the arguments of [model.forward], the rest is the target. *)
Definition training_inputs (loader : DataLoader) (idxs : list nat)
  : option (list Img * list Img * list (list Img)) :=
  batch ← fetch_batch loader idxs;
  let inputs := take 2 batch in
  let target := drop 2 batch in
  xreal ← inputs !! 0%nat;
  y ← inputs !! 1%nat;
  Some (xreal, y, target).

(** The optimization step of the trainer on the batch with indices [idxs]:
    the criterion and the optimizer are the discriminator's. *)
Definition discriminator_step (idxs : list nat) (t : Trainer) : option Trainer :=
  '(xreal, y, target) ← training_inputs (train_loader t) idxs;
  let m1 := Adam_zero_grad (optimizer t) (model t) in
  let '(prediction, m2) := CGANModel_forward m1 xreal y in
  loss ← WGANDiscriminatorLoss_forward m2 prediction target;
  let m3 := backward loss m2 in
  let '(opt', m4) := Adam_step (optimizer t) m3 in
  Some (set_optimizer opt' (set_model m4 t)).

(** The event [end_of_training_iteration]: both callbacks are called, in
    the order of the trainer's callback set. *)
Definition end_of_training_iteration (ent : Entropy) (t : Trainer) : option Trainer :=
  if image_callback_first ent
  then CGeneratorTrainingCallback_end_of_training_iteration ent
         (CGenerateDataCallback_end_of_training_iteration t)
  else t1 ← CGeneratorTrainingCallback_end_of_training_iteration ent t;
       Some (CGenerateDataCallback_end_of_training_iteration t1).

(** One training iteration: the optimization step, then the callbacks. *)
Definition train_iteration (ent : Entropy) (idxs : list nat) (t : Trainer)
  : option Trainer :=
  t1 ← discriminator_step idxs t;
  end_of_training_iteration ent t1.

Fixpoint train_epoch (ent : Entropy) (batches : list (list nat)) (t : Trainer)
  : option Trainer :=
  match batches with
  | [] => Some t
  | idxs :: rest => t' ← train_iteration ent idxs t; train_epoch ent rest t'
  end.

(** The batches of the [e]-th pass over the loader (counted from 0). *)
Definition epoch_batches (ent : Entropy) (t : Trainer) (e : nat) : list (list nat) :=
  batch_sampler (Z.to_nat (loader_batch_size (train_loader t))) (sampler_order ent e).

(** [n] full passes over the loader, starting with pass [e]. *)
Fixpoint fit_from (ent : Entropy) (n e : nat) (t : Trainer) : option Trainer :=
  match n with
  | O => Some t
  | S n' => t' ← train_epoch ent (epoch_batches ent t e) t; fit_from ent n' (S e) t'
  end.

(** [trainer.fit()] after [set_max_num_epochs].  The trainer asks whether to
    stop before each fetch, and counts an epoch only when a fetch finds the
    loader exhausted: it then restarts the loader (a fresh shuffle), fetches
    the first batch of the new pass and trains it.  So with a limit of
    [E ≥ 1] epochs it trains [E] full passes and then the first batch of one
    more pass, after which the count has reached the limit; with [E ≤ 0] it
    stops before the first fetch.  [None] in the last line is the
    [StopIteration] of a loader that yields nothing after a restart. *)
Definition fit (ent : Entropy) (t : Trainer) : option Trainer :=
  match Z.to_nat (max_num_epochs t) with
  | O => Some t
  | S _ as n =>
      t' ← fit_from ent n 0 t;
      match epoch_batches ent t' n with
      | idxs :: _ => train_iteration ent idxs t'
      | [] => None
      end
  end.

(** ** [run] *)

(** The part of [run] before [trainer.fit()]: the loader, the model, the
    discriminator's optimizer and the two callbacks.  Saving the command
    line, the checkpoints and the TensorBoard logger write files of their own
    and do not touch the model; they are left out. *)
Definition build_trainer (args : Args) (file : list (Img * Img)) : option Trainer :=
  loader ← dnim_cgan_data_loader args file;
  let m := CGANModel_init in
  image_cb ← CGenerateDataCallback_init args 1 file;
  Some {| model := m;
          optimizer := Adam_init (parameters discriminator m);
          image_callback := image_cb;
          generator_callback :=
            CGeneratorTrainingCallback_init args (parameters generator m) file;
          train_loader := loader;
          max_num_epochs := epochs args;
          trainer_save_directory := save_directory args;
          files := [];
          np_random_calls := 0 |}.

Definition run (args : Args) (file : list (Img * Img)) (ent : Entropy)
  : option Trainer :=
  t ← build_trainer args file;
  fit ent t.

(** ** What [run] fixes once and for all *)

(** Each optimizer holds the parameters of one sub-network only:
    [build_optimizer('Adam', model.discriminator.parameters(), ...)] and
    [Adam(model.generator.parameters(), ...)]. *)
Definition optimizers_as_built (t : Trainer) : Prop :=
  (∀ p, p ∈ param_groups (optimizer t) → p.1 = discriminator) ∧
  (∀ p, p ∈ param_groups (gt_opt (generator_callback t)) → p.1 = generator).

(** The loader and the two callbacks read the same file, and the
    frequencies and directories are those of the command line. *)
Definition configured (args : Args) (file : list (Img * Img)) (t : Trainer) : Prop :=
  train_loader t = {| dataset := DNIMWrapper_init file;
                      loader_batch_size := batch_size args |} ∧
  max_num_epochs t = epochs args ∧
  trainer_save_directory t = save_directory args ∧
  gd_frequency (image_callback t) = image_frequency args ∧
  gt_frequency (generator_callback t) = generator_frequency args ∧
  gt_dataset (generator_callback t) = DNIMWrapper_init file ∧
  gt_len (generator_callback t) = length file.

(** The name of the [k]-th image file. *)
Definition image_path (args : Args) (k : nat) : string :=
  os_path_join (os_path_join (save_directory args) "generated_images")
               (format_08d k +:+ ".png").

(** The number of iterations between two firings of a callback whose
    frequency is [f]: its counter is incremented first and must then exceed
    [f]. *)
Definition period (f : Z) : Z := Z.max f 0 + 1.

(** Batches in one pass over [d] samples in batches of [b]: [ceil(d / b)]. *)
Definition batches_per_epoch (d b : Z) : Z := (d + b - 1) / b.

(** The number of training iterations of a run of [E] epochs over [D]
    samples in batches of [B]: [E · ceil(D / B) + 1] for [E ≥ 1] ([E] full
    passes and the first batch of one more), none otherwise. *)
Definition iterations (args : Args) (file : list (Img * Img)) : Z :=
  if decide (1 <= epochs args)
  then epochs args * batches_per_epoch (Z.of_nat (length file)) (batch_size args) + 1
  else 0.

(** The state of the schedule after [n] training iterations. *)
Definition schedule_inv (args : Args) (file : list (Img * Img)) (n : Z)
    (t : Trainer) : Prop :=
  configured args file t ∧
  optimizers_as_built t ∧
  Z.of_nat (steps (optimizer t)) = n ∧
  gd_count (image_callback t) = n mod period (image_frequency args) ∧
  Z.of_nat (gd_image_count (image_callback t)) = n / period (image_frequency args) ∧
  (files t).*1 = image_path args <$> seq 0 (gd_image_count (image_callback t)) ∧
  gt_count (generator_callback t) = n mod period (generator_frequency args) ∧
  Z.of_nat (steps (gt_opt (generator_callback t)))
    = n / period (generator_frequency args).

(** The files written so far all show the image callback's condition [y0],
    rendered by the generator in eval mode. *)
Definition files_show (y0 : list Img) (t : Trainer) : Prop :=
  gd_y (image_callback t) = y0 ∧
  Forall (λ f : string * list Img,
            ∃ ps, f.2 = format_images (generator_forward ps false y0)) (files t).

End Program.

(** ** A small concrete backend

    Images and parameter tensors are integers, the generator adds its
    (single) parameter to every image, gradients are [1] and an update
    subtracts the gradient.  It serves to run the program on concrete
    inputs. *)
Definition toy_backend : Backend := {|
  Img := Z;
  Scores := list Z;
  Val := Z;
  Loss := Z;
  Moments := unit;
  generator_forward := λ ps _ y, (λ v, v + default 0 (ps !! (generator, 0%nat))) <$> y;
  discriminator_forward := λ ps x y,
    (λ v, v * default 0 (ps !! (discriminator, 0%nat))) <$> (x ++ y);
  format_images := λ x, x;
  interpolate := λ xreal xfake, xreal;
  wgan_discriminator_loss := λ yreal yfake ymix _, 0;
  wgan_generator_loss := λ yfake, 0;
  backward_grads := λ _, {[ (discriminator, 0%nat) := 1; (generator, 0%nat) := 1 ]};
  accumulate := Z.add;
  zeros_like := λ _, 0;
  adam := λ _ v g, (tt, v - g);
  initializer := {[ (discriminator, 0%nat) := 10; (generator, 0%nat) := 20 ]}
|}.

(** The identity order for every epoch, [0] for every raw draw, and the
    image callback called before the generator callback. *)
Definition plain_entropy (d : nat) : Entropy :=
  {| sampler_order := λ _, seq 0 d; np_random_raw := λ _, 0%nat;
     image_callback_first := true |}.

(** The end-to-end scenario: batch size 2, 2 epochs, both frequencies 1. *)
Definition scenario_args : Args := {|
  save_directory := "out";
  batch_size := 2;
  epochs := 2;
  image_frequency := 1;
  generator_frequency := 1;
  discriminator_instancenorm := false;
  generator_instancenorm := true;
  cuda := false
|}.

(** The smallest run: one pair, one epoch, batches of one, both
    frequencies 1. *)
Definition single_args : Args := {|
  save_directory := "out";
  batch_size := 1;
  epochs := 1;
  image_frequency := 1;
  generator_frequency := 1;
  discriminator_instancenorm := false;
  generator_instancenorm := true;
  cuda := false
|}.

(** Four (day, night) pairs of the small backend. *)
Definition toy_file : list (Z * Z) := [(1, 11); (2, 12); (3, 13); (4, 14)].

(** The trainer [run] builds for the scenario on the small backend. *)
Definition toy_trainer : Trainer (H := toy_backend) :=
  let m := CGANModel_init (H := toy_backend) in
  {| model := m;
     optimizer := Adam_init (parameters discriminator m);
     image_callback := {| gd_count := 0; gd_image_count := 0; gd_frequency := 1;
                          gd_gridsize := 1;
                          gd_dataset := DNIMWrapper_init (H := toy_backend) toy_file;
                          gd_y := [11] |};
     generator_callback :=
       CGeneratorTrainingCallback_init (H := toy_backend) scenario_args
         (parameters generator m) toy_file;
     train_loader := {| dataset := DNIMWrapper_init (H := toy_backend) toy_file;
                        loader_batch_size := 2 |};
     max_num_epochs := 2;
     trainer_save_directory := "out";
     files := [];
     np_random_calls := 0 |}.

End Gan.

(** * Properties of the networks *)

Module NetFacts.
Import Net.

(** The shapes along the generator for the nominal input: the first
    convolution pads 32 to 36, the encoder reaches 4, the decoder 34, and
    the last valid convolution returns to 32. *)
Example generator_encoder_nominal :
  sequential_shape {| instancenorm1d_rank2 := false |}
    (take 16 (CGeneratorNetwork default_args)) [1; 3; 32; 32] = Some [1; 256; 4; 4].
Proof. by vm_compute. Qed.

Example generator_decoder_nominal :
  sequential_shape {| instancenorm1d_rank2 := false |}
    (take 27 (CGeneratorNetwork default_args)) [1; 3; 32; 32] = Some [1; 32; 34; 34].
Proof. by vm_compute. Qed.

Example discriminator_nominal :
  CDiscriminatorNetwork_shape {| instancenorm1d_rank2 := false |} default_args
    [7; 3; 32; 32] [7; 3; 32; 32] = Some [7].
Proof. by vm_compute. Qed.

Example view_ambiguous : view [2; 3] [-1; -1] = None.
Proof. by vm_compute. Qed.

Example view_mismatch : view [2; 3] [-1; 4] = None.
Proof. by vm_compute. Qed.


Section Forward.
Context `{Weights}.

Lemma layer_forward_shape torch m t :
  shape <$> layer_forward torch m t = out_shape torch m (shape t).
Proof.
  unfold layer_forward. destruct (out_shape torch m (shape t)); reflexivity.
Qed.

(** The forward pass succeeds exactly when the shapes fit, and then has the
    shape the shape pass computes. *)
Lemma Sequential_forward_shape torch ms t :
  shape <$> Sequential_forward torch ms t = sequential_shape torch ms (shape t).
Proof.
  revert t. induction ms as [|m ms IH]; intros t; simpl; [reflexivity|].
  pose proof (layer_forward_shape torch m t) as Hm.
  destruct (layer_forward torch m t) as [t'|]; simpl in *.
  - rewrite <- Hm. simpl. apply IH.
  - rewrite <- Hm. reflexivity.
Qed.




End Forward.


(** The four stride-2 stages and the final valid convolution, one axis at a
    time, for a length [8 * k]. *)
Lemma generator_axis (k : Z) :
  0 < k →
  conv_out (8 * k) 3 1 3 = Some (8 * k + 4) ∧
  conv_out (8 * k + 4) 4 2 1 = Some (4 * k + 2) ∧
  conv_out (4 * k + 2) 4 2 1 = Some (2 * k + 1) ∧
  conv_out (2 * k + 1) 4 2 1 = Some k ∧
  conv_transpose_out k 4 2 1 = Some (2 * k) ∧
  conv_transpose_out (2 * k) 4 2 1 = Some (4 * k) ∧
  conv_transpose_out (4 * k) 4 2 0 = Some (8 * k + 2) ∧
  conv_out (8 * k + 2) 3 1 0 = Some (8 * k).
Proof.
  intros Hk. unfold conv_out, conv_transpose_out.
  repeat split;
    repeat match goal with
           | |- context [?a <? ?b] => destruct (Z.ltb_spec a b); try lia
           | |- context [?a <=? ?b] => destruct (Z.leb_spec a b); try lia
           end;
    f_equal; Z.to_euclidean_division_equations; lia.
Qed.

Lemma out_shape_Conv2d torch n c cout k st p h w h' w' :
  conv_out h k st p = Some h' → conv_out w k st p = Some w' →
  out_shape torch (Conv2d c cout k st p) [n; c; h; w] = Some [n; cout; h'; w'].
Proof. intros Hh Hw. simpl. rewrite decide_True by reflexivity. by rewrite Hh, Hw. Qed.

Lemma out_shape_ConvTranspose2d torch n c cout k st p h w h' w' :
  conv_transpose_out h k st p = Some h' → conv_transpose_out w k st p = Some w' →
  out_shape torch (ConvTranspose2d c cout k st p) [n; c; h; w] = Some [n; cout; h'; w'].
Proof. intros Hh Hw. simpl. rewrite decide_True by reflexivity. by rewrite Hh, Hw. Qed.

Lemma sequential_shape_cons torch m ms s :
  sequential_shape torch (m :: ms) s = out_shape torch m s ≫= sequential_shape torch ms.
Proof. reflexivity. Qed.

Lemma out_shape_InstanceNorm2d torch c n c' h w :
  h * w ≠ 1 → out_shape torch (InstanceNorm2d c) [n; c'; h; w] = Some [n; c'; h; w].
Proof. intros Hhw. simpl. by rewrite decide_False. Qed.

Lemma out_shape_InstanceNorm2d_None torch c n c' h w :
  h * w = 1 → out_shape torch (InstanceNorm2d c) [n; c'; h; w] = None.
Proof. intros Hhw. simpl. by rewrite decide_True. Qed.

(** More than one spatial element. *)
Lemma spatial_l (a b : Z) : 2 <= a → 1 <= b → a * b ≠ 1.
Proof. nia. Qed.

Lemma spatial_r (a b : Z) : 1 <= a → 2 <= b → a * b ≠ 1.
Proof. nia. Qed.

Lemma out_shape_LeakyReLU torch s : out_shape torch LeakyReLU s = Some s.
Proof. reflexivity. Qed.

Lemma out_shape_Dropout torch s : out_shape torch Dropout s = Some s.
Proof. reflexivity. Qed.

Lemma out_shape_Sigmoid torch s : out_shape torch Sigmoid s = Some s.
Proof. reflexivity. Qed.

Lemma option_bind_Some {A B} (f : A → option B) (a : A) : Some a ≫= f = f a.
Proof. reflexivity. Qed.

(** One layer of a stack whose input shape is known. *)
Ltac shape_step :=
  rewrite sequential_shape_cons;
  first [ erewrite out_shape_Conv2d by eassumption
        | erewrite out_shape_ConvTranspose2d by eassumption
        | rewrite out_shape_InstanceNorm2d
            by first [ assumption
                     | apply spatial_l; Z.to_euclidean_division_equations; lia
                     | apply spatial_r; Z.to_euclidean_division_equations; lia ]
        | rewrite out_shape_LeakyReLU
        | rewrite out_shape_Dropout
        | rewrite out_shape_Sigmoid ];
  rewrite option_bind_Some.


Lemma out_shape_Linear torch fin fout n :
  out_shape torch (Linear fin fout) [n; fin] = Some [n; fout].
Proof. simpl. rewrite decide_True by reflexivity. reflexivity. Qed.

(** [view(-1, k)] of a tensor whose number of elements is a multiple of [k]. *)
Lemma view_rows s k :
  0 < k → numel s mod k = 0 → view s [-1; k] = Some [numel s / k; k].
Proof.
  intros Hk Hmod. unfold view.
  assert (Hf1 : filter (λ d, d ≠ -1) [-1; k] = [k]).
  { rewrite filter_cons_False by (intros ?; congruence).
    rewrite filter_cons_True by lia. reflexivity. }
  assert (Hf2 : filter (λ d, d = -1) [-1; k] = [-1]).
  { rewrite filter_cons_True by reflexivity.
    rewrite filter_cons_False by lia. reflexivity. }
  rewrite Hf1, Hf2. cbn [length numel fold_right]. rewrite Z.mul_1_r.
  rewrite decide_False by lia. rewrite decide_True by assumption.
  cbn [fmap list_fmap]. rewrite decide_True by reflexivity.
  rewrite decide_False by lia. reflexivity.
Qed.

(** [view(-1)]: everything in one axis. *)
Lemma view_flat s : view s [-1] = Some [numel s].
Proof.
  unfold view.
  assert (Hf1 : filter (λ d, d ≠ -1) [-1] = []).
  { rewrite filter_cons_False by (intros ?; congruence). reflexivity. }
  assert (Hf2 : filter (λ d, d = -1) [-1] = [-1]).
  { rewrite filter_cons_True by reflexivity. reflexivity. }
  rewrite Hf1, Hf2. cbn [length numel fold_right].
  rewrite decide_False by lia. rewrite decide_True by apply Z.mod_1_r.
  cbn [fmap list_fmap]. rewrite decide_True by reflexivity.
  rewrite Z.div_1_r. reflexivity.
Qed.

(** The two stride-2 convolutions of the critic divide an axis by four. *)
Lemma discriminator_axis (h : Z) :
  4 <= h →
  conv_out h 4 2 1 = Some (h / 2) ∧ conv_out (h / 2) 4 2 1 = Some (h / 4).
Proof.
  intros Hh. unfold conv_out.
  split;
    repeat match goal with
           | |- context [?a <? ?b] => destruct (Z.ltb_spec a b)
           end;
    try (exfalso; Z.to_euclidean_division_equations; lia);
    f_equal; Z.to_euclidean_division_equations; lia.
Qed.

Lemma CDiscriminatorNetwork_shape_rows torch args n h w :
  0 < h → 0 < w → (h / 4) * (w / 4) = 64 →
  (discriminator_instancenorm args = true → instancenorm1d_rank2 torch = true) →
  CDiscriminatorNetwork_shape torch args [n; 3; h; w] [n; 3; h; w] = Some [n].
Proof.
  intros Hh Hw Hhw Htoggle.
  assert (H4h : 4 <= h).
  { destruct (Z.le_gt_cases 4 h) as [|Hlt]; [assumption|].
    rewrite (Z.div_small h 4) in Hhw by lia. lia. }
  assert (H4w : 4 <= w).
  { destruct (Z.le_gt_cases 4 w) as [|Hlt]; [assumption|].
    rewrite (Z.div_small w 4) in Hhw by lia. lia. }
  destruct (discriminator_axis h H4h) as [a1 a2].
  destruct (discriminator_axis w H4w) as [b1 b2].
  assert (Hnumel : numel [n; 128; h / 4; w / 4] = n * 8192).
  { cbn [numel fold_right]. rewrite Z.mul_1_r, Hhw. lia. }
  assert (Hview : view [n; 128; h / 4; w / 4] [-1; 128 * 8 * 8] = Some [n; 128 * 8 * 8]).
  { rewrite view_rows; rewrite ?Hnumel.
    - do 2 f_equal. change (128 * 8 * 8) with 8192. apply Z.div_mul. lia.
    - lia.
    - change (128 * 8 * 8) with 8192. apply Z.mod_mul. lia. }
  assert (Hflat : view [n; 1] [-1] = Some [n]).
  { rewrite view_flat. cbn [numel fold_right]. do 2 f_equal. lia. }
  assert (Hs2 : h / 2 * (w / 2) ≠ 1)
    by (apply spatial_l; Z.to_euclidean_division_equations; lia).
  assert (Hs4 : h / 4 * (w / 4) ≠ 1) by lia.
  unfold CDiscriminatorNetwork_shape, cat1_shape.
  rewrite decide_True by (split; reflexivity). rewrite option_bind_Some.
  change (3 + 3) with 6.
  unfold CDiscriminatorNetwork_trunk.
  assert (Hnorm : discriminator_instancenorm args = true →
                  out_shape torch (InstanceNorm1d 1024) [n; 1024] = Some [n; 1024]).
  { intros E. simpl. by rewrite (Htoggle E). }
  destruct (discriminator_instancenorm args); cbn [omap list_omap];
    repeat shape_step;
    rewrite sequential_shape_cons;
    change (out_shape torch (Reshape [-1; 128 * 8 * 8]) [n; 128; h / 4; w / 4])
      with (view [n; 128; h / 4; w / 4] [-1; 128 * 8 * 8]);
    rewrite Hview, option_bind_Some;
    rewrite sequential_shape_cons, out_shape_Linear, option_bind_Some;
    try (rewrite sequential_shape_cons, (Hnorm eq_refl), option_bind_Some);
    repeat shape_step;
    rewrite sequential_shape_cons, out_shape_Linear, option_bind_Some;
    rewrite sequential_shape_cons;
    change (out_shape torch (Reshape [-1]) [n; 1]) with (view [n; 1] [-1]);
    rewrite Hflat; reflexivity.
Qed.

End NetFacts.

(** * Properties of the model wrapper, the callbacks and the training loop *)

Module GanFacts.
Import Gan.

#[local] Arguments CGANModel_generate : simpl never.
#[local] Arguments CGANModel_y_fake : simpl never.
#[local] Arguments CGANModel_y_real : simpl never.
#[local] Arguments CGANModel_forward : simpl never.
#[local] Arguments CGANModel_discriminate : simpl never.
#[local] Arguments WGANDiscriminatorLoss_forward : simpl never.
#[local] Arguments Adam_zero_grad : simpl never.
#[local] Arguments Adam_step : simpl never.
#[local] Arguments backward : simpl never.
#[local] Arguments training_inputs : simpl never.
#[local] Arguments CGeneratorTrainingCallback_condition : simpl never.

Example format_08d_small : format_08d 12 = "00000012"%string.
Proof. reflexivity. Qed.

Example format_08d_next : format_08d 1 = "00000001"%string.
Proof. reflexivity. Qed.

Example batch_sampler_last_short :
  batch_sampler 2 [0; 1; 2; 3; 4]%nat = [[0; 1]; [2; 3]; [4]]%nat.
Proof. reflexivity. Qed.

Example np_random_randint_outcomes : np_random_randint 0 4 = [0; 1; 2; 3].
Proof. reflexivity. Qed.

Example sample_wraps : sample 6 (np_random_randint 0 4) = Some 2.
Proof. reflexivity. Qed.

Example os_path_join_plain :
  os_path_join "out" "generated_images" = "out/generated_images"%string.
Proof. reflexivity. Qed.

Example os_path_join_trailing_sep :
  os_path_join "out/" "generated_images" = "out/generated_images"%string.
Proof. reflexivity. Qed.

Example os_path_join_empty :
  os_path_join "" "generated_images" = "generated_images"%string.
Proof. reflexivity. Qed.

Example os_path_join_absolute : os_path_join "out" "/tmp/x" = "/tmp/x"%string.
Proof. reflexivity. Qed.

(** The scenario on the small backend: five discriminator steps (two
    passes of two batches and the first batch of a third pass), two generator
    steps, two files. *)
Example scenario_run :
  (λ t, (steps (optimizer t), steps (gt_opt (generator_callback t)), (files t).*1))
    <$> run (H := toy_backend) scenario_args toy_file (plain_entropy 4)
  = Some (5%nat, 2%nat,
          ["out/generated_images/00000000.png"%string;
           "out/generated_images/00000001.png"%string]).
Proof. by vm_compute. Qed.

Section Wrapper.
Context `{Backend}.

(** ** The cache of the model wrapper *)

Lemma generate_hooks_y m y :
  _state_hooks (CGANModel_generate m y).2 !! "y" = Some y.
Proof.
  unfold CGANModel_generate. simpl.
  rewrite lookup_insert_ne by done. apply lookup_insert_eq.
Qed.

Lemma y_fake_hooks_y m y :
  _state_hooks (CGANModel_y_fake m y).2 !! "y" = Some y.
Proof. unfold CGANModel_y_fake. simpl. apply (generate_hooks_y m y). Qed.

Lemma y_real_hooks_y m xreal y :
  _state_hooks (CGANModel_y_real m xreal y).2 !! "y" = _state_hooks m !! "y".
Proof.
  unfold CGANModel_y_real. simpl. by rewrite !lookup_insert_ne by done.
Qed.

Lemma forward_hooks_y m xreal y :
  _state_hooks (CGANModel_forward m xreal y).2 !! "y" = Some y.
Proof.
  unfold CGANModel_forward.
  destruct (CGANModel_y_real m xreal y) as [yreal m1].
  pose proof (y_fake_hooks_y m1 y) as Hy.
  destruct (CGANModel_y_fake m1 y) as [yfake m2]. exact Hy.
Qed.

Lemma forward_hooks_xreal m xreal y :
  _state_hooks (CGANModel_forward m xreal y).2 !! "xreal" = Some xreal.
Proof.
  unfold CGANModel_forward, CGANModel_y_real, CGANModel_y_fake, CGANModel_generate.
  simpl. rewrite !lookup_insert_ne by done. apply lookup_insert_eq.
Qed.

Lemma forward_hooks_xfake m xreal y :
  is_Some (_state_hooks (CGANModel_forward m xreal y).2 !! "xfake").
Proof.
  unfold CGANModel_forward, CGANModel_y_real, CGANModel_y_fake, CGANModel_generate.
  simpl. rewrite !lookup_insert_ne by done. rewrite lookup_insert_eq. eauto.
Qed.

(** None of the wrapper's methods touches a parameter, a gradient or the
    train/eval mode. *)
Lemma generate_frame m y :
  data (CGANModel_generate m y).2 = data m ∧
  grad (CGANModel_generate m y).2 = grad m ∧
  training (CGANModel_generate m y).2 = training m.
Proof. done. Qed.

Lemma y_fake_frame m y :
  data (CGANModel_y_fake m y).2 = data m ∧
  grad (CGANModel_y_fake m y).2 = grad m ∧
  training (CGANModel_y_fake m y).2 = training m.
Proof. done. Qed.

Lemma y_real_frame m xreal y :
  data (CGANModel_y_real m xreal y).2 = data m ∧
  grad (CGANModel_y_real m xreal y).2 = grad m ∧
  training (CGANModel_y_real m xreal y).2 = training m.
Proof. done. Qed.

Lemma forward_frame m xreal y :
  data (CGANModel_forward m xreal y).2 = data m ∧
  grad (CGANModel_forward m xreal y).2 = grad m ∧
  training (CGANModel_forward m xreal y).2 = training m.
Proof. done. Qed.

(** The cached condition after one call. *)
Lemma exec_call_hooks_y m c :
  _state_hooks (exec_call m c) !! "y"
  = match c with
    | call_generate y | call_y_fake y | call_forward _ y => Some y
    | _ => _state_hooks m !! "y"
    end.
Proof.
  destruct c; cbn [exec_call].
  - apply generate_hooks_y.
  - reflexivity.
  - apply y_fake_hooks_y.
  - apply y_real_hooks_y.
  - apply forward_hooks_y.
Qed.

Lemma exec_snoc trace c m : exec (trace ++ [c]) m = exec_call (exec trace m) c.
Proof. unfold exec. by rewrite foldl_app. Qed.

(** The cached condition after a sequence of calls is the condition of the
    last generating call, if there was one. *)
Lemma exec_hooks_y trace m :
  _state_hooks (exec trace m) !! "y"
  = match last_generate trace with
    | Some y => Some y
    | None => _state_hooks m !! "y"
    end.
Proof.
  induction trace as [|c trace IH] using rev_ind; [reflexivity|].
  rewrite exec_snoc, exec_call_hooks_y. unfold last_generate in *.
  rewrite omap_app. simpl.
  destruct c; simpl; rewrite ?app_nil_r, ?last_snoc; first [reflexivity | exact IH].
Qed.


(** ** Optimizers *)

Lemma Adam_zero_grad_frame opt m :
  _state_hooks (Adam_zero_grad opt m) = _state_hooks m ∧
  data (Adam_zero_grad opt m) = data m ∧
  training (Adam_zero_grad opt m) = training m.
Proof. done. Qed.

Lemma backward_frame loss m :
  _state_hooks (backward loss m) = _state_hooks m ∧
  data (backward loss m) = data m ∧
  training (backward loss m) = training m.
Proof. done. Qed.

Lemma Adam_step_frame opt m :
  _state_hooks (Adam_step opt m).2 = _state_hooks m ∧
  grad (Adam_step opt m).2 = grad m ∧
  training (Adam_step opt m).2 = training m ∧
  param_groups (Adam_step opt m).1 = param_groups opt ∧
  steps (Adam_step opt m).1 = S (steps opt).
Proof. done. Qed.

(** [step] leaves every parameter alone that the optimizer does not hold. *)
Lemma Adam_step_data_other opt m p :
  p ∉ param_groups opt → data (Adam_step opt m).2 !! p = data m !! p.
Proof.
  intros Hp. unfold Adam_step. cbn [snd data set_data].
  rewrite map_lookup_imap. destruct (data m !! p) as [v|]; [|reflexivity].
  cbn. unfold Adam_update. by rewrite decide_False.
Qed.

(** [step] creates and deletes no parameter. *)
Lemma Adam_step_data_dom opt m p :
  is_Some (data (Adam_step opt m).2 !! p) ↔ is_Some (data m !! p).
Proof.
  unfold Adam_step. cbn [snd data set_data]. rewrite map_lookup_imap.
  destruct (data m !! p) as [v|]; cbn; split; intros [? ?]; eauto; discriminate.
Qed.

(** ** The optimization steps *)

Lemma discriminator_step_inv idxs t t' :
  discriminator_step idxs t = Some t' →
  ∃ xreal y target loss,
    training_inputs (train_loader t) idxs = Some (xreal, y, target) ∧
    let m2 := (CGANModel_forward (Adam_zero_grad (optimizer t) (model t)) xreal y).2 in
    let r := Adam_step (optimizer t) (backward loss m2) in
    t' = set_optimizer r.1 (set_model r.2 t).
Proof.
  unfold discriminator_step. intros Hstep.
  destruct (training_inputs (train_loader t) idxs) as [[[xreal y] target]|];
    [|discriminate].
  cbn in Hstep.
  destruct (CGANModel_forward _ xreal y) as [prediction m2] eqn:Hfwd.
  destruct (WGANDiscriminatorLoss_forward m2 prediction target) as [loss|];
    [|discriminate].
  cbn in Hstep.
  destruct (Adam_step (optimizer t) (backward loss m2)) as [opt' m4] eqn:Hs.
  injection Hstep as <-.
  exists xreal, y, target, loss. split; [reflexivity|].
  cbn zeta. rewrite Hfwd. cbn [snd]. rewrite Hs. reflexivity.
Qed.

Lemma train_generator_at_inv i t t' :
  CGeneratorTrainingCallback_train_generator_at i t = Some t' →
  ∃ y,
    CGeneratorTrainingCallback_condition (generator_callback t) i = Some y ∧
    let r := CGANModel_y_fake (model t) y in
    let opt := gt_opt (generator_callback t) in
    let s := Adam_step opt (backward (wgan_generator_loss r.1) (Adam_zero_grad opt r.2)) in
    t' = set_generator_callback (gt_set_opt s.1 (generator_callback t)) (set_model s.2 t).
Proof.
  unfold CGeneratorTrainingCallback_train_generator_at. intros Hstep.
  destruct (CGeneratorTrainingCallback_condition (generator_callback t) i) as [y|];
    [|discriminate].
  cbn in Hstep.
  destruct (CGANModel_y_fake (model t) y) as [yfake m1] eqn:Hf.
  destruct (Adam_step _ _) as [opt' m4] eqn:Hs.
  injection Hstep as <-.
  exists y. split; [reflexivity|].
  cbn zeta. rewrite Hf. cbn [fst snd]. rewrite Hs. reflexivity.
Qed.

(** The trainer's step leaves the generator's parameters alone. *)
Lemma discriminator_step_generator_data idxs t t' k :
  optimizers_as_built t →
  discriminator_step idxs t = Some t' →
  data (model t') !! (generator, k) = data (model t) !! (generator, k).
Proof.
  intros [Hd _] Hstep.
  apply discriminator_step_inv in Hstep as (xreal & y & target & loss & _ & ->).
  cbn [model set_optimizer set_model].
  rewrite Adam_step_data_other; [reflexivity|].
  intros Hin. apply Hd in Hin. discriminate.
Qed.

(** The callback's step leaves the discriminator's parameters alone. *)
Lemma train_generator_at_discriminator_data i t t' k :
  optimizers_as_built t →
  CGeneratorTrainingCallback_train_generator_at i t = Some t' →
  data (model t') !! (discriminator, k) = data (model t) !! (discriminator, k).
Proof.
  intros [_ Hg] Hstep.
  apply train_generator_at_inv in Hstep as (y & _ & ->).
  cbn [model set_generator_callback set_model].
  rewrite Adam_step_data_other; [reflexivity|].
  intros Hin. apply Hg in Hin. discriminate.
Qed.


(** ** Dataset and loader *)

Lemma DNIMWrapper_getitem_init (file : list (Img * Img)) (i : nat) :
  DNIMWrapper_getitem (DNIMWrapper_init file) i
  = (λ row : Img * Img, [row.1; row.2; row.2]) <$> file !! i.
Proof.
  unfold DNIMWrapper_getitem, DNIMWrapper_init. cbn [days nights].
  rewrite !list_lookup_fmap. by destruct (file !! i) as [[d n]|].
Qed.

Lemma mapM_getitem_init (file : list (Img * Img)) (idxs : list nat) :
  mapM (DNIMWrapper_getitem (DNIMWrapper_init file)) idxs
  = fmap (λ row : Img * Img, [row.1; row.2; row.2]) <$> mapM (λ i, file !! i) idxs.
Proof.
  induction idxs as [|i idxs IH]; [reflexivity|].
  cbn [mapM]. rewrite IH, DNIMWrapper_getitem_init.
  destruct (file !! i) as [row|]; [|reflexivity].
  by destruct (mapM (λ i, file !! i) idxs).
Qed.

Lemma omap_component (rows : list (Img * Img)) (k : nat) (f : Img * Img → Img) :
  (∀ row : Img * Img, [row.1; row.2; row.2] !! k = Some (f row)) →
  omap (λ item : list Img, item !! k)
       ((λ row : Img * Img, [row.1; row.2; row.2]) <$> rows) = f <$> rows.
Proof.
  intros Hk. induction rows as [|r rows IH]; [reflexivity|].
  rewrite !fmap_cons. cbn [omap list_omap]. rewrite (Hk r). f_equal. exact IH.
Qed.

Lemma collate_rows (rows : list (Img * Img)) :
  collate ((λ row : Img * Img, [row.1; row.2; row.2]) <$> rows)
  = [rows.*1; rows.*2; rows.*2].
Proof.
  unfold collate. cbn [seq fmap list_fmap].
  rewrite (omap_component rows 0 fst) by reflexivity.
  rewrite (omap_component rows 1 snd) by reflexivity.
  rewrite (omap_component rows 2 snd) by reflexivity.
  reflexivity.
Qed.

(** What the model receives from a batch: the days as [xreal], the nights
    as [y] (and the nights once more as the ignored target). *)
Lemma training_inputs_init (file : list (Img * Img)) (b : Z) (idxs : list nat) :
  training_inputs {| dataset := DNIMWrapper_init file; loader_batch_size := b |} idxs
  = (λ rows : list (Img * Img), (rows.*1, rows.*2, [rows.*2]))
      <$> mapM (λ i, file !! i) idxs.
Proof.
  unfold training_inputs, fetch_batch. cbn [dataset].
  rewrite mapM_getitem_init.
  destruct (mapM (λ i, file !! i) idxs) as [rows|]; [|reflexivity].
  cbn [fmap option_fmap option_map mbind option_bind].
  rewrite collate_rows. reflexivity.
Qed.

Lemma mapM_lookup_is_Some {A} (l : list A) (idxs : list nat) :
  Forall (λ i, i < length l)%nat idxs → is_Some (mapM (λ i, l !! i) idxs).
Proof.
  intros Hall. apply mapM_is_Some. eapply Forall_impl; [exact Hall|].
  intros i Hi. by apply lookup_lt_is_Some_2.
Qed.

(** The condition of the generator step for index [i]. *)
Lemma generator_condition_init (self : CGeneratorTrainingCallback)
    (file : list (Img * Img)) (i : Z) :
  gt_dataset self = DNIMWrapper_init file →
  CGeneratorTrainingCallback_condition self i
  = (λ row : Img * Img, [row.2]) <$> file !! Z.to_nat i.
Proof.
  intros Hds. unfold CGeneratorTrainingCallback_condition.
  rewrite Hds, DNIMWrapper_getitem_init. by destruct (file !! Z.to_nat i).
Qed.

(** The condition the image callback captures. *)
Lemma CGenerateDataCallback_init_y args gridsize (file : list (Img * Img)) :
  gd_y <$> CGenerateDataCallback_init args gridsize file
  = (λ row : Img * Img, [row.2]) <$> file !! 0%nat.
Proof.
  unfold CGenerateDataCallback_init. rewrite DNIMWrapper_getitem_init.
  by destruct (file !! 0%nat).
Qed.


(** ** The batch sampler *)

Lemma chunks_length {A} (b fuel : nat) (l : list A) :
  (0 < b)%nat → (length l <= fuel)%nat →
  Z.of_nat (length (chunks fuel b l))
  = batches_per_epoch (Z.of_nat (length l)) (Z.of_nat b).
Proof.
  intros Hb. unfold batches_per_epoch. revert l.
  induction fuel as [|fuel IH]; intros l Hl.
  - destruct l; [|simpl in Hl; lia]. simpl.
    symmetry. apply Z.div_small. lia.
  - destruct l as [|a l'] eqn:El.
    + simpl. symmetry. apply Z.div_small. lia.
    + rewrite <- El in *. assert (Hlen : (1 <= length l)%nat) by (subst l; simpl; lia).
      replace (chunks (S fuel) b l) with (take b l :: chunks fuel b (drop b l))
        by (subst l; reflexivity).
      cbn [length]. rewrite Nat2Z.inj_succ, IH by (rewrite length_drop; lia).
      rewrite length_drop.
      destruct (Nat.le_gt_cases b (length l)) as [Hge|Hlt].
      * rewrite Nat2Z.inj_sub by assumption.
        replace (Z.of_nat (length l) + Z.of_nat b - 1)
          with ((Z.of_nat (length l) - Z.of_nat b + Z.of_nat b - 1) + 1 * Z.of_nat b)
          by lia.
        rewrite Z.div_add by lia. lia.
      * replace (length l - b)%nat with 0%nat by lia.
        rewrite (Z.div_small (Z.of_nat 0 + Z.of_nat b - 1)) by lia.
        apply (Z.div_unique _ _ 1 (Z.of_nat (length l) - 1)); lia.
Qed.

(** The batches of an epoch are the sampler's order cut into pieces: no
    index is lost or repeated. *)
Lemma chunks_concat {A} (b fuel : nat) (l : list A) :
  (0 < b)%nat → (length l <= fuel)%nat → concat (chunks fuel b l) = l.
Proof.
  intros Hb. revert l. induction fuel as [|fuel IH]; intros l Hl.
  - destruct l; [reflexivity|simpl in Hl; lia].
  - destruct l as [|a l'] eqn:El; [reflexivity|]. rewrite <- El in *.
    replace (chunks (S fuel) b l) with (take b l :: chunks fuel b (drop b l))
      by (subst l; reflexivity).
    cbn [concat]. rewrite IH; [apply take_drop|].
    rewrite length_drop. subst l. simpl in *. lia.
Qed.

Lemma chunks_Forall {A} (P : A → Prop) (b fuel : nat) (l : list A) :
  Forall P l → Forall (Forall P) (chunks fuel b l).
Proof.
  revert l. induction fuel as [|fuel IH]; intros l Hl; [constructor|].
  destruct l as [|a l'] eqn:El; [constructor|]. rewrite <- El in *.
  replace (chunks (S fuel) b l) with (take b l :: chunks fuel b (drop b l))
    by (subst l; reflexivity).
  constructor; [by apply Forall_take | by apply IH, Forall_drop].
Qed.

(** ** Counters *)

Lemma period_pos f : 0 < period f.
Proof. unfold period. lia. Qed.

(** A counter that is incremented and reset when it exceeds [f] counts the
    iterations modulo [period f]; the number of resets is the quotient. *)
Lemma tick_fire (f n : Z) :
  0 <= n → (n mod period f + 1 >? f) = true →
  (n + 1) mod period f = 0 ∧ (n + 1) / period f = n / period f + 1.
Proof.
  intros Hn Hgt. pose proof (period_pos f) as Hp.
  pose proof (Z.mod_pos_bound n (period f) Hp) as Hb.
  pose proof (Z.div_mod n (period f) ltac:(lia)) as Hdm.
  assert (Hc : n mod period f = period f - 1) by (unfold period in *; lia).
  assert (E : n + 1 = (n / period f + 1) * period f) by lia.
  rewrite E. split; [apply Z.mod_mul; lia | apply Z.div_mul; lia].
Qed.

Lemma tick_wait (f n : Z) :
  0 <= n → (n mod period f + 1 >? f) = false →
  (n + 1) mod period f = n mod period f + 1 ∧ (n + 1) / period f = n / period f.
Proof.
  intros Hn Hgt. pose proof (period_pos f) as Hp.
  pose proof (Z.mod_pos_bound n (period f) Hp) as Hb.
  pose proof (Z.div_mod n (period f) ltac:(lia)) as Hdm.
  assert (Hc : n mod period f + 1 < period f) by (unfold period in *; lia).
  split.
  - symmetry. apply (Z.mod_unique_pos _ _ (n / period f)); lia.
  - symmetry. apply (Z.div_unique_pos _ _ _ (n mod period f + 1)); lia.
Qed.


(** ** One training iteration *)

(** With the framework's operations total, the optimization step succeeds
    on every batch of valid indices. *)
Lemma discriminator_step_total args (file : list (Img * Img)) idxs t :
  configured args file t →
  Forall (λ i, i < length file)%nat idxs →
  is_Some (discriminator_step idxs t).
Proof.
  intros (Hl & _) Hidx. unfold discriminator_step.
  rewrite Hl, training_inputs_init.
  destruct (mapM_lookup_is_Some file idxs Hidx) as [rows ->].
  cbn [fmap option_fmap option_map mbind option_bind].
  pose proof (forward_hooks_y (Adam_zero_grad (optimizer t) (model t))
                rows.*1 rows.*2) as Hy.
  pose proof (forward_hooks_xreal (Adam_zero_grad (optimizer t) (model t))
                rows.*1 rows.*2) as Hxr.
  destruct (forward_hooks_xfake (Adam_zero_grad (optimizer t) (model t))
                rows.*1 rows.*2) as [xfake Hxf].
  destruct (CGANModel_forward _ rows.*1 rows.*2) as [prediction m2].
  cbn [snd] in Hy, Hxr, Hxf.
  unfold WGANDiscriminatorLoss_forward, CWGANDiscriminatorLoss_discriminate.
  rewrite Hxr, Hxf, Hy. cbn [mbind option_bind].
  destruct (Adam_step _ _). eauto.
Qed.

(** What the optimization step changes: the model and the discriminator's
    optimizer, which has stepped once. *)
Lemma discriminator_step_fields idxs t t' :
  discriminator_step idxs t = Some t' →
  steps (optimizer t') = S (steps (optimizer t)) ∧
  param_groups (optimizer t') = param_groups (optimizer t) ∧
  image_callback t' = image_callback t ∧
  generator_callback t' = generator_callback t ∧
  train_loader t' = train_loader t ∧
  max_num_epochs t' = max_num_epochs t ∧
  trainer_save_directory t' = trainer_save_directory t ∧
  files t' = files t ∧
  np_random_calls t' = np_random_calls t.
Proof.
  intros Hstep.
  apply discriminator_step_inv in Hstep as (xreal & y & target & loss & _ & ->).
  repeat split.
Qed.

(** What the image callback changes at the end of an iteration. *)
Lemma image_callback_fields t :
  let t' := CGenerateDataCallback_end_of_training_iteration t in
  let self := image_callback t in
  optimizer t' = optimizer t ∧
  generator_callback t' = generator_callback t ∧
  train_loader t' = train_loader t ∧
  max_num_epochs t' = max_num_epochs t ∧
  trainer_save_directory t' = trainer_save_directory t ∧
  np_random_calls t' = np_random_calls t ∧
  data (model t') = data (model t) ∧
  gd_frequency (image_callback t') = gd_frequency self ∧
  if gd_count self + 1 >? gd_frequency self
  then gd_count (image_callback t') = 0 ∧
       gd_image_count (image_callback t') = S (gd_image_count self) ∧
       (files t').*1 = (files t).*1 ++
         [os_path_join (os_path_join (trainer_save_directory t) "generated_images")
                       (format_08d (gd_image_count self) +:+ ".png")]
  else gd_count (image_callback t') = gd_count self + 1 ∧
       gd_image_count (image_callback t') = gd_image_count self ∧
       files t' = files t.
Proof.
  cbn zeta. unfold CGenerateDataCallback_end_of_training_iteration.
  cbn [image_callback set_image_callback gd_count gd_set_count gd_frequency].
  destruct (gd_count (image_callback t) + 1 >? gd_frequency (image_callback t)).
  - unfold CGenerateDataCallback_save_images, CGenerateDataCallback_generate.
    cbn [image_callback set_image_callback model trainer_save_directory].
    destruct (CGANModel_generate _ _) as [generated m1] eqn:Hg.
    match type of Hg with
    | CGANModel_generate ?m ?y = _ =>
        pose proof (generate_frame m y) as (Hd & _); rewrite Hg in Hd
    end.
    cbn [snd] in Hd.
    repeat split; try reflexivity.
    + cbn. exact Hd.
    + cbn [files set_files set_image_callback set_model]. by rewrite fmap_app.
  - repeat split.
Qed.

(** The draw of the generator callback succeeds on a non-empty dataset and
    yields a valid index. *)
Lemma sample_randint (r n : nat) :
  (0 < n)%nat →
  ∃ i : nat, sample r (np_random_randint 0 (Z.of_nat n)) = Some (Z.of_nat i)
             ∧ (i < n)%nat ∧ i = (r mod n)%nat.
Proof.
  intros Hn. unfold sample, np_random_randint.
  rewrite Z.sub_0_r, Nat2Z.id, length_fmap, length_seq.
  exists (r mod n)%nat.
  assert (Hlt : (r mod n < n)%nat) by (apply Nat.mod_upper_bound; lia).
  rewrite list_lookup_fmap, lookup_seq_lt by assumption.
  cbn. split; [f_equal; lia | split; [assumption | reflexivity]].
Qed.

Lemma train_generator_total ent (file : list (Img * Img)) t :
  gt_dataset (generator_callback t) = DNIMWrapper_init file →
  gt_len (generator_callback t) = length file →
  file ≠ [] →
  is_Some (CGeneratorTrainingCallback_train_generator ent t).
Proof.
  intros Hds Hlen Hne. unfold CGeneratorTrainingCallback_train_generator.
  assert (Hpos : (0 < length file)%nat) by (destruct file; [done|simpl; lia]).
  rewrite Hlen.
  destruct (sample_randint (np_random_raw ent (np_random_calls t)) _ Hpos)
    as (i & -> & Hi & _).
  cbn [mbind option_bind].
  unfold CGeneratorTrainingCallback_train_generator_at.
  cbn [generator_callback set_np_random_calls].
  rewrite (generator_condition_init _ file) by assumption.
  rewrite Nat2Z.id.
  destruct (lookup_lt_is_Some_2 file i Hi) as [row ->].
  cbn [fmap option_fmap option_map mbind option_bind].
  destruct (CGANModel_y_fake _ _). destruct (Adam_step _ _). eauto.
Qed.

(** What one generator step changes. *)
Lemma train_generator_fields ent t t' :
  CGeneratorTrainingCallback_train_generator ent t = Some t' →
  steps (gt_opt (generator_callback t')) = S (steps (gt_opt (generator_callback t))) ∧
  param_groups (gt_opt (generator_callback t'))
    = param_groups (gt_opt (generator_callback t)) ∧
  gt_count (generator_callback t') = gt_count (generator_callback t) ∧
  gt_frequency (generator_callback t') = gt_frequency (generator_callback t) ∧
  gt_dataset (generator_callback t') = gt_dataset (generator_callback t) ∧
  gt_len (generator_callback t') = gt_len (generator_callback t) ∧
  optimizer t' = optimizer t ∧
  image_callback t' = image_callback t ∧
  train_loader t' = train_loader t ∧
  max_num_epochs t' = max_num_epochs t ∧
  trainer_save_directory t' = trainer_save_directory t ∧
  files t' = files t ∧
  np_random_calls t' = S (np_random_calls t).
Proof.
  unfold CGeneratorTrainingCallback_train_generator. intros Hstep.
  destruct (sample _ _) as [i|]; [|discriminate]. cbn [mbind option_bind] in Hstep.
  apply train_generator_at_inv in Hstep as (y & _ & ->).
  repeat split.
Qed.


(** What the generator callback changes at the end of an iteration. *)
Lemma generator_callback_fields ent (file : list (Img * Img)) t :
  gt_dataset (generator_callback t) = DNIMWrapper_init file →
  gt_len (generator_callback t) = length file →
  file ≠ [] →
  ∃ t', CGeneratorTrainingCallback_end_of_training_iteration ent t = Some t' ∧
    let self := generator_callback t in
    let self' := generator_callback t' in
    optimizer t' = optimizer t ∧
    image_callback t' = image_callback t ∧
    train_loader t' = train_loader t ∧
    max_num_epochs t' = max_num_epochs t ∧
    trainer_save_directory t' = trainer_save_directory t ∧
    files t' = files t ∧
    param_groups (gt_opt self') = param_groups (gt_opt self) ∧
    gt_frequency self' = gt_frequency self ∧
    gt_dataset self' = gt_dataset self ∧
    gt_len self' = gt_len self ∧
    if gt_count self + 1 >? gt_frequency self
    then gt_count self' = 0 ∧ steps (gt_opt self') = S (steps (gt_opt self))
    else gt_count self' = gt_count self + 1 ∧ steps (gt_opt self') = steps (gt_opt self).
Proof.
  intros Hds Hlen Hne.
  unfold CGeneratorTrainingCallback_end_of_training_iteration.
  cbn [generator_callback set_generator_callback gt_count gt_set_count gt_frequency].
  destruct (gt_count (generator_callback t) + 1 >? gt_frequency (generator_callback t)).
  - set (t1 := set_generator_callback _ t).
    destruct (train_generator_total ent file t1) as [t2 Ht2]; try assumption.
    rewrite Ht2. cbn [mbind option_bind].
    apply train_generator_fields in Ht2
      as (? & ? & ? & ? & ? & ? & ? & ? & ? & ? & ? & ? & ?).
    eexists. split; [reflexivity|].
    cbn zeta.
    cbn [generator_callback set_generator_callback gt_count gt_set_count gt_frequency
         optimizer image_callback train_loader max_num_epochs trainer_save_directory
         files gt_opt gt_dataset gt_len].
    repeat split; assumption || reflexivity.
  - eexists. split; [reflexivity|]. repeat split.
Qed.

(** What the two callbacks change at the end of an iteration, in either
    order. *)
Lemma end_of_training_iteration_fields ent (file : list (Img * Img)) t :
  gt_dataset (generator_callback t) = DNIMWrapper_init file →
  gt_len (generator_callback t) = length file →
  file ≠ [] →
  ∃ t', end_of_training_iteration ent t = Some t' ∧
    let gt := generator_callback t in
    let gt' := generator_callback t' in
    let gd := image_callback t in
    let gd' := image_callback t' in
    optimizer t' = optimizer t ∧
    train_loader t' = train_loader t ∧
    max_num_epochs t' = max_num_epochs t ∧
    trainer_save_directory t' = trainer_save_directory t ∧
    param_groups (gt_opt gt') = param_groups (gt_opt gt) ∧
    gt_frequency gt' = gt_frequency gt ∧
    gt_dataset gt' = gt_dataset gt ∧
    gt_len gt' = gt_len gt ∧
    gd_frequency gd' = gd_frequency gd ∧
    (if gt_count gt + 1 >? gt_frequency gt
     then gt_count gt' = 0 ∧ steps (gt_opt gt') = S (steps (gt_opt gt))
     else gt_count gt' = gt_count gt + 1 ∧ steps (gt_opt gt') = steps (gt_opt gt)) ∧
    (if gd_count gd + 1 >? gd_frequency gd
     then gd_count gd' = 0 ∧
          gd_image_count gd' = S (gd_image_count gd) ∧
          (files t').*1 = (files t).*1 ++
            [os_path_join (os_path_join (trainer_save_directory t) "generated_images")
                          (format_08d (gd_image_count gd) +:+ ".png")]
     else gd_count gd' = gd_count gd + 1 ∧
          gd_image_count gd' = gd_image_count gd ∧
          (files t').*1 = (files t).*1).
Proof.
  intros Hds Hlen Hne. unfold end_of_training_iteration.
  destruct (image_callback_first ent).
  - pose proof (image_callback_fields t)
      as (Ho2 & Hg2 & Hl2 & He2 & Hsd2 & _ & _ & Hfr2 & Hcase2).
    cbn zeta in *.
    set (t2 := CGenerateDataCallback_end_of_training_iteration t) in *.
    destruct (generator_callback_fields ent file t2) as (t3 & Ht3 & Hfields3).
    { by rewrite Hg2. } { by rewrite Hg2. } { assumption. }
    cbn zeta in Hfields3.
    destruct Hfields3
      as (Ho3 & Hi3 & Hl3 & He3 & Hsd3 & Hf3 & Hp3 & Hfr3 & Hds3 & Hlen3 & Hcase3).
    exists t3. split; [exact Ht3|]. cbn zeta.
    rewrite Hg2 in *. rewrite Hi3, Hf3.
    repeat (split; [congruence|]).
    destruct (gd_count (image_callback t) + 1 >? gd_frequency (image_callback t));
      destruct Hcase2 as (? & ? & Hfs); repeat split; try assumption.
    by rewrite Hfs.
  - destruct (generator_callback_fields ent file t) as (t1 & Ht1 & Hfields1);
      [assumption..|].
    cbn zeta in Hfields1.
    destruct Hfields1
      as (Ho1 & Hi1 & Hl1 & He1 & Hsd1 & Hf1 & Hp1 & Hfr1 & Hds1 & Hlen1 & Hcase1).
    rewrite Ht1. cbn [mbind option_bind].
    pose proof (image_callback_fields t1)
      as (Ho2 & Hg2 & Hl2 & He2 & Hsd2 & _ & _ & Hfr2 & Hcase2).
    cbn zeta in *.
    set (t2 := CGenerateDataCallback_end_of_training_iteration t1) in *.
    exists t2. split; [reflexivity|].
    rewrite Hg2. rewrite Hi1, Hsd1, Hf1 in *.
    repeat (split; [congruence|]).
    destruct (gd_count (image_callback t) + 1 >? gd_frequency (image_callback t));
      destruct Hcase2 as (? & ? & Hfs); repeat split; try assumption.
    by rewrite Hfs.
Qed.

(** One iteration advances the schedule by one. *)
Lemma train_iteration_schedule ent args (file : list (Img * Img)) idxs n t :
  0 <= n → file ≠ [] →
  Forall (λ i, i < length file)%nat idxs →
  schedule_inv args file n t →
  ∃ t', train_iteration ent idxs t = Some t' ∧ schedule_inv args file (n + 1) t'.
Proof.
  intros Hn Hne Hidx (Hcfg & Hopt & Hd & Hic & Hin & Hfiles & Hgc & Hgs).
  unfold train_iteration.
  destruct (discriminator_step_total args file idxs t Hcfg Hidx) as [t1 Ht1].
  rewrite Ht1. cbn [mbind option_bind].
  apply discriminator_step_fields in Ht1
    as (Hs1 & Hp1 & Hi1 & Hg1 & Hl1 & He1 & Hsd1 & Hf1 & _).
  destruct Hcfg as (Cl & Ce & Csd & Cif & Cgf & Cds & Clen).
  destruct Hopt as (Od & Og).
  destruct (end_of_training_iteration_fields ent file t1) as (t3 & Ht3 & Hfields3).
  { by rewrite Hg1. } { by rewrite Hg1. } { assumption. }
  cbn zeta in Hfields3.
  destruct Hfields3
    as (Ho3 & Hl3 & He3 & Hsd3 & Hp3 & Hfr3 & Hds3 & Hlen3 & Hfr2 & Hcase3 & Hcase2).
  exists t3. split; [exact Ht3|].
  rewrite Hg1 in *. rewrite Hi1 in *.
  rewrite Cif in Hcase2. rewrite Cgf in Hcase3.
  rewrite Hic in Hcase2. rewrite Hgc in Hcase3.
  unfold schedule_inv, configured, optimizers_as_built.
  rewrite Hl3, Hl1, He3, He1, Hsd3, Hsd1, Hfr2, Hfr3, Hds3, Hlen3,
    Ho3, Hp1, Hp3, Hs1.
  split; [repeat split; assumption|].
  split; [split; assumption|].
  split; [lia|].
  destruct (n mod period (image_frequency args) + 1 >? image_frequency args) eqn:Ei;
    [destruct (tick_fire _ n Hn Ei) as [Em Eq] | destruct (tick_wait _ n Hn Ei) as [Em Eq]];
    destruct Hcase2 as (Hc2 & Hn2 & Hfs2);
    (destruct (n mod period (generator_frequency args) + 1 >? generator_frequency args) eqn:Eg;
     [destruct (tick_fire _ n Hn Eg) as [Em' Eq'] | destruct (tick_wait _ n Hn Eg) as [Em' Eq']];
     destruct Hcase3 as (Hc3 & Hs3));
    rewrite Hc2, Hn2, Hc3, Hs3, Em, Eq, Em', Eq';
    repeat split; try lia.
  all: rewrite ?Hfs2, ?Hsd1, ?Csd, ?Hf1, ?Hfiles; try reflexivity.
  all: rewrite seq_S, fmap_app; reflexivity.
Qed.


(** ** Epochs and the whole run *)

Lemma train_epoch_schedule ent args (file : list (Img * Img)) batches n t :
  0 <= n → file ≠ [] →
  Forall (Forall (λ i, i < length file)%nat) batches →
  schedule_inv args file n t →
  ∃ t', train_epoch ent batches t = Some t' ∧
        schedule_inv args file (n + Z.of_nat (length batches)) t'.
Proof.
  intros Hn Hne Hall. revert n t Hn.
  induction Hall as [|idxs batches Hidx _ IH]; intros n t Hn Hinv.
  - exists t. split; [reflexivity|]. cbn [length]. by rewrite Z.add_0_r.
  - destruct (train_iteration_schedule ent args file idxs n t Hn Hne Hidx Hinv)
      as (t1 & Ht1 & Hinv1).
    destruct (IH (n + 1) t1 ltac:(lia) Hinv1) as (t2 & Ht2 & Hinv2).
    exists t2. cbn [train_epoch]. rewrite Ht1. cbn [mbind option_bind].
    split; [exact Ht2|].
    cbn [length]. rewrite Nat2Z.inj_succ.
    by replace (n + Z.succ (Z.of_nat (length batches)))
      with (n + 1 + Z.of_nat (length batches)) by lia.
Qed.

(** The batches of an epoch cover a permutation of the indices. *)
Lemma epoch_batches_spec ent args (file : list (Img * Img)) t e :
  0 < batch_size args →
  sampler_order ent e ≡ₚ seq 0 (length file) →
  configured args file t →
  Forall (Forall (λ i, i < length file)%nat) (epoch_batches ent t e) ∧
  Z.of_nat (length (epoch_batches ent t e))
  = batches_per_epoch (Z.of_nat (length file)) (batch_size args).
Proof.
  intros Hb Hperm (Hl & _). unfold epoch_batches, batch_sampler. rewrite Hl.
  cbn [loader_batch_size]. split.
  - apply chunks_Forall. rewrite Hperm. apply Forall_forall.
    intros i Hi. apply elem_of_seq in Hi. lia.
  - rewrite chunks_length by lia.
    rewrite Z2Nat.id by lia. by rewrite Hperm, length_seq.
Qed.

(** A pass over a non-empty dataset has a first batch. *)
Lemma epoch_batches_first ent args (file : list (Img * Img)) t e :
  0 < batch_size args → file ≠ [] →
  sampler_order ent e ≡ₚ seq 0 (length file) →
  configured args file t →
  ∃ idxs rest, epoch_batches ent t e = idxs :: rest ∧
               Forall (λ i, i < length file)%nat idxs.
Proof.
  intros Hb Hne Hperm Hcfg.
  destruct (epoch_batches_spec ent args file t e Hb Hperm Hcfg) as (Hall & _).
  unfold epoch_batches, batch_sampler in *.
  destruct (sampler_order ent e) as [|i order] eqn:Horder.
  - apply Permutation_length in Hperm. rewrite length_seq in Hperm.
    destruct file; [done|discriminate].
  - cbn [length chunks] in *. apply Forall_cons in Hall as [Hidx _]. eauto.
Qed.

Lemma fit_from_schedule ent args (file : list (Img * Img)) k e n t :
  0 <= n → file ≠ [] → 0 < batch_size args →
  (∀ e, sampler_order ent e ≡ₚ seq 0 (length file)) →
  schedule_inv args file n t →
  ∃ t', fit_from ent k e t = Some t' ∧
        schedule_inv args file
          (n + Z.of_nat k * batches_per_epoch (Z.of_nat (length file)) (batch_size args)) t'.
Proof.
  intros Hn Hne Hb Hperm. revert e n t Hn.
  induction k as [|k IH]; intros e n t Hn Hinv.
  - exists t. split; [reflexivity|]. by rewrite Z.mul_0_l, Z.add_0_r.
  - destruct (epoch_batches_spec ent args file t e Hb (Hperm e) (proj1 Hinv))
      as (Hall & Hlen).
    destruct (train_epoch_schedule ent args file _ n t Hn Hne Hall Hinv)
      as (t1 & Ht1 & Hinv1).
    rewrite Hlen in Hinv1.
    assert (Hc : 0 <= batches_per_epoch (Z.of_nat (length file)) (batch_size args))
      by (rewrite <- Hlen; lia).
    set (c := batches_per_epoch (Z.of_nat (length file)) (batch_size args)) in *.
    destruct (IH (S e) (n + c) t1 ltac:(lia) Hinv1) as (t2 & Ht2 & Hinv2).
    exists t2. cbn [fit_from]. rewrite Ht1. cbn [mbind option_bind].
    split; [exact Ht2|].
    by replace (n + Z.of_nat (S k) * c) with (n + c + Z.of_nat k * c) by lia.
Qed.

(** [fit] trains [iterations] batches. *)
Lemma fit_schedule ent args (file : list (Img * Img)) t :
  file ≠ [] → 0 < batch_size args →
  (∀ e, sampler_order ent e ≡ₚ seq 0 (length file)) →
  schedule_inv args file 0 t →
  ∃ t', fit ent t = Some t' ∧ schedule_inv args file (iterations args file) t'.
Proof.
  intros Hne Hb Hperm Hinv. unfold fit, iterations.
  assert (Hep : max_num_epochs t = epochs args) by apply Hinv.
  rewrite Hep.
  destruct (Z.to_nat (epochs args)) as [|k] eqn:Hk.
  { exists t. split; [reflexivity|]. by rewrite decide_False by lia. }
  rewrite decide_True by lia.
  destruct (fit_from_schedule ent args file (S k) 0 0 t ltac:(lia) Hne Hb Hperm Hinv)
    as (t1 & Ht1 & Hinv1).
  rewrite Ht1. cbn [mbind option_bind].
  destruct (epoch_batches_spec ent args file t1 0 Hb (Hperm _) (proj1 Hinv1))
    as (_ & Hlen).
  destruct (epoch_batches_first ent args file t1 (S k) Hb Hne (Hperm _) (proj1 Hinv1))
    as (idxs & rest & -> & Hidx).
  rewrite <- Hk, Z2Nat.id, Z.add_0_l in Hinv1 by lia.
  apply (train_iteration_schedule ent args file idxs _ t1); try assumption.
  rewrite <- Hlen. lia.
Qed.

Lemma parameters_owner sub m (p : pname) :
  p ∈ dom (parameters sub m) → p.1 = sub.
Proof.
  unfold parameters. intros Hp. apply elem_of_dom in Hp as [v Hv].
  apply map_lookup_filter_Some in Hv as [_ Hsub]. exact Hsub.
Qed.

Lemma dnim_cgan_data_loader_Some args (file : list (Img * Img)) loader :
  dnim_cgan_data_loader args file = Some loader ↔
  0 < batch_size args ∧ file ≠ [] ∧
  loader = {| dataset := DNIMWrapper_init file; loader_batch_size := batch_size args |}.
Proof.
  unfold dnim_cgan_data_loader. destruct file as [|row file'].
  - split; [discriminate|]. by intros (_ & ? & _).
  - destruct (Z.ltb_spec 0 (batch_size args)).
    + split; [by intros [= <-]|]. by intros (_ & _ & ->).
    + split; [discriminate|]. intros (? & _). lia.
Qed.

(** What [run] has built when training starts. *)
Lemma build_trainer_inv args (file : list (Img * Img)) t :
  build_trainer args file = Some t →
  0 < batch_size args ∧ file ≠ [] ∧
  files t = [] ∧ np_random_calls t = 0%nat ∧
  steps (gt_opt (generator_callback t)) = 0%nat ∧
  training (model t) = true ∧
  gd_y <$> CGenerateDataCallback_init args 1 file = Some (gd_y (image_callback t)).
Proof.
  unfold build_trainer. intros Ht.
  destruct (dnim_cgan_data_loader args file) as [loader|] eqn:Hl; [|discriminate].
  apply dnim_cgan_data_loader_Some in Hl as (Hb & Hne & _).
  cbn [mbind option_bind] in Ht.
  destruct (CGenerateDataCallback_init args 1 file) as [cb|]; [|discriminate].
  cbn [mbind option_bind] in Ht. injection Ht as <-.
  by repeat split.
Qed.

Lemma build_trainer_schedule args (file : list (Img * Img)) :
  0 < batch_size args → file ≠ [] →
  ∃ t, build_trainer args file = Some t ∧ schedule_inv args file 0 t.
Proof.
  intros Hb Hne. unfold build_trainer.
  destruct (dnim_cgan_data_loader args file) as [loader|] eqn:Hl.
  2:{ exfalso. assert (Hs : is_Some (dnim_cgan_data_loader args file));
        [|rewrite Hl in Hs; by destruct Hs].
      eexists. by apply dnim_cgan_data_loader_Some. }
  apply dnim_cgan_data_loader_Some in Hl as (_ & _ & ->).
  cbn [mbind option_bind].
  destruct file as [|[d0 n0] file']; [done|].
  unfold CGenerateDataCallback_init. rewrite DNIMWrapper_getitem_init.
  cbn [lookup list_lookup fmap option_fmap option_map mbind option_bind fst snd].
  eexists. split; [reflexivity|].
  unfold schedule_inv, configured, optimizers_as_built.
  cbn [train_loader max_num_epochs trainer_save_directory image_callback
       generator_callback gd_frequency gt_frequency gt_dataset gt_len optimizer
       gt_opt gd_count gd_image_count gt_count files steps param_groups Adam_init
       CGeneratorTrainingCallback_init DNIMWrapper_len DNIMWrapper_init days].
  pose proof (period_pos (image_frequency args)).
  pose proof (period_pos (generator_frequency args)).
  rewrite !Z.mod_0_l, !Z.div_0_l by lia.
  assert (Hlen : DNIMWrapper_len (DNIMWrapper_init ((d0, n0) :: file'))
                 = length ((d0, n0) :: file'))
    by (unfold DNIMWrapper_len, DNIMWrapper_init; cbn [days]; apply length_fmap).
  repeat split; try reflexivity; try exact Hlen; apply parameters_owner.
Qed.

(** With the framework's operations total, a run on a non-empty dataset
    with a positive batch size goes through its schedule. *)
Lemma run_schedule args (file : list (Img * Img)) ent :
  0 < batch_size args → file ≠ [] →
  (∀ e, sampler_order ent e ≡ₚ seq 0 (length file)) →
  ∃ t, run args file ent = Some t ∧ schedule_inv args file (iterations args file) t.
Proof.
  intros Hb Hne Hperm. unfold run.
  destruct (build_trainer_schedule args file Hb Hne) as (t0 & -> & Hinv0).
  cbn [mbind option_bind].
  exact (fit_schedule ent args file t0 Hne Hb Hperm Hinv0).
Qed.

(** The schedule of a run that was completed. *)
Lemma run_Some_schedule args (file : list (Img * Img)) ent t :
  (∀ e, sampler_order ent e ≡ₚ seq 0 (length file)) →
  run args file ent = Some t →
  schedule_inv args file (iterations args file) t.
Proof.
  intros Hperm Hrun.
  assert (Hb : 0 < batch_size args ∧ file ≠ []).
  { unfold run in Hrun.
    destruct (build_trainer args file) as [t0|] eqn:Ht0; [|discriminate].
    apply build_trainer_inv in Ht0. tauto. }
  destruct (run_schedule args file ent (proj1 Hb) (proj2 Hb) Hperm) as (t' & Ht' & Hinv).
  rewrite Hrun in Ht'. by injection Ht' as <-.
Qed.

End Wrapper.
End GanFacts.

(** * The claims *)

Import Net NetFacts Gan GanFacts.

(** ** Networks *)

Lemma CDiscriminatorNetwork_forward_shape `{Weights} torch args x y :
  shape <$> CDiscriminatorNetwork_forward torch args x y
  = CDiscriminatorNetwork_shape torch args (shape x) (shape y).
Proof.
  unfold CDiscriminatorNetwork_forward, CDiscriminatorNetwork_shape, cat1.
  destruct (cat1_shape (shape x) (shape y)) as [s|]; [|reflexivity].
  cbn [mbind option_bind]. apply Sequential_forward_shape.
Qed.

(** With the toggle on, a framework whose [InstanceNorm1d] insists on
    rank-3 input raises on the [(N, 1024)] activation. *)
Lemma CDiscriminatorNetwork_instancenorm1d_raises args n :
  discriminator_instancenorm args = true →
  CDiscriminatorNetwork_shape {| instancenorm1d_rank2 := false |} args
    [n; 3; 32; 32] [n; 3; 32; 32] = None.
Proof.
  intros Ht. unfold CDiscriminatorNetwork_shape, cat1_shape.
  rewrite decide_True by (split; reflexivity). rewrite option_bind_Some.
  unfold CDiscriminatorNetwork_trunk. rewrite Ht. cbn [omap list_omap].
  change (3 + 3) with 6.
  assert (a : conv_out 32 4 2 1 = Some 16) by reflexivity.
  assert (b : conv_out 16 4 2 1 = Some 8) by reflexivity.
  repeat shape_step.
  rewrite sequential_shape_cons.
  change (out_shape _ (Reshape [-1; 128 * 8 * 8]) [n; 128; 8; 8])
    with (view [n; 128; 8; 8] [-1; 128 * 8 * 8]).
  rewrite view_rows.
  - cbn [numel fold_right]. replace (n * (128 * (8 * (8 * 1)))) with (n * (128 * 8 * 8)) by lia.
    rewrite Z.div_mul by lia. rewrite option_bind_Some.
    rewrite sequential_shape_cons, out_shape_Linear, option_bind_Some.
    reflexivity.
  - lia.
  - cbn [numel fold_right]. replace (n * (128 * (8 * (8 * 1)))) with (n * (128 * 8 * 8)) by lia.
    apply Z.mod_mul. lia.
Qed.

(** With the instance norm on, the encoder takes an 8×8 image down to a
    1×1 bottleneck, which [InstanceNorm2d(256)] refuses. *)
Lemma CGeneratorNetwork_instancenorm_8x8_raises torch args n :
  generator_instancenorm args = true →
  sequential_shape torch (CGeneratorNetwork args) [n; 3; 8; 8] = None.
Proof.
  intros Ht. unfold CGeneratorNetwork. rewrite Ht. cbn [omap list_omap].
  destruct (generator_axis 1 ltac:(lia)) as (a1 & a2 & a3 & a4 & _).
  change (8 * 1) with 8 in *. change (8 + 4) with 12 in *.
  change (4 * 1 + 2) with 6 in *. change (2 * 1 + 1) with 3 in *.
  repeat shape_step.
  by rewrite sequential_shape_cons, out_shape_InstanceNorm2d_None.
Qed.




(** C6 (as amended).  For every batch of [n] (image, condition) pairs of
    3-channel images whose two stride-2 convolutions leave 64 positions
    ([h div 4 · w div 4 = 64], the nominal 32×32 among them), the
    discriminator returns a tensor of shape [[n]], one score per pair, when
    the instance-norm toggle is off, and also when it is on provided the
    framework's [InstanceNorm1d] takes the rank-2 activation. *)
Theorem C6_discriminator_one_score_per_pair `{Weights} (torch : Torch) (args : Args)
    (x y : Tensor) (n h w : Z) :
  shape x = [n; 3; h; w] → shape y = [n; 3; h; w] →
  0 < h → 0 < w → (h / 4) * (w / 4) = 64 →
  (discriminator_instancenorm args = true → instancenorm1d_rank2 torch = true) →
  ∃ out, CDiscriminatorNetwork_forward torch args x y = Some out ∧ shape out = [n].
Proof.
  intros Hx Hy Hh Hw Hhw Htoggle.
  pose proof (CDiscriminatorNetwork_forward_shape torch args x y) as Hf.
  rewrite Hx, Hy, CDiscriminatorNetwork_shape_rows in Hf by assumption.
  destruct (CDiscriminatorNetwork_forward torch args x y) as [out|]; [|discriminate].
  exists out. split; [reflexivity|]. cbn in Hf. congruence.
Qed.

Lemma C6_discriminator_one_score_per_pair_witness :
  ∃ out, CDiscriminatorNetwork_forward (H := zero_weights)
           {| instancenorm1d_rank2 := false |} default_args
           (zeros [5; 3; 32; 32]) (zeros [5; 3; 32; 32]) = Some out ∧
         shape out = [5].
Proof.
  apply (C6_discriminator_one_score_per_pair (H := zero_weights)
           {| instancenorm1d_rank2 := false |} default_args
           (zeros [5; 3; 32; 32]) (zeros [5; 3; 32; 32]) 5 32 32);
    [reflexivity | reflexivity | lia | lia | reflexivity | discriminate].
Defined.

(** C6 (as stated) fails: for one pair of 3×64×64 images the discriminator
    returns four scores. *)
Lemma C6_counterexample :
  ∃ out, CDiscriminatorNetwork_forward (H := zero_weights)
           {| instancenorm1d_rank2 := true |} default_args
           (zeros [1; 3; 64; 64]) (zeros [1; 3; 64; 64]) = Some out ∧
         shape out = [4] ∧ shape out ≠ [1].
Proof.
  pose proof (CDiscriminatorNetwork_forward_shape (H := zero_weights)
                {| instancenorm1d_rank2 := true |} default_args
                (zeros [1; 3; 64; 64]) (zeros [1; 3; 64; 64])) as Hf.
  assert (Hs : CDiscriminatorNetwork_shape {| instancenorm1d_rank2 := true |}
                 default_args [1; 3; 64; 64] [1; 3; 64; 64] = Some [4])
    by (by vm_compute).
  cbn [shape zeros] in Hf. rewrite Hs in Hf.
  destruct (CDiscriminatorNetwork_forward _ _ _ _) as [out|]; [|discriminate].
  exists out. split; [reflexivity|].
  assert (shape out = [4]) as -> by (cbn in Hf; congruence).
  split; [reflexivity|discriminate].
Qed.

(** ** The cached condition *)

(** C10.  The entry ['y'] of [_state_hooks] is written by [generate], and
    through it by [y_fake]; [y_real] leaves it as it was, and [discriminate]
    touches no state at all.  Hence after [forward(xreal, y)], which runs
    [y_real] and then [y_fake], the cached condition is the argument [y]. *)
Theorem C10_cached_condition_after_forward `{Backend} (m : CGANModel)
    (xreal y : list Img) :
  _state_hooks (CGANModel_generate m y).2 !! "y" = Some y ∧
  _state_hooks (CGANModel_y_fake m y).2 !! "y" = Some y ∧
  _state_hooks (CGANModel_y_real m xreal y).2 !! "y" = _state_hooks m !! "y" ∧
  _state_hooks (CGANModel_forward m xreal y).2 !! "y" = Some y.
Proof.
  split; [apply generate_hooks_y|].
  split; [apply y_fake_hooks_y|].
  split; [apply y_real_hooks_y | apply forward_hooks_y].
Qed.

(** C3 (as amended).  When the discriminator loss scores the interpolated
    image, it passes the interpolated image itself as the image and, as the
    condition, the condition cached by the most recent call of [generate]
    (directly, or through [y_fake] or [forward]); calls of [y_real] and
    [discriminate] in between do not change it.  If nothing was generated
    yet, the condition is whatever the cache held before, and its absence is
    an error. *)
Theorem C3_penalty_condition_is_last_generated `{Backend} (trace : list Call)
    (m : CGANModel) (xmix : list Img) :
  CWGANDiscriminatorLoss_discriminate (exec trace m) xmix
  = CGANModel_discriminate (exec trace m) xmix
      <$> match last_generate trace with
          | Some y => Some y
          | None => _state_hooks m !! "y"
          end.
Proof.
  unfold CWGANDiscriminatorLoss_discriminate. rewrite exec_hooks_y.
  by destruct (last_generate trace), (_state_hooks m !! "y").
Qed.

(** C3 (as stated) fails: after [generate] with condition [[1]] and then
    [y_real] with condition [[2]], the call that came last is [y_real], but
    the loss scores the interpolated image under condition [[1]]. *)
Lemma C3_counterexample :
  let trace := [call_generate (H := toy_backend) [1];
                call_y_real (H := toy_backend) [5] [2]] in
  let m := exec trace (CGANModel_init (H := toy_backend)) in
  last_generate_or_y_real trace = Some [2] ∧
  CWGANDiscriminatorLoss_discriminate m [7] = Some (CGANModel_discriminate m [7] [1]) ∧
  CWGANDiscriminatorLoss_discriminate m [7]
  ≠ CGANModel_discriminate m [7] <$> last_generate_or_y_real trace.
Proof. by vm_compute. Qed.

(** ** Conditions *)

(** C4 (as amended).  Every condition consumed by the program is the
    nighttime image of its sample pair, the second entry of the row of the
    file: the argument [y] of the model's forward pass on a training batch
    is the batch of the nights (its [xreal] the batch of the days), the
    single condition drawn by the generator-training callback is the night
    of the drawn row, and the condition captured by the image-sampling
    callback at construction is the night of the first row. *)
Theorem C4_conditions_are_night_images `{Backend} (args : Args)
    (file : list (Img * Img)) :
  (∀ b idxs xreal y target,
     training_inputs {| dataset := DNIMWrapper_init file; loader_batch_size := b |} idxs
       = Some (xreal, y, target) →
     ∃ rows, mapM (λ i, file !! i) idxs = Some rows ∧ xreal = rows.*1 ∧ y = rows.*2) ∧
  (∀ self i y,
     gt_dataset self = DNIMWrapper_init file →
     CGeneratorTrainingCallback_condition self i = Some y →
     ∃ day night, file !! Z.to_nat i = Some (day, night) ∧ y = [night]) ∧
  (∀ gridsize cb,
     CGenerateDataCallback_init args gridsize file = Some cb →
     ∃ day night, file !! 0%nat = Some (day, night) ∧ gd_y cb = [night]).
Proof.
  split; [|split].
  - intros b idxs xreal y target Hin. rewrite training_inputs_init in Hin.
    destruct (mapM (λ i, file !! i) idxs) as [rows|]; [|discriminate].
    injection Hin as <- <- <-. by exists rows.
  - intros self i y Hds Hc. rewrite (generator_condition_init self file) in Hc by done.
    destruct (file !! Z.to_nat i) as [[day night]|]; [|discriminate].
    injection Hc as <-. by exists day, night.
  - intros gridsize cb Hcb.
    pose proof (CGenerateDataCallback_init_y args gridsize file) as Hy.
    rewrite Hcb in Hy. destruct (file !! 0%nat) as [[day night]|]; [|discriminate].
    injection Hy as Hy. by exists day, night.
Qed.

Lemma C4_conditions_are_night_images_witness :
  (∃ rows, mapM (λ i, toy_file !! i) [2%nat; 0%nat] = Some rows ∧
           [3; 1] = rows.*1 ∧ [13; 11] = rows.*2) ∧
  (∃ day night, toy_file !! Z.to_nat 3 = Some (day, night) ∧ [14] = [night]) ∧
  (∃ day night, toy_file !! 0%nat = Some (day, night) ∧
                gd_y (image_callback toy_trainer) = [night]).
Proof.
  destruct (C4_conditions_are_night_images (H := toy_backend) scenario_args toy_file)
    as (Hbatch & Hdraw & Hfixed).
  split; [|split].
  - apply (Hbatch 2 [2%nat; 0%nat] [3; 1] [13; 11] [[13; 11]]). reflexivity.
  - apply (Hdraw (generator_callback toy_trainer) 3 [14]); reflexivity.
  - apply (Hfixed 1 (image_callback toy_trainer)). reflexivity.
Defined.

(** C4 (as stated) fails: for the single pair (day [1], night [11]) the
    three conditions are the night [11], not the day [1]. *)
Lemma C4_counterexample :
  let file : list (Z * Z) := [(1, 11)] in
  let loader := {| dataset := DNIMWrapper_init (H := toy_backend) file;
                   loader_batch_size := 1 |} in
  let self := CGeneratorTrainingCallback_init (H := toy_backend) single_args ∅ file in
  (training_inputs loader [0%nat] = Some ([1], [11], [[11]]) ∧
   CGeneratorTrainingCallback_condition self 0 = Some [11] ∧
   gd_y <$> CGenerateDataCallback_init (H := toy_backend) single_args 1 file = Some [11]) ∧
  ¬ (∀ xreal y target, training_inputs loader [0%nat] = Some (xreal, y, target) → y = [1]) ∧
  ¬ (∀ y, CGeneratorTrainingCallback_condition self 0 = Some y → y = [1]) ∧
  ¬ (∀ cb, CGenerateDataCallback_init (H := toy_backend) single_args 1 file = Some cb →
           gd_y cb = [1]).
Proof.
  cbn zeta. split; [by vm_compute|]. split; [|split].
  - intros Hall. specialize (Hall [1] [11] [[11]] eq_refl). discriminate.
  - intros Hall. specialize (Hall [11] eq_refl). discriminate.
  - intros Hall.
    specialize (Hall {| gd_count := 0; gd_image_count := 0; gd_frequency := 1;
                        gd_gridsize := 1;
                        gd_dataset := DNIMWrapper_init (H := toy_backend) [(1, 11)];
                        gd_y := [11] |} eq_refl).
    discriminate.
Qed.

(** ** Optimization steps *)

Lemma train_generator_inv `{Backend} ent t t' :
  CGeneratorTrainingCallback_train_generator ent t = Some t' →
  ∃ i, sample (np_random_raw ent (np_random_calls t))
              (np_random_randint 0 (Z.of_nat (gt_len (generator_callback t)))) = Some i ∧
       CGeneratorTrainingCallback_train_generator_at i
         (set_np_random_calls (S (np_random_calls t)) t) = Some t'.
Proof.
  unfold CGeneratorTrainingCallback_train_generator. intros Hstep.
  destruct (sample _ _) as [i|]; [|discriminate]. by exists i.
Qed.

Lemma train_generator_discriminator_data `{Backend} ent t t' k :
  optimizers_as_built t →
  CGeneratorTrainingCallback_train_generator ent t = Some t' →
  data (model t') !! (discriminator, k) = data (model t) !! (discriminator, k).
Proof.
  intros Hopt Hstep.
  apply train_generator_inv in Hstep as (i & _ & Hat).
  by apply (train_generator_at_discriminator_data i _ t' k) in Hat.
Qed.

(** C7.  An optimization step on the discriminator loss (the trainer's
    step) leaves every generator parameter unchanged, and an optimization
    step on the generator loss (the callback's [train_generator]) leaves
    every discriminator parameter unchanged: each optimizer was built on the
    parameters of one network, and [step] writes to those only.  The
    hypothesis holds in every state of a run (it is part of
    [schedule_inv]). *)
Theorem C7_steps_update_own_network_only `{Backend} (t : Trainer) :
  optimizers_as_built t →
  (∀ idxs t' k, discriminator_step idxs t = Some t' →
     data (model t') !! (generator, k) = data (model t) !! (generator, k)) ∧
  (∀ ent t' k, CGeneratorTrainingCallback_train_generator ent t = Some t' →
     data (model t') !! (discriminator, k) = data (model t) !! (discriminator, k)).
Proof.
  intros Hopt. split.
  - intros idxs t' k Hstep. by eapply discriminator_step_generator_data.
  - intros ent t' k Hstep. by eapply train_generator_discriminator_data.
Qed.

Lemma toy_trainer_optimizers : optimizers_as_built toy_trainer.
Proof.
  unfold optimizers_as_built, toy_trainer.
  cbn [optimizer param_groups Adam_init generator_callback gt_opt
       CGeneratorTrainingCallback_init].
  split; apply parameters_owner.
Qed.

Lemma C7_steps_update_own_network_only_witness :
  optimizers_as_built toy_trainer ∧
  is_Some (discriminator_step [0%nat; 1%nat] toy_trainer) ∧
  is_Some (CGeneratorTrainingCallback_train_generator (plain_entropy 4) toy_trainer) ∧
  ((∀ idxs t' k, discriminator_step idxs toy_trainer = Some t' →
      data (model t') !! (generator, k) = data (model toy_trainer) !! (generator, k)) ∧
   (∀ ent t' k, CGeneratorTrainingCallback_train_generator ent toy_trainer = Some t' →
      data (model t') !! (discriminator, k)
      = data (model toy_trainer) !! (discriminator, k))).
Proof.
  split; [exact toy_trainer_optimizers|].
  split; [apply (bool_decide_unpack _); by vm_compute|].
  split; [apply (bool_decide_unpack _); by vm_compute|].
  exact (C7_steps_update_own_network_only (H := toy_backend) toy_trainer
           toy_trainer_optimizers).
Defined.


Lemma backward_lookup `{Backend} (loss : Loss) (m : CGANModel) (p : pname) :
  grad (backward loss m) !! p
  = union_with (λ g0 g, Some (accumulate g0 g)) (grad m !! p) (backward_grads loss !! p).
Proof. unfold backward. cbn [grad set_grad]. apply lookup_union_with. Qed.

Lemma Adam_zero_grad_lookup `{Backend} (opt : Adam) (m : CGANModel) (p : pname) :
  grad (Adam_zero_grad opt m) !! p
  = (λ g, if decide (p ∈ param_groups opt) then zeros_like g else g) <$> grad m !! p.
Proof.
  unfold Adam_zero_grad. cbn [grad set_grad]. rewrite map_lookup_imap.
  by destruct (grad m !! p).
Qed.




(** On the small backend a generator step lowers the generator's parameter
    from 20 to 19 and leaves the discriminator's at 10. *)
Example train_generator_toy :
  (λ t', (data (model t') !! (generator, 0%nat), data (model t') !! (discriminator, 0%nat),
          _state_hooks (model t') !! "y"))
    <$> CGeneratorTrainingCallback_train_generator (plain_entropy 4) toy_trainer
  = Some (Some 19, Some 10, Some [11]).
Proof. by vm_compute. Qed.

(** ** The schedule *)

(** What a completed run has done: with [n] the number of its training
    iterations, the discriminator's optimizer has stepped [n] times, the
    generator's [floor(n / (generator_frequency + 1))] times, and
    [floor(n / (image_frequency + 1))] images were written, under the names
    [00000000.png], [00000001.png], ... (frequencies below zero count as
    zero). *)
Lemma run_counts `{Backend} (args : Args) (file : list (Img * Img)) (ent : Entropy)
    (t : Trainer) :
  (∀ e, sampler_order ent e ≡ₚ seq 0 (length file)) →
  run args file ent = Some t →
  let n := iterations args file in
  Z.of_nat (steps (optimizer t)) = n ∧
  Z.of_nat (steps (gt_opt (generator_callback t)))
    = n / period (generator_frequency args) ∧
  Z.of_nat (length (files t)) = n / period (image_frequency args) ∧
  (files t).*1
    = image_path args <$> seq 0 (Z.to_nat (n / period (image_frequency args))).
Proof.
  intros Hperm Hrun n.
  destruct (run_Some_schedule args file ent t Hperm Hrun)
    as (_ & _ & Hd & _ & Hic & Hfiles & _ & Hg).
  fold n in Hd, Hic, Hg.
  split; [exact Hd|]. split; [exact Hg|].
  assert (Hlen : length (files t) = gd_image_count (image_callback t)).
  { rewrite <- (length_fmap fst (files t)), Hfiles, length_fmap. apply length_seq. }
  split; [by rewrite Hlen|].
  by rewrite <- Hic, Nat2Z.id.
Qed.

(** C1 (at an input where the code departs from it).  Claimed: a run of
    [E] epochs over [D] samples in batches of [B] steps the discriminator
    [E·ceil(D/B)] times, the generator [floor(E·ceil(D/B) / generator_frequency)]
    times, and writes [floor(E·ceil(D/B) / image_frequency)] images.  For
    one epoch over two pairs in batches of one, with both frequencies 1,
    that is two of each.  A run that completes has stepped the
    discriminator three times, the generator once, and has written one
    image: the trainer trains the first batch of one more pass before it
    stops, and a callback fires only once its counter exceeds its
    frequency, on every second iteration. *)
Theorem C1_schedule_at_failing_input `{Backend} (args : Args)
    (file : list (Img * Img)) (ent : Entropy) (t : Trainer) :
  batch_size args = 1 → epochs args = 1 →
  generator_frequency args = 1 → image_frequency args = 1 →
  length file = 2%nat →
  (∀ e, sampler_order ent e ≡ₚ seq 0 (length file)) →
  run args file ent = Some t →
  steps (optimizer t) = 3%nat ∧
  steps (gt_opt (generator_callback t)) = 1%nat ∧
  length (files t) = 1%nat.
Proof.
  intros Hb He Hgf Hif Hlen Hperm Hrun.
  destruct (run_counts args file ent t Hperm Hrun) as (Hd & Hg & Hf & _).
  unfold iterations in *. rewrite Hb, He, Hlen, ?Hgf, ?Hif in *.
  change (Z.of_nat (steps (optimizer t)) = 3) in Hd.
  change (Z.of_nat (steps (gt_opt (generator_callback t))) = 1) in Hg.
  change (Z.of_nat (length (files t)) = 1) in Hf.
  lia.
Qed.

Lemma C1_schedule_at_failing_input_witness :
  is_Some (run (H := toy_backend) single_args [(1, 11); (2, 12)] (plain_entropy 2)) ∧
  ∀ t, run (H := toy_backend) single_args [(1, 11); (2, 12)] (plain_entropy 2) = Some t →
       steps (optimizer t) = 3%nat ∧
       steps (gt_opt (generator_callback t)) = 1%nat ∧
       length (files t) = 1%nat.
Proof.
  split; [apply (bool_decide_unpack _); by vm_compute|].
  intros t.
  apply (C1_schedule_at_failing_input (H := toy_backend) single_args
           [(1, 11); (2, 12)] (plain_entropy 2) t);
    [reflexivity | reflexivity | reflexivity | reflexivity | reflexivity
    | intros e; reflexivity].
Defined.

(** C2 (what the code does in the scenario).  Claimed: with 4 samples,
    batch size 2, 2 epochs and both frequencies 1, the run makes 4
    discriminator updates, 4 generator updates and writes 4 images with
    zero-padded sequential names from 0.  A run that completes has made 5
    discriminator updates (two passes of two batches and the first batch of
    a third pass), 2 generator updates and 2 images, [00000000.png] and
    [00000001.png] in the directory [generated_images] of the save
    directory: each callback fires on every second iteration. *)
Theorem C2_scenario_counts `{Backend} (args : Args)
    (file : list (Img * Img)) (ent : Entropy) (t : Trainer) :
  batch_size args = 2 → epochs args = 2 →
  generator_frequency args = 1 → image_frequency args = 1 →
  length file = 4%nat →
  (∀ e, sampler_order ent e ≡ₚ seq 0 (length file)) →
  run args file ent = Some t →
  steps (optimizer t) = 5%nat ∧
  steps (gt_opt (generator_callback t)) = 2%nat ∧
  (files t).*1
    = [ os_path_join (os_path_join (save_directory args) "generated_images")
                     "00000000.png";
        os_path_join (os_path_join (save_directory args) "generated_images")
                     "00000001.png" ].
Proof.
  intros Hb He Hgf Hif Hlen Hperm Hrun.
  destruct (run_counts args file ent t Hperm Hrun) as (Hd & Hg & _ & Hfiles).
  unfold iterations in *. rewrite Hb, He, Hlen, ?Hgf, ?Hif in *.
  change (Z.of_nat (steps (optimizer t)) = 5) in Hd.
  change (Z.of_nat (steps (gt_opt (generator_callback t))) = 2) in Hg.
  split; [lia|]. split; [lia|]. exact Hfiles.
Qed.

Lemma C2_scenario_counts_witness :
  is_Some (run (H := toy_backend) scenario_args toy_file (plain_entropy 4)) ∧
  ∀ t, run (H := toy_backend) scenario_args toy_file (plain_entropy 4) = Some t →
       steps (optimizer t) = 5%nat ∧
       steps (gt_opt (generator_callback t)) = 2%nat ∧
       (files t).*1
         = [ os_path_join (os_path_join (save_directory scenario_args) "generated_images")
                          "00000000.png";
             os_path_join (os_path_join (save_directory scenario_args) "generated_images")
                          "00000001.png" ].
Proof.
  split; [apply (bool_decide_unpack _); by vm_compute|].
  intros t.
  apply (C2_scenario_counts (H := toy_backend) scenario_args toy_file
           (plain_entropy 4) t);
    [reflexivity | reflexivity | reflexivity | reflexivity | reflexivity
    | intros e; reflexivity].
Defined.

(** * Further properties of the code *)

(** ** The cache of the model wrapper *)

(** The cache entries the wrapper's methods keep in step. *)
Lemma exec_call_cache_consistent `{Backend} (m : CGANModel) (c : Call) :
  let ok h :=
    h !! "generated_images" = format_images <$> h !! "xfake" ∧
    h !! "real_images" = format_images <$> h !! "xreal" ∧
    (is_Some (h !! "y") ↔ is_Some (h !! "xfake")) in
  ok (_state_hooks m) → ok (_state_hooks (exec_call m c)).
Proof.
  cbn zeta. intros (Hg & Hr & Hy).
  destruct c; cbn [exec_call];
    unfold CGANModel_forward, CGANModel_y_fake, CGANModel_y_real, CGANModel_generate;
    cbn [snd _state_hooks set_hooks];
    repeat first [ rewrite lookup_insert_eq | rewrite lookup_insert_ne by done ];
    try (split; [first [exact Hg | reflexivity] |
         split; [first [exact Hr | reflexivity] | first [exact Hy | split; eauto]]]).
Qed.

(** X2.  Whatever sequence of [generate], [discriminate], [y_fake],
    [y_real] and [forward] calls a freshly built model has seen, its cache
    is coherent: ['generated_images'] is the formatted ['xfake'],
    ['real_images'] is the formatted ['xreal'], and a condition ['y'] is
    cached exactly when a generated batch ['xfake'] is. *)
Theorem X2_cache_coherent `{Backend} (trace : list Call) :
  let h := _state_hooks (exec trace CGANModel_init) in
  h !! "generated_images" = format_images <$> h !! "xfake" ∧
  h !! "real_images" = format_images <$> h !! "xreal" ∧
  (is_Some (h !! "y") ↔ is_Some (h !! "xfake")).
Proof.
  induction trace as [|c trace IH] using rev_ind.
  - cbn. rewrite !lookup_empty. split; [done|]. split; [done|].
    split; intros [? ?]; discriminate.
  - rewrite exec_snoc. by apply (exec_call_cache_consistent (exec trace CGANModel_init) c).
Qed.

(** X3.  On a freshly built model the discriminator loss can score an
    interpolated image only after some call has generated ([generate],
    [y_fake] or [forward]): after calls of [y_real] and [discriminate] alone
    the lookup of ['y'] raises [KeyError]. *)
Theorem X3_discriminate_needs_a_generate `{Backend} (trace : list Call)
    (xmix : list Img) :
  (is_Some (CWGANDiscriminatorLoss_discriminate (exec trace CGANModel_init) xmix)
   → is_Some (last_generate trace)) ∧
  (Forall (λ c, match c with
                | call_y_real _ _ | call_discriminate _ _ => True
                | _ => False
                end) trace →
   CWGANDiscriminatorLoss_discriminate (exec trace CGANModel_init) xmix = None).
Proof.
  assert (Hd : CWGANDiscriminatorLoss_discriminate (exec trace CGANModel_init) xmix
               = CGANModel_discriminate (exec trace CGANModel_init) xmix
                   <$> last_generate trace).
  { unfold CWGANDiscriminatorLoss_discriminate. rewrite exec_hooks_y.
    cbn [CGANModel_init _state_hooks]. rewrite lookup_empty.
    by destruct (last_generate trace). }
  split.
  - rewrite Hd. apply fmap_is_Some.
  - intros Hall. rewrite Hd.
    assert (Hnone : last_generate trace = None); [|by rewrite Hnone].
    unfold last_generate.
    assert (Homap : omap (λ c : Call, match c with
                                      | call_generate y | call_y_fake y
                                      | call_forward _ y => Some y
                                      | _ => None
                                      end) trace = []); [|by rewrite Homap].
    clear Hd. induction Hall as [|c trace Hc _ IH]; [reflexivity|].
    destruct c; try done; cbn; exact IH.
Qed.

Lemma X3_discriminate_needs_a_generate_witness :
  CWGANDiscriminatorLoss_discriminate
    (exec [call_y_real (H := toy_backend) [5] [2];
           call_discriminate (H := toy_backend) [5] [2]]
          (CGANModel_init (H := toy_backend))) [7] = None.
Proof.
  apply (X3_discriminate_needs_a_generate (H := toy_backend)
           [call_y_real (H := toy_backend) [5] [2];
           call_discriminate (H := toy_backend) [5] [2]] [7]).
  repeat constructor.
Defined.

(** ** The image-sampling callback *)

(** X4.  [CGenerateDataCallback.generate] runs the generator in eval mode
    on the callback's own fixed condition, whatever the mode was, and always
    leaves the model in train mode (also when it was in eval mode before).
    It overwrites the cached ['y'] and ['xfake'] with that condition and its
    image, and touches no parameter, gradient, optimizer, counter or file. *)
Theorem X4_sampling_runs_in_eval_mode `{Backend} (t : Trainer) :
  let r := CGenerateDataCallback_generate t in
  r.1 = generator_forward (parameters generator (model t)) false
                          (gd_y (image_callback t)) ∧
  training (model r.2) = true ∧
  _state_hooks (model r.2) !! "y" = Some (gd_y (image_callback t)) ∧
  _state_hooks (model r.2) !! "xfake" = Some r.1 ∧
  data (model r.2) = data (model t) ∧
  grad (model r.2) = grad (model t) ∧
  optimizer r.2 = optimizer t ∧
  image_callback r.2 = image_callback t ∧
  generator_callback r.2 = generator_callback t ∧
  files r.2 = files t.
Proof.
  cbn zeta. unfold CGenerateDataCallback_generate, CGANModel_generate.
  cbn [fst snd model set_model set_training training _state_hooks set_hooks data grad
       optimizer image_callback generator_callback files].
  repeat split.
  - rewrite lookup_insert_ne by done. apply lookup_insert_eq.
  - rewrite 2!lookup_insert_ne by done. apply lookup_insert_eq.
Qed.

(** ** File names *)

Lemma string_app_cons (a : Ascii.ascii) (s t : string) :
  String a s +:+ t = String a (s +:+ t).
Proof. reflexivity. Qed.

Lemma string_length_app (s1 s2 : string) :
  String.length (s1 +:+ s2) = (String.length s1 + String.length s2)%nat.
Proof.
  induction s1 as [|a s1 IH]; [reflexivity|].
  rewrite string_app_cons. cbn [String.length]. by rewrite IH.
Qed.

Lemma string_app_inj_r (s1 s2 t : string) : s1 +:+ t = s2 +:+ t → s1 = s2.
Proof.
  revert s2. induction s1 as [|a s1 IH]; intros [|b s2] Heq.
  - reflexivity.
  - apply (f_equal String.length) in Heq.
    rewrite !string_length_app in Heq. cbn [String.length] in Heq. lia.
  - apply (f_equal String.length) in Heq.
    rewrite !string_length_app in Heq. cbn [String.length] in Heq. lia.
  - rewrite !string_app_cons in Heq. injection Heq as -> Heq. f_equal. by apply IH.
Qed.

Lemma zeros_succ (k : nat) :
  String.concat "" (replicate (S k) "0"%string)
  = String (Ascii.ascii_of_nat 48) (String.concat "" (replicate k "0"%string)).
Proof. destruct k; reflexivity. Qed.

Lemma zeros_length (k : nat) :
  String.length (String.concat "" (replicate k "0"%string)) = k.
Proof.
  induction k as [|k IH]; [reflexivity|]. rewrite zeros_succ.
  cbn [String.length]. by rewrite IH.
Qed.

Lemma uint_of_string_zeros (k : nat) (s : string) :
  Nat.of_uint <$> NilEmpty.uint_of_string (String.concat "" (replicate k "0"%string) +:+ s)
  = Nat.of_uint <$> NilEmpty.uint_of_string s.
Proof.
  induction k as [|k IH]; [reflexivity|]. rewrite zeros_succ, string_app_cons.
  cbn [NilEmpty.uint_of_string]. rewrite <- IH.
  by destruct (NilEmpty.uint_of_string _).
Qed.

Lemma uint_of_string_digits (d : Decimal.uint) :
  Nat.of_uint <$> NilEmpty.uint_of_string (NilZero.string_of_uint d) = Some (Nat.of_uint d).
Proof.
  destruct d; try (unfold NilZero.string_of_uint; by rewrite NilEmpty.usu).
  reflexivity.
Qed.

Lemma format_08d_length (n : nat) : (8 <= String.length (format_08d n))%nat.
Proof. unfold format_08d. rewrite string_length_app, zeros_length. lia. Qed.

Lemma int_of_digits_format_08d (n : nat) : int_of_digits (format_08d n) = Some n.
Proof.
  unfold int_of_digits.
  assert (Hne : NilZero.uint_of_string (format_08d n)
                = NilEmpty.uint_of_string (format_08d n)).
  { pose proof (format_08d_length n) as Hlen.
    by destruct (format_08d n); [cbn in Hlen; lia|]. }
  rewrite Hne. unfold format_08d.
  by rewrite uint_of_string_zeros, uint_of_string_digits, DecimalNat.Unsigned.of_to.
Qed.

Lemma format_08d_inj (n m : nat) : format_08d n = format_08d m → n = m.
Proof.
  intros Heq. pose proof (int_of_digits_format_08d n) as Hn.
  rewrite Heq, int_of_digits_format_08d in Hn. congruence.
Qed.

(** X5.  ['{:08d}'.format(n)] has at least eight characters and reads back
    as [n]; hence two different counters never give the same name. *)
Theorem X5_format_08d_round_trip (n : nat) :
  int_of_digits (format_08d n) = Some n ∧
  (8 <= String.length (format_08d n))%nat ∧
  ∀ m, format_08d n = format_08d m → n = m.
Proof.
  split; [apply int_of_digits_format_08d|]. split; [apply format_08d_length|].
  intros m. apply format_08d_inj.
Qed.

(** A file stem starts with a digit, so the name built from it is
    relative. *)
Lemma format_08d_relative (n : nat) (s : string) :
  startswith_sep (format_08d n +:+ s) = false.
Proof.
  unfold format_08d.
  destruct (8 - String.length (NilZero.string_of_uint (Nat.to_uint n)))%nat as [|k].
  - unfold NilZero.string_of_uint.
    destruct (Nat.to_uint n); cbn [NilEmpty.string_of_uint String.concat replicate];
      rewrite ?string_app_cons; reflexivity.
  - rewrite zeros_succ, !string_app_cons. reflexivity.
Qed.

(** Joining a relative name to a fixed directory loses nothing of the
    name. *)
Lemma os_path_join_inj (a b b' : string) :
  startswith_sep b = false → startswith_sep b' = false →
  os_path_join a b = os_path_join a b' → b = b'.
Proof.
  unfold os_path_join. intros -> ->.
  destruct (bool_decide (a = EmptyString) || endswith_sep a); intros Heq.
  - by apply (inj (String.append _)) in Heq.
  - apply (inj (String.append _)) in Heq. by apply (inj (String.append _)) in Heq.
Qed.

Lemma image_path_inj (args : Args) (a b : nat) :
  image_path args a = image_path args b → a = b.
Proof.
  unfold image_path. intros Heq.
  apply os_path_join_inj in Heq; [|apply format_08d_relative..].
  apply string_app_inj_r in Heq. by apply format_08d_inj.
Qed.

(** ** The whole run *)

Lemma generator_callback_draws `{Backend} ent t t' :
  CGeneratorTrainingCallback_end_of_training_iteration ent t = Some t' →
  (np_random_calls t' + steps (gt_opt (generator_callback t))
   = np_random_calls t + steps (gt_opt (generator_callback t')))%nat.
Proof.
  unfold CGeneratorTrainingCallback_end_of_training_iteration.
  destruct (_ >? _).
  - destruct (CGeneratorTrainingCallback_train_generator ent _) as [t2|] eqn:Ht2;
      [|discriminate].
    cbn [mbind option_bind]. intros [= <-].
    apply train_generator_fields in Ht2
      as (Hs & _ & _ & _ & _ & _ & _ & _ & _ & _ & _ & _ & Hnp).
    cbn [np_random_calls set_generator_callback generator_callback gt_opt gt_set_count]
      in *. lia.
  - intros [= <-]. reflexivity.
Qed.

Lemma end_of_training_iteration_draws `{Backend} ent t t' :
  end_of_training_iteration ent t = Some t' →
  (np_random_calls t' + steps (gt_opt (generator_callback t))
   = np_random_calls t + steps (gt_opt (generator_callback t')))%nat.
Proof.
  unfold end_of_training_iteration. destruct (image_callback_first ent).
  - intros Ht'. apply generator_callback_draws in Ht'.
    pose proof (image_callback_fields t) as (_ & Hg2 & _ & _ & _ & Hn2 & _).
    cbn zeta in Hg2, Hn2. by rewrite Hg2, Hn2 in Ht'.
  - destruct (CGeneratorTrainingCallback_end_of_training_iteration ent t)
      as [t1|] eqn:Ht1; [|discriminate].
    cbn [mbind option_bind]. intros [= <-].
    apply generator_callback_draws in Ht1.
    pose proof (image_callback_fields t1) as (_ & Hg2 & _ & _ & _ & Hn2 & _).
    cbn zeta in Hg2, Hn2. by rewrite Hg2, Hn2.
Qed.

Lemma train_iteration_draws `{Backend} ent idxs t t' :
  train_iteration ent idxs t = Some t' →
  (np_random_calls t' + steps (gt_opt (generator_callback t))
   = np_random_calls t + steps (gt_opt (generator_callback t')))%nat.
Proof.
  unfold train_iteration.
  destruct (discriminator_step idxs t) as [t1|] eqn:Ht1; [|discriminate].
  cbn [mbind option_bind]. intros Ht'.
  apply discriminator_step_fields in Ht1 as (_ & _ & _ & Hg1 & _ & _ & _ & _ & Hn1).
  apply end_of_training_iteration_draws in Ht'. by rewrite Hg1, Hn1 in Ht'.
Qed.

Lemma train_epoch_draws `{Backend} ent batches t t' :
  train_epoch ent batches t = Some t' →
  (np_random_calls t' + steps (gt_opt (generator_callback t))
   = np_random_calls t + steps (gt_opt (generator_callback t')))%nat.
Proof.
  revert t. induction batches as [|idxs batches IH]; intros t; cbn [train_epoch].
  - by intros [= <-].
  - destruct (train_iteration ent idxs t) as [t1|] eqn:Ht1; [|discriminate].
    cbn [mbind option_bind]. intros Ht'.
    apply train_iteration_draws in Ht1. apply IH in Ht'. lia.
Qed.

Lemma fit_from_draws `{Backend} ent k e t t' :
  fit_from ent k e t = Some t' →
  (np_random_calls t' + steps (gt_opt (generator_callback t))
   = np_random_calls t + steps (gt_opt (generator_callback t')))%nat.
Proof.
  revert e t. induction k as [|k IH]; intros e t; cbn [fit_from].
  - by intros [= <-].
  - destruct (train_epoch ent _ t) as [t1|] eqn:Ht1; [|discriminate].
    cbn [mbind option_bind]. intros Ht'.
    apply train_epoch_draws in Ht1. apply IH in Ht'. lia.
Qed.

(** [fit] is a number of full passes, followed by one more iteration
    unless there was no pass at all. *)
Lemma fit_inv `{Backend} ent t t' :
  fit ent t = Some t' →
  (Z.to_nat (max_num_epochs t) = 0%nat ∧ t' = t) ∨
  ∃ t1 idxs, fit_from ent (Z.to_nat (max_num_epochs t)) 0 t = Some t1 ∧
             train_iteration ent idxs t1 = Some t'.
Proof.
  unfold fit. destruct (Z.to_nat (max_num_epochs t)) as [|k] eqn:Hk.
  - intros [= <-]. by left.
  - destruct (fit_from ent (S k) 0 t) as [t1|] eqn:Ht1; [|discriminate].
    cbn [mbind option_bind].
    destruct (epoch_batches ent t1 (S k)) as [|idxs rest]; [discriminate|].
    intros Ht'. right. by exists t1, idxs.
Qed.

Lemma fit_draws `{Backend} ent t t' :
  fit ent t = Some t' →
  (np_random_calls t' + steps (gt_opt (generator_callback t))
   = np_random_calls t + steps (gt_opt (generator_callback t')))%nat.
Proof.
  intros Hfit. apply fit_inv in Hfit as [[_ ->]|(t1 & idxs & Ht1 & Ht')]; [reflexivity|].
  apply fit_from_draws in Ht1. apply train_iteration_draws in Ht'. lia.
Qed.

(** X6.  The schedule of a whole run of [E ≥ 1] epochs over [D] pairs in
    batches of [B].  A run that completes has made
    [n = E · ceil(D / B) + 1] training iterations: [E] passes over the
    loader and the first batch of one more pass, which the trainer fetches
    and trains before it compares the epoch count with its limit.  The
    discriminator's optimizer has then stepped [n] times; each callback has
    fired [floor(n / (f + 1))] times for its frequency [f] (a negative [f]
    counting as 0), its counter standing at [n mod (f + 1)]; there is one
    file per firing of the image callback; and every generator step has
    taken exactly one draw from [np.random]. *)
Theorem X6_run_schedule `{Backend} (args : Args) (file : list (Img * Img))
    (ent : Entropy) (t : Trainer) :
  1 <= epochs args →
  (∀ e, sampler_order ent e ≡ₚ seq 0 (length file)) →
  run args file ent = Some t →
  let n := epochs args * batches_per_epoch (Z.of_nat (length file)) (batch_size args)
           + 1 in
  Z.of_nat (steps (optimizer t)) = n ∧
  Z.of_nat (steps (gt_opt (generator_callback t)))
    = n / period (generator_frequency args) ∧
  gt_count (generator_callback t) = n mod period (generator_frequency args) ∧
  Z.of_nat (gd_image_count (image_callback t)) = n / period (image_frequency args) ∧
  gd_count (image_callback t) = n mod period (image_frequency args) ∧
  length (files t) = gd_image_count (image_callback t) ∧
  np_random_calls t = steps (gt_opt (generator_callback t)).
Proof.
  intros He Hperm Hrun n.
  destruct (run_Some_schedule args file ent t Hperm Hrun)
    as (_ & _ & Hd & Hic & Hin & Hfiles & Hgc & Hg).
  unfold iterations in *. rewrite decide_True in * by assumption.
  fold n in Hd, Hic, Hin, Hgc, Hg.
  split; [exact Hd|]. split; [exact Hg|].
  split; [exact Hgc|]. split; [exact Hin|]. split; [exact Hic|]. split.
  - rewrite <- (length_fmap fst (files t)), Hfiles, length_fmap. apply length_seq.
  - unfold run in Hrun.
    destruct (build_trainer args file) as [t0|] eqn:Ht0; [|discriminate].
    cbn [mbind option_bind] in Hrun. apply fit_draws in Hrun.
    apply build_trainer_inv in Ht0 as (_ & _ & _ & Hcalls & Hsteps & _).
    lia.
Qed.

Lemma X6_run_schedule_witness :
  is_Some (run (H := toy_backend) scenario_args toy_file (plain_entropy 4)) ∧
  ∀ t, run (H := toy_backend) scenario_args toy_file (plain_entropy 4) = Some t →
       Z.of_nat (steps (optimizer t)) = 5 ∧
       Z.of_nat (steps (gt_opt (generator_callback t))) = 2 ∧
       gt_count (generator_callback t) = 1 ∧
       Z.of_nat (gd_image_count (image_callback t)) = 2 ∧
       gd_count (image_callback t) = 1 ∧
       length (files t) = gd_image_count (image_callback t) ∧
       np_random_calls t = steps (gt_opt (generator_callback t)).
Proof.
  split; [apply (bool_decide_unpack _); by vm_compute|].
  intros t.
  apply (X6_run_schedule (H := toy_backend) scenario_args toy_file (plain_entropy 4) t);
    [discriminate | intros e; reflexivity].
Defined.

(** X7.  The image files of a completed run are written under pairwise
    different names, the [j]-th one under the zero-padded number [j] in the
    directory [generated_images] of the save directory (joined as
    [os.path.join] does): no image overwrites an earlier one of the same
    run. *)
Theorem X7_image_files_never_overwritten `{Backend} (args : Args)
    (file : list (Img * Img)) (ent : Entropy) (t : Trainer) :
  (∀ e, sampler_order ent e ≡ₚ seq 0 (length file)) →
  run args file ent = Some t →
  NoDup (files t).*1 ∧
  ∀ j name, (files t).*1 !! j = Some name →
    name = os_path_join (os_path_join (save_directory args) "generated_images")
                        (format_08d j +:+ ".png").
Proof.
  intros Hperm Hrun.
  destruct (run_Some_schedule args file ent t Hperm Hrun)
    as (_ & _ & _ & _ & _ & Hfiles & _).
  rewrite Hfiles. split.
  - apply NoDup_fmap_2; [|apply NoDup_seq].
    intros a b. apply image_path_inj.
  - intros j name Hj. rewrite list_lookup_fmap in Hj.
    destruct (seq 0 _ !! j) as [k|] eqn:Hk; [|discriminate].
    apply lookup_seq in Hk as [-> _]. by injection Hj as <-.
Qed.

Lemma X7_image_files_never_overwritten_witness :
  is_Some (run (H := toy_backend) scenario_args toy_file (plain_entropy 4)) ∧
  ∀ t, run (H := toy_backend) scenario_args toy_file (plain_entropy 4) = Some t →
       NoDup (files t).*1 ∧
       ∀ j name, (files t).*1 !! j = Some name →
         name = os_path_join (os_path_join (save_directory scenario_args)
                                           "generated_images")
                             (format_08d j +:+ ".png").
Proof.
  split; [apply (bool_decide_unpack _); by vm_compute|].
  intros t.
  apply (X7_image_files_never_overwritten (H := toy_backend) scenario_args toy_file
           (plain_entropy 4) t).
  intros e; reflexivity.
Defined.

(** ** Gradients *)

(** X8.  Each optimization step zeroes the gradients of its own
    optimizer's parameters only, before it backpropagates.  So in the
    trainer's step a discriminator parameter receives the gradient of the
    discriminator loss on top of zeros, while the gradient that loss sends
    into a generator parameter is added to whatever that parameter's [.grad]
    held; and the other way round in [train_generator]. *)
Theorem X8_zero_grad_is_per_optimizer `{Backend} (t : Trainer) :
  optimizers_as_built t →
  (∀ idxs t', discriminator_step idxs t = Some t' →
     ∃ loss,
       (∀ p, p ∈ param_groups (optimizer t) →
          grad (model t') !! p
          = union_with (λ g0 g, Some (accumulate g0 g))
              (zeros_like <$> grad (model t) !! p) (backward_grads loss !! p)) ∧
       (∀ k, grad (model t') !! (generator, k)
          = union_with (λ g0 g, Some (accumulate g0 g))
              (grad (model t) !! (generator, k))
              (backward_grads loss !! (generator, k)))) ∧
  (∀ i t', CGeneratorTrainingCallback_train_generator_at i t = Some t' →
     ∃ loss,
       (∀ p, p ∈ param_groups (gt_opt (generator_callback t)) →
          grad (model t') !! p
          = union_with (λ g0 g, Some (accumulate g0 g))
              (zeros_like <$> grad (model t) !! p) (backward_grads loss !! p)) ∧
       (∀ k, grad (model t') !! (discriminator, k)
          = union_with (λ g0 g, Some (accumulate g0 g))
              (grad (model t) !! (discriminator, k))
              (backward_grads loss !! (discriminator, k)))).
Proof.
  intros [Hd Hg]. split.
  - intros idxs t' Hstep.
    apply discriminator_step_inv in Hstep as (xreal & y & target & loss & _ & ->).
    exists loss. cbn [model set_optimizer set_model].
    assert (Hgrad : ∀ p,
      grad (Adam_step (optimizer t)
              (backward loss
                 (CGANModel_forward (Adam_zero_grad (optimizer t) (model t)) xreal y).2)).2
        !! p
      = union_with (λ g0 g, Some (accumulate g0 g))
          ((λ g, if decide (p ∈ param_groups (optimizer t)) then zeros_like g else g)
             <$> grad (model t) !! p)
          (backward_grads loss !! p)).
    { intros p. rewrite (proj1 (proj2 (Adam_step_frame _ _))), backward_lookup.
      rewrite (proj1 (proj2 (forward_frame _ xreal y))). by rewrite Adam_zero_grad_lookup. }
    split.
    + intros p Hp. rewrite Hgrad. f_equal.
      destruct (grad (model t) !! p); [|reflexivity]. cbn. by rewrite decide_True.
    + intros k. rewrite Hgrad. f_equal.
      destruct (grad (model t) !! (generator, k)); [|reflexivity]. cbn.
      rewrite decide_False; [reflexivity|]. intros Hin. apply Hd in Hin. discriminate.
  - intros i t' Hstep.
    apply train_generator_at_inv in Hstep as (y & _ & ->).
    eexists. cbn [model set_generator_callback set_model].
    assert (Hgrad : ∀ p,
      grad (Adam_step (gt_opt (generator_callback t))
              (backward (wgan_generator_loss (CGANModel_y_fake (model t) y).1)
                 (Adam_zero_grad (gt_opt (generator_callback t))
                    (CGANModel_y_fake (model t) y).2))).2 !! p
      = union_with (λ g0 g, Some (accumulate g0 g))
          ((λ g, if decide (p ∈ param_groups (gt_opt (generator_callback t)))
                 then zeros_like g else g) <$> grad (model t) !! p)
          (backward_grads (wgan_generator_loss (CGANModel_y_fake (model t) y).1) !! p)).
    { intros p. rewrite (proj1 (proj2 (Adam_step_frame _ _))), backward_lookup.
      rewrite Adam_zero_grad_lookup.
      by rewrite (proj1 (proj2 (y_fake_frame (model t) y))). }
    split.
    + intros p Hp. rewrite Hgrad. f_equal.
      destruct (grad (model t) !! p); [|reflexivity]. cbn. by rewrite decide_True.
    + intros k. rewrite Hgrad. f_equal.
      destruct (grad (model t) !! (discriminator, k)); [|reflexivity]. cbn.
      rewrite decide_False; [reflexivity|]. intros Hin. apply Hg in Hin. discriminate.
Qed.

Lemma X8_zero_grad_is_per_optimizer_witness :
  optimizers_as_built toy_trainer ∧
  is_Some (discriminator_step [0%nat; 1%nat] toy_trainer) ∧
  is_Some (CGeneratorTrainingCallback_train_generator_at 2 toy_trainer) ∧
  ((∀ idxs t', discriminator_step idxs toy_trainer = Some t' →
     ∃ loss,
       (∀ p, p ∈ param_groups (optimizer toy_trainer) →
          grad (model t') !! p
          = union_with (λ g0 g, Some (accumulate g0 g))
              (zeros_like <$> grad (model toy_trainer) !! p) (backward_grads loss !! p)) ∧
       (∀ k, grad (model t') !! (generator, k)
          = union_with (λ g0 g, Some (accumulate g0 g))
              (grad (model toy_trainer) !! (generator, k))
              (backward_grads loss !! (generator, k)))) ∧
   (∀ i t', CGeneratorTrainingCallback_train_generator_at i toy_trainer = Some t' →
     ∃ loss,
       (∀ p, p ∈ param_groups (gt_opt (generator_callback toy_trainer)) →
          grad (model t') !! p
          = union_with (λ g0 g, Some (accumulate g0 g))
              (zeros_like <$> grad (model toy_trainer) !! p) (backward_grads loss !! p)) ∧
       (∀ k, grad (model t') !! (discriminator, k)
          = union_with (λ g0 g, Some (accumulate g0 g))
              (grad (model toy_trainer) !! (discriminator, k))
              (backward_grads loss !! (discriminator, k))))).
Proof.
  split; [exact toy_trainer_optimizers|].
  split; [apply (bool_decide_unpack _); by vm_compute|].
  split; [apply (bool_decide_unpack _); by vm_compute|].
  exact (X8_zero_grad_is_per_optimizer (H := toy_backend) toy_trainer
           toy_trainer_optimizers).
Defined.

(** ** The loader *)

Lemma chunks_sizes {A} (b fuel : nat) (l : list A) :
  (0 < b)%nat → Forall (λ c, 0 < length c <= b)%nat (chunks fuel b l).
Proof.
  intros Hb. revert l. induction fuel as [|fuel IH]; intros l; [constructor|].
  destruct l as [|a l'] eqn:El; [constructor|]. rewrite <- El.
  replace (chunks (S fuel) b l) with (take b l :: chunks fuel b (drop b l))
    by (subst l; reflexivity).
  constructor; [|apply IH].
  rewrite length_take. subst l. cbn [length]. lia.
Qed.

(** X9.  The loader is built with shuffling and without [drop_last]: the
    batches of an epoch are [ceil(D / B)] non-empty groups of at most [B]
    indices which together are a permutation of the whole dataset, so every
    pair is presented exactly once per epoch; and each batch reaches the
    model as the days ([xreal]) and the nights ([y]) of its rows, in the
    same order. *)
Theorem X9_epoch_visits_every_pair_once `{Backend} (args : Args)
    (file : list (Img * Img)) (ent : Entropy) (t : Trainer) (e : nat) :
  dnim_cgan_data_loader args file = Some (train_loader t) →
  sampler_order ent e ≡ₚ seq 0 (length file) →
  concat (epoch_batches ent t e) ≡ₚ seq 0 (length file) ∧
  Z.of_nat (length (epoch_batches ent t e))
    = batches_per_epoch (Z.of_nat (length file)) (batch_size args) ∧
  Forall (λ idxs, (0 < length idxs)%nat ∧ Z.of_nat (length idxs) <= batch_size args ∧
                  ∃ rows, mapM (λ i, file !! i) idxs = Some rows ∧
                          training_inputs (train_loader t) idxs
                          = Some (rows.*1, rows.*2, [rows.*2]))
         (epoch_batches ent t e).
Proof.
  intros Hl Hperm.
  apply dnim_cgan_data_loader_Some in Hl as (Hb & _ & Hl).
  assert (Hpos : (0 < Z.to_nat (batch_size args))%nat) by lia.
  unfold epoch_batches, batch_sampler. rewrite Hl. cbn [loader_batch_size].
  split; [|split].
  - rewrite chunks_concat by lia. exact Hperm.
  - rewrite chunks_length by lia. rewrite Z2Nat.id by lia.
    by rewrite Hperm, length_seq.
  - pose proof (chunks_sizes (Z.to_nat (batch_size args))
                  (length (sampler_order ent e)) (sampler_order ent e) Hpos) as Hsz.
    assert (Hin : Forall (Forall (λ i, i < length file)%nat)
                    (chunks (length (sampler_order ent e)) (Z.to_nat (batch_size args))
                            (sampler_order ent e))).
    { apply chunks_Forall. rewrite Hperm. apply Forall_forall.
      intros i Hi. apply elem_of_seq in Hi. lia. }
    revert Hsz Hin. generalize (chunks (length (sampler_order ent e))
                                  (Z.to_nat (batch_size args)) (sampler_order ent e)).
    intros batches Hsz Hin. induction Hsz as [|idxs batches [Hlo Hhi] _ IH];
      [constructor|].
    apply Forall_cons in Hin as [Hidx Hin]. constructor; [|by apply IH].
    split; [exact Hlo|]. split; [lia|].
    destruct (mapM_lookup_is_Some file idxs Hidx) as [rows Hrows].
    exists rows. split; [exact Hrows|].
    by rewrite training_inputs_init, Hrows.
Qed.

Lemma X9_epoch_visits_every_pair_once_witness :
  concat (epoch_batches (plain_entropy 4) toy_trainer 0) ≡ₚ seq 0 (length toy_file) ∧
  Z.of_nat (length (epoch_batches (plain_entropy 4) toy_trainer 0))
    = batches_per_epoch (Z.of_nat (length toy_file)) (batch_size scenario_args) ∧
  Forall (λ idxs, (0 < length idxs)%nat ∧
                  Z.of_nat (length idxs) <= batch_size scenario_args ∧
                  ∃ rows, mapM (λ i, toy_file !! i) idxs = Some rows ∧
                          training_inputs (train_loader toy_trainer) idxs
                          = Some (rows.*1, rows.*2, [rows.*2]))
         (epoch_batches (plain_entropy 4) toy_trainer 0).
Proof.
  apply (X9_epoch_visits_every_pair_once (H := toy_backend) scenario_args toy_file
           (plain_entropy 4) toy_trainer 0); reflexivity.
Defined.

(** ** Construction *)

(** X10.  With a batch size of zero or less, or with an empty dataset,
    building the [DataLoader] raises [ValueError] (an empty dataset is
    refused by the shuffling sampler).  The loader is the first thing [run]
    builds after saving the command line, so [run] raises before the model,
    the callbacks or any training iteration exist, whatever the other
    options. *)
Theorem X10_run_needs_samples_and_batch_size `{Backend} (args : Args)
    (file : list (Img * Img)) (ent : Entropy) :
  batch_size args <= 0 ∨ file = [] →
  dnim_cgan_data_loader args file = None ∧
  build_trainer args file = None ∧
  run args file ent = None.
Proof.
  intros Hbad.
  assert (Hl : dnim_cgan_data_loader args file = None).
  { destruct (dnim_cgan_data_loader args file) as [loader|] eqn:Hl; [|reflexivity].
    apply dnim_cgan_data_loader_Some in Hl as (Hb & Hne & _).
    destruct Hbad; [lia|done]. }
  split; [exact Hl|]. unfold run, build_trainer. by rewrite Hl.
Qed.

Lemma X10_run_needs_samples_and_batch_size_witness :
  dnim_cgan_data_loader (H := toy_backend) scenario_args [] = None ∧
  build_trainer (H := toy_backend) scenario_args [] = None ∧
  run (H := toy_backend) scenario_args [] (plain_entropy 0) = None.
Proof.
  apply (X10_run_needs_samples_and_batch_size (H := toy_backend) scenario_args []
           (plain_entropy 0)).
  right. reflexivity.
Defined.

(** ** Shapes through the networks *)

Lemma generator_axis_down (h : Z) :
  0 < h →
  conv_out h 3 1 3 = Some (h + 4) ∧
  conv_out (h + 4) 4 2 1 = Some ((h + 4) / 2) ∧
  conv_out ((h + 4) / 2) 4 2 1 = Some ((h + 4) / 4) ∧
  conv_out ((h + 4) / 4) 4 2 1 = (if decide (4 <= h) then Some ((h + 4) / 8) else None).
Proof.
  intros Hh. unfold conv_out.
  repeat split;
    repeat match goal with
           | |- context [?a <? ?b] => destruct (Z.ltb_spec a b)
           | |- context [decide (4 <= h)] => destruct (decide (4 <= h))
           end;
    first [ reflexivity
          | exfalso; Z.to_euclidean_division_equations; lia
          | f_equal; Z.to_euclidean_division_equations; lia ].
Qed.

Lemma out_shape_Conv2d_None torch n c cout k st p h w :
  conv_out h k st p = None ∨ conv_out w k st p = None →
  out_shape torch (Conv2d c cout k st p) [n; c; h; w] = None.
Proof.
  intros Hnone. simpl. rewrite decide_True by reflexivity.
  destruct (conv_out h k st p); [|reflexivity]. cbn.
  destruct Hnone as [Hn|Hn]; [discriminate|by rewrite Hn].
Qed.

Lemma CGeneratorNetwork_first args :
  ∃ ms, CGeneratorNetwork args = Conv2d 3 32 3 1 3 :: ms.
Proof. unfold CGeneratorNetwork. destruct (generator_instancenorm args); by eexists. Qed.

(** A two-dimensional layer treats an image without batch axis as a
    batch of one. *)
Lemma out_shape_unbatched torch m c h w :
  match m with
  | Conv2d _ _ _ _ _ | ConvTranspose2d _ _ _ _ _ | InstanceNorm2d _
  | LeakyReLU | Dropout | Sigmoid => True
  | _ => False
  end →
  (out_shape torch m [c; h; w] = None ∧ out_shape torch m [1; c; h; w] = None) ∨
  ∃ c' h' w', out_shape torch m [c; h; w] = Some [c'; h'; w'] ∧
              out_shape torch m [1; c; h; w] = Some [1; c'; h'; w'].
Proof.
  destruct m as [cin cout k st p|cin cout k st p| | | | | | |]; try done; intros _;
    cbn [out_shape]; try (right; by eexists _, _, _).
  - destruct (decide (c = cin)); [|by left].
    destruct (conv_out h k st p) as [h'|]; [|by left].
    destruct (conv_out w k st p) as [w'|]; [|by left].
    right. by exists cout, h', w'.
  - destruct (decide (c = cin)); [|by left].
    destruct (conv_transpose_out h k st p) as [h'|]; [|by left].
    destruct (conv_transpose_out w k st p) as [w'|]; [|by left].
    right. by exists cout, h', w'.
  - destruct (decide (h * w = 1)); [by left|]. right. by exists c, h, w.
Qed.

Lemma sequential_shape_unbatched torch ms c h w :
  Forall (λ m, match m with
               | Conv2d _ _ _ _ _ | ConvTranspose2d _ _ _ _ _ | InstanceNorm2d _
               | LeakyReLU | Dropout | Sigmoid => True
               | _ => False
               end) ms →
  sequential_shape torch ms [c; h; w] = tail <$> sequential_shape torch ms [1; c; h; w].
Proof.
  intros Hall. revert c h w. induction Hall as [|m ms Hm _ IH]; intros c h w.
  - reflexivity.
  - rewrite !sequential_shape_cons.
    destruct (out_shape_unbatched torch m c h w Hm)
      as [[-> ->]|(c' & h' & w' & -> & ->)]; [reflexivity|].
    rewrite !option_bind_Some. apply IH.
Qed.

Lemma CGeneratorNetwork_two_dimensional args :
  Forall (λ m, match m with
               | Conv2d _ _ _ _ _ | ConvTranspose2d _ _ _ _ _ | InstanceNorm2d _
               | LeakyReLU | Dropout | Sigmoid => True
               | _ => False
               end) (CGeneratorNetwork args).
Proof.
  unfold CGeneratorNetwork. destruct (generator_instancenorm args);
    cbn [omap list_omap]; repeat constructor.
Qed.

(** X11.  The shape law of the generator.  It accepts a batch
    [n×c×h×w] of one or more images exactly when the images have 3 channels
    and sides of at least 4 (else a convolution finds its input too small
    or of the wrong channel count) and, with the instance norm on, when the
    1/8-scale bottleneck [floor((h+4)/8) × floor((w+4)/8)] has more than one
    element (else the instance norm raises; this rules out the images with
    both sides between 4 and 11).  The output then keeps the batch size, has
    3 channels and maps each side [h] to [8 · floor((h + 4) / 8)], which is
    [h] exactly when [h] is a multiple of 8.  A single image without batch
    axis is treated as a batch of one, and inputs of any other rank are
    refused by the first convolution. *)
Theorem X11_generator_shape_law (torch : Torch) (args : Args) (n c h w : Z) :
  0 < n → 0 < h → 0 < w →
  sequential_shape torch (CGeneratorNetwork args) [n; c; h; w]
  = (if decide (c = 3 ∧ 4 <= h ∧ 4 <= w ∧
                (generator_instancenorm args = true →
                 (h + 4) / 8 * ((w + 4) / 8) ≠ 1))
     then Some [n; 3; 8 * ((h + 4) / 8); 8 * ((w + 4) / 8)]
     else None) ∧
  (8 * ((h + 4) / 8) = h ↔ h mod 8 = 0) ∧
  sequential_shape torch (CGeneratorNetwork args) [c; h; w]
  = tail <$> sequential_shape torch (CGeneratorNetwork args) [1; c; h; w] ∧
  (∀ s, length s ≠ 3%nat → length s ≠ 4%nat →
        sequential_shape torch (CGeneratorNetwork args) s = None).
Proof.
  intros Hn Hh Hw. split; [|split; [|split]].
  - destruct (decide (c = 3)) as [->|Hc].
    2:{ rewrite decide_False by tauto.
        destruct (CGeneratorNetwork_first args) as [ms ->].
        rewrite sequential_shape_cons. simpl. by rewrite decide_False. }
    destruct (generator_axis_down h Hh) as (a1 & a2 & a3 & a4).
    destruct (generator_axis_down w Hw) as (b1 & b2 & b3 & b4).
    destruct (decide (4 <= h)) as [H4h|H4h], (decide (4 <= w)) as [H4w|H4w].
    + assert (Hkh : 0 < (h + 4) / 8) by (Z.to_euclidean_division_equations; lia).
      assert (Hkw : 0 < (w + 4) / 8) by (Z.to_euclidean_division_equations; lia).
      destruct (generator_axis _ Hkh) as (_ & _ & _ & _ & a5 & a6 & a7 & a8).
      destruct (generator_axis _ Hkw) as (_ & _ & _ & _ & b5 & b6 & b7 & b8).
      unfold CGeneratorNetwork.
      destruct (generator_instancenorm args).
      * destruct (decide ((h + 4) / 8 * ((w + 4) / 8) = 1)) as [Hone|Hmore].
        -- rewrite decide_False by (intros (_ & _ & _ & Himp); by apply Himp).
           cbn [omap list_omap]. repeat shape_step.
           by rewrite sequential_shape_cons, out_shape_InstanceNorm2d_None.
        -- rewrite decide_True by (repeat split; try assumption; by intros _).
           cbn [omap list_omap]. repeat shape_step. reflexivity.
      * rewrite decide_True by (repeat split; try assumption; discriminate).
        cbn [omap list_omap]. repeat shape_step. reflexivity.
    + rewrite decide_False by tauto.
      unfold CGeneratorNetwork.
      destruct (generator_instancenorm args);
        cbn [omap list_omap]; repeat shape_step;
        rewrite sequential_shape_cons, out_shape_Conv2d_None; auto.
    + rewrite decide_False by tauto.
      unfold CGeneratorNetwork.
      destruct (generator_instancenorm args);
        cbn [omap list_omap]; repeat shape_step;
        rewrite sequential_shape_cons, out_shape_Conv2d_None; auto.
    + rewrite decide_False by tauto.
      assert (Hone : (h + 4) / 4 * ((w + 4) / 4) = 1)
        by (Z.to_euclidean_division_equations; nia).
      unfold CGeneratorNetwork.
      destruct (generator_instancenorm args);
        cbn [omap list_omap]; repeat shape_step;
        first [ by rewrite sequential_shape_cons, out_shape_InstanceNorm2d_None
              | rewrite sequential_shape_cons, out_shape_Conv2d_None; auto ].
  - Z.to_euclidean_division_equations. lia.
  - apply sequential_shape_unbatched, CGeneratorNetwork_two_dimensional.
  - intros s Hs3 Hs4. destruct (CGeneratorNetwork_first args) as [ms ->].
    rewrite sequential_shape_cons.
    destruct s as [|? [|? [|? [|? [|? ?]]]]]; try reflexivity; done.
Qed.

Lemma X11_generator_shape_law_witness :
  sequential_shape {| instancenorm1d_rank2 := false |} (CGeneratorNetwork default_args)
    [5; 3; 30; 64]
  = (if decide (3 = 3 ∧ 4 <= 30 ∧ 4 <= 64 ∧
                (generator_instancenorm default_args = true →
                 (30 + 4) / 8 * ((64 + 4) / 8) ≠ 1))
     then Some [5; 3; 8 * ((30 + 4) / 8); 8 * ((64 + 4) / 8)]
     else None) ∧
  (8 * ((30 + 4) / 8) = 30 ↔ 30 mod 8 = 0) ∧
  sequential_shape {| instancenorm1d_rank2 := false |} (CGeneratorNetwork default_args)
    [3; 30; 64]
  = tail <$> sequential_shape {| instancenorm1d_rank2 := false |}
               (CGeneratorNetwork default_args) [1; 3; 30; 64] ∧
  (∀ s, length s ≠ 3%nat → length s ≠ 4%nat →
        sequential_shape {| instancenorm1d_rank2 := false |}
          (CGeneratorNetwork default_args) s = None).
Proof.
  apply (X11_generator_shape_law {| instancenorm1d_rank2 := false |} default_args
           5 3 30 64); lia.
Defined.

(** The generator on the shapes of the examples above: a 30×64 image comes
    out 32×64, with or without batch axis, and a 10×10 image is refused with
    the instance norm on. *)
Example generator_shape_30x64 :
  sequential_shape {| instancenorm1d_rank2 := false |} (CGeneratorNetwork default_args)
    [5; 3; 30; 64] = Some [5; 3; 32; 64] ∧
  sequential_shape {| instancenorm1d_rank2 := false |} (CGeneratorNetwork default_args)
    [3; 30; 64] = Some [3; 32; 64] ∧
  sequential_shape {| instancenorm1d_rank2 := false |} (CGeneratorNetwork default_args)
    [1; 3; 10; 10] = None.
Proof. by vm_compute. Qed.

Lemma view_rows_law s k :
  0 < k →
  view s [-1; k] = (if decide (numel s mod k = 0) then Some [numel s / k; k] else None).
Proof.
  intros Hk. destruct (decide (numel s mod k = 0)) as [Hmod|Hmod];
    [by apply view_rows|].
  unfold view.
  assert (Hf1 : filter (λ d, d ≠ -1) [-1; k] = [k]).
  { rewrite filter_cons_False by (intros ?; congruence).
    rewrite filter_cons_True by lia. reflexivity. }
  assert (Hf2 : filter (λ d, d = -1) [-1; k] = [-1]).
  { rewrite filter_cons_True by reflexivity.
    rewrite filter_cons_False by lia. reflexivity. }
  rewrite Hf1, Hf2. cbn [length numel fold_right]. rewrite Z.mul_1_r.
  rewrite decide_False by lia. by rewrite decide_False.
Qed.

Lemma discriminator_axis_law (h : Z) :
  0 < h →
  (h < 2 ∧ conv_out h 4 2 1 = None) ∨
  (2 <= h ∧ conv_out h 4 2 1 = Some (h / 2) ∧
   conv_out (h / 2) 4 2 1 = (if decide (4 <= h) then Some (h / 4) else None)).
Proof.
  intros Hh. unfold conv_out.
  destruct (Z.ltb_spec (h + 2 * 1) 4); [left; split; [lia|reflexivity]|].
  right. split; [lia|]. split.
  - f_equal. Z.to_euclidean_division_equations. lia.
  - destruct (decide (4 <= h)), (Z.ltb_spec (h / 2 + 2 * 1) 4);
      first [ reflexivity
            | exfalso; Z.to_euclidean_division_equations; lia
            | f_equal; Z.to_euclidean_division_equations; lia ].
Qed.

Lemma out_shape_Conv2d_channels torch n c cin cout k st p h w :
  c ≠ cin → out_shape torch (Conv2d cin cout k st p) [n; c; h; w] = None.
Proof. intros Hc. simpl. by rewrite decide_False. Qed.

(** The critic's trunk on a 6-channel batch, without instance norm. *)
Lemma CDiscriminatorNetwork_trunk_plain_law torch n h w :
  0 < h → 0 < w →
  sequential_shape torch
    [ Conv2d 6 64 4 2 1; LeakyReLU; Conv2d 64 128 4 2 1; LeakyReLU;
      Reshape [-1; 128 * 8 * 8]; Linear (128 * 8 * 8) 1024; LeakyReLU;
      Linear 1024 1; Reshape [-1] ] [n; 6; h; w]
  = (if decide (4 <= h ∧ 4 <= w ∧ (n * ((h / 4) * (w / 4))) mod 64 = 0)
     then Some [n * ((h / 4) * (w / 4)) / 64]
     else None).
Proof.
  intros Hh Hw.
  assert (Hnumel : numel [n; 128; h / 4; w / 4] = 128 * (n * ((h / 4) * (w / 4))))
    by (cbn [numel fold_right]; lia).
  assert (Hdiv : numel [n; 128; h / 4; w / 4] / (128 * 8 * 8)
                 = n * ((h / 4) * (w / 4)) / 64).
  { rewrite Hnumel. change (128 * 8 * 8) with (128 * 64).
    apply Z.div_mul_cancel_l; lia. }
  assert (Hmod : numel [n; 128; h / 4; w / 4] mod (128 * 8 * 8) = 0
                 ↔ (n * ((h / 4) * (w / 4))) mod 64 = 0).
  { rewrite Hnumel. change (128 * 8 * 8) with (128 * 64).
    rewrite Z.mul_mod_distr_l by lia. lia. }
  assert (Hflat : ∀ r, view [r; 1] [-1] = Some [r]).
  { intros r. rewrite view_flat. cbn [numel fold_right]. do 2 f_equal. lia. }
  destruct (discriminator_axis_law h Hh) as [[Hh2 a1]|(Hh2 & a1 & a2)].
  { rewrite decide_False by lia.
    rewrite sequential_shape_cons, out_shape_Conv2d_None; auto. }
  destruct (discriminator_axis_law w Hw) as [[Hw2 b1]|(Hw2 & b1 & b2)].
  { rewrite decide_False by lia.
    rewrite sequential_shape_cons, out_shape_Conv2d_None; auto. }
  destruct (decide (4 <= h)) as [H4h|H4h].
  2:{ rewrite decide_False by tauto.
      repeat shape_step. rewrite sequential_shape_cons, out_shape_Conv2d_None; auto. }
  destruct (decide (4 <= w)) as [H4w|H4w].
  2:{ rewrite decide_False by tauto.
      repeat shape_step. rewrite sequential_shape_cons, out_shape_Conv2d_None; auto. }
  assert (Hview : out_shape torch (Reshape [-1; 128 * 8 * 8]) [n; 128; h / 4; w / 4]
                  = (if decide ((n * ((h / 4) * (w / 4))) mod 64 = 0)
                     then Some [n * ((h / 4) * (w / 4)) / 64; 128 * 8 * 8] else None)).
  { cbn [out_shape]. rewrite view_rows_law by lia. rewrite Hdiv.
    destruct (decide (numel _ mod _ = 0)) as [E|E], (decide (_ mod 64 = 0)) as [E'|E'];
      try reflexivity; exfalso; tauto. }
  repeat shape_step. rewrite sequential_shape_cons, Hview.
  destruct (decide ((n * ((h / 4) * (w / 4))) mod 64 = 0)) as [Hrows|Hrows].
  2:{ by rewrite decide_False by tauto. }
  rewrite decide_True by tauto. rewrite option_bind_Some.
  rewrite sequential_shape_cons, out_shape_Linear, option_bind_Some.
  repeat shape_step.
  rewrite sequential_shape_cons, out_shape_Linear, option_bind_Some.
  rewrite sequential_shape_cons. cbn [out_shape]. by rewrite Hflat.
Qed.

(** The critic's trunk on a 6-channel batch, with instance norm. *)
Lemma CDiscriminatorNetwork_trunk_norm_law torch n h w :
  0 < h → 0 < w →
  sequential_shape torch
    [ Conv2d 6 64 4 2 1; InstanceNorm2d 64; LeakyReLU;
      Conv2d 64 128 4 2 1; InstanceNorm2d 128; LeakyReLU;
      Reshape [-1; 128 * 8 * 8]; Linear (128 * 8 * 8) 1024; InstanceNorm1d 1024;
      LeakyReLU; Linear 1024 1; Reshape [-1] ] [n; 6; h; w]
  = (if decide (4 <= h ∧ 4 <= w ∧ (n * ((h / 4) * (w / 4))) mod 64 = 0 ∧
                instancenorm1d_rank2 torch = true ∧ h / 4 * (w / 4) ≠ 1)
     then Some [n * ((h / 4) * (w / 4)) / 64]
     else None).
Proof.
  intros Hh Hw.
  assert (Hnumel : numel [n; 128; h / 4; w / 4] = 128 * (n * ((h / 4) * (w / 4))))
    by (cbn [numel fold_right]; lia).
  assert (Hdiv : numel [n; 128; h / 4; w / 4] / (128 * 8 * 8)
                 = n * ((h / 4) * (w / 4)) / 64).
  { rewrite Hnumel. change (128 * 8 * 8) with (128 * 64).
    apply Z.div_mul_cancel_l; lia. }
  assert (Hmod : numel [n; 128; h / 4; w / 4] mod (128 * 8 * 8) = 0
                 ↔ (n * ((h / 4) * (w / 4))) mod 64 = 0).
  { rewrite Hnumel. change (128 * 8 * 8) with (128 * 64).
    rewrite Z.mul_mod_distr_l by lia. lia. }
  assert (Hflat : ∀ r, view [r; 1] [-1] = Some [r]).
  { intros r. rewrite view_flat. cbn [numel fold_right]. do 2 f_equal. lia. }
  destruct (discriminator_axis_law h Hh) as [[Hh2 a1]|(Hh2 & a1 & a2)].
  { rewrite decide_False by lia.
    rewrite sequential_shape_cons, out_shape_Conv2d_None; auto. }
  destruct (discriminator_axis_law w Hw) as [[Hw2 b1]|(Hw2 & b1 & b2)].
  { rewrite decide_False by lia.
    rewrite sequential_shape_cons, out_shape_Conv2d_None; auto. }
  destruct (decide (4 <= h ∧ 4 <= w)) as [[H4h H4w]|Hsmall].
  2:{ rewrite decide_False by tauto.
      assert (a2' : conv_out (h / 2) 4 2 1 = None ∨ conv_out (w / 2) 4 2 1 = None).
      { destruct (decide (4 <= h)); [|by left].
        destruct (decide (4 <= w)); [|by right]. tauto. }
      clear a2 b2. shape_step.
      destruct (decide (h / 2 * (w / 2) = 1)) as [Hone|Hmore].
      - by rewrite sequential_shape_cons, out_shape_InstanceNorm2d_None.
      - repeat shape_step.
        by rewrite sequential_shape_cons, out_shape_Conv2d_None. }
  rewrite decide_True in a2 by assumption. rewrite decide_True in b2 by assumption.
  destruct (decide (h / 4 * (w / 4) = 1)) as [Hone|Hmore].
  { rewrite decide_False by tauto. repeat shape_step.
    by rewrite sequential_shape_cons, out_shape_InstanceNorm2d_None. }
  assert (Hview : out_shape torch (Reshape [-1; 128 * 8 * 8]) [n; 128; h / 4; w / 4]
                  = (if decide ((n * ((h / 4) * (w / 4))) mod 64 = 0)
                     then Some [n * ((h / 4) * (w / 4)) / 64; 128 * 8 * 8] else None)).
  { cbn [out_shape]. rewrite view_rows_law by lia. rewrite Hdiv.
    destruct (decide (numel _ mod _ = 0)) as [E|E], (decide (_ mod 64 = 0)) as [E'|E'];
      try reflexivity; exfalso; tauto. }
  repeat shape_step. rewrite sequential_shape_cons, Hview.
  destruct (decide ((n * ((h / 4) * (w / 4))) mod 64 = 0)) as [Hrows|Hrows].
  2:{ by rewrite decide_False by tauto. }
  rewrite option_bind_Some.
  rewrite sequential_shape_cons, out_shape_Linear, option_bind_Some.
  rewrite sequential_shape_cons. cbn [out_shape].
  destruct (instancenorm1d_rank2 torch).
  2:{ rewrite decide_False; [reflexivity|]. intros (_ & _ & _ & ? & _). done. }
  rewrite (decide_False (P := 1024 = 1)) by lia.
  rewrite decide_True by tauto. rewrite option_bind_Some.
  repeat shape_step.
  rewrite sequential_shape_cons, out_shape_Linear, option_bind_Some.
  rewrite sequential_shape_cons. cbn [out_shape]. by rewrite Hflat.
Qed.

(** The critic's trunk on a 6-channel batch. *)
Lemma CDiscriminatorNetwork_trunk_law torch args n h w :
  0 < h → 0 < w →
  sequential_shape torch (CDiscriminatorNetwork_trunk args) [n; 6; h; w]
  = (if decide (4 <= h ∧ 4 <= w ∧ (n * ((h / 4) * (w / 4))) mod 64 = 0 ∧
                (discriminator_instancenorm args = true →
                 instancenorm1d_rank2 torch = true ∧ h / 4 * (w / 4) ≠ 1))
     then Some [n * ((h / 4) * (w / 4)) / 64]
     else None).
Proof.
  intros Hh Hw. unfold CDiscriminatorNetwork_trunk.
  destruct (discriminator_instancenorm args); cbn [omap list_omap].
  - rewrite CDiscriminatorNetwork_trunk_norm_law by assumption.
    destruct (decide (4 <= h ∧ 4 <= w ∧ _ ∧ _ ∧ _)) as [Hok|Hno].
    + rewrite decide_True; [reflexivity|]. tauto.
    + rewrite decide_False; [reflexivity|].
      intros (? & ? & ? & Himp). apply Hno. specialize (Himp eq_refl). tauto.
  - rewrite CDiscriminatorNetwork_trunk_plain_law by assumption.
    destruct (decide (4 <= h ∧ 4 <= w ∧ _)) as [Hok|Hno].
    + rewrite decide_True; [reflexivity|].
      split; [tauto|]. split; [tauto|]. split; [tauto|]. discriminate.
    + rewrite decide_False; [reflexivity|]. tauto.
Qed.

Lemma CDiscriminatorNetwork_trunk_first args :
  ∃ ms, CDiscriminatorNetwork_trunk args = Conv2d 6 64 4 2 1 :: ms.
Proof.
  unfold CDiscriminatorNetwork_trunk.
  destruct (discriminator_instancenorm args); by eexists.
Qed.

(** X12.  The shape law of the discriminator.  On an image batch
    [n×c×h×w] and a condition batch [n'×c'×h'×w'] of one or more pairs it
    returns scores exactly when the two batches agree in batch size, height
    and width (else [torch.cat] raises), their channels add up to 6, both
    sides are at least 4, [n·floor(h/4)·floor(w/4)] is a multiple of 64
    (else the reshape to rows of 128·8·8 raises) and, with the
    instance-norm toggle on, the framework's [InstanceNorm1d] takes a rank-2
    input and the activation [floor(h/4) × floor(w/4)] has more than one
    element (else an instance norm raises).  It then returns
    [n·floor(h/4)·floor(w/4) / 64] scores in a rank-1 tensor. *)
Theorem X12_discriminator_shape_law (torch : Torch) (args : Args)
    (n n' c c' h w h' w' : Z) :
  0 < n → 0 < h → 0 < w →
  CDiscriminatorNetwork_shape torch args [n; c; h; w] [n'; c'; h'; w']
  = (if decide (n = n' ∧ h = h' ∧ w = w' ∧ c + c' = 6 ∧ 4 <= h ∧ 4 <= w ∧
                (n * ((h / 4) * (w / 4))) mod 64 = 0 ∧
                (discriminator_instancenorm args = true →
                 instancenorm1d_rank2 torch = true ∧ h / 4 * (w / 4) ≠ 1))
     then Some [n * ((h / 4) * (w / 4)) / 64]
     else None).
Proof.
  intros _ Hh Hw. unfold CDiscriminatorNetwork_shape, cat1_shape.
  destruct (decide (n = n' ∧ [h; w] = [h'; w'])) as [[<- [= <- <-]]|Hcat].
  2:{ rewrite decide_False; [reflexivity|].
      intros (-> & -> & -> & _). by apply Hcat. }
  rewrite option_bind_Some.
  destruct (decide (c + c' = 6)) as [->|Hc].
  - rewrite CDiscriminatorNetwork_trunk_law by assumption.
    destruct (decide (4 <= h ∧ _)) as [Hok|Hno].
    + rewrite decide_True; [reflexivity|]. tauto.
    + rewrite decide_False; [reflexivity|]. tauto.
  - rewrite decide_False by tauto.
    destruct (CDiscriminatorNetwork_trunk_first args) as [ms ->].
    by rewrite sequential_shape_cons, out_shape_Conv2d_channels.
Qed.

Lemma X12_discriminator_shape_law_witness :
  CDiscriminatorNetwork_shape {| instancenorm1d_rank2 := false |} default_args
    [3; 3; 32; 32] [1; 3; 32; 32]
  = (if decide (3 = 1 ∧ 32 = 32 ∧ 32 = 32 ∧ 3 + 3 = 6 ∧ 4 <= 32 ∧ 4 <= 32 ∧
                (3 * ((32 / 4) * (32 / 4))) mod 64 = 0 ∧
                (discriminator_instancenorm default_args = true →
                 instancenorm1d_rank2 {| instancenorm1d_rank2 := false |} = true ∧
                 32 / 4 * (32 / 4) ≠ 1))
     then Some [3 * ((32 / 4) * (32 / 4)) / 64]
     else None).
Proof.
  apply (X12_discriminator_shape_law {| instancenorm1d_rank2 := false |} default_args
           3 1 3 3 32 32 32 32); lia.
Defined.

(** The critic on 4×4 images: 64 pairs fill one row of the reshape and
    give one score with the instance norm off; with it on, the 1×1
    activation is refused. *)
Example discriminator_shape_4x4 :
  CDiscriminatorNetwork_shape {| instancenorm1d_rank2 := true |} default_args
    [64; 3; 4; 4] [64; 3; 4; 4] = Some [1] ∧
  CDiscriminatorNetwork_shape {| instancenorm1d_rank2 := true |}
    {| save_directory := "out"; batch_size := 64; epochs := 1;
       image_frequency := 1; generator_frequency := 1;
       discriminator_instancenorm := true; generator_instancenorm := true;
       cuda := false |}
    [64; 3; 4; 4] [64; 3; 4; 4] = None.
Proof. by vm_compute. Qed.

(** ** The cache after the optimization step and after each callback *)

Lemma discriminator_step_hooks `{Backend} args (file : list (Img * Img)) idxs t t' :
  configured args file t →
  discriminator_step idxs t = Some t' →
  ∃ rows, mapM (λ i, file !! i) idxs = Some rows ∧
          _state_hooks (model t') !! "y" = Some rows.*2 ∧
          _state_hooks (model t') !! "xreal" = Some rows.*1.
Proof.
  intros (Hl & _) Hstep.
  apply discriminator_step_inv in Hstep as (xreal & y & target & loss & Hin & ->).
  rewrite Hl, training_inputs_init in Hin.
  destruct (mapM (λ i, file !! i) idxs) as [rows|]; [|discriminate].
  injection Hin as <- <- <-. exists rows. split; [reflexivity|].
  cbn [model set_optimizer set_model].
  rewrite (proj1 (Adam_step_frame _ _)), (proj1 (backward_frame _ _)).
  split; [apply forward_hooks_y | apply forward_hooks_xreal].
Qed.

Lemma image_callback_hooks `{Backend} t :
  let t' := CGenerateDataCallback_end_of_training_iteration t in
  _state_hooks (model t') !! "y"
  = (if gd_count (image_callback t) + 1 >? gd_frequency (image_callback t)
     then Some (gd_y (image_callback t)) else _state_hooks (model t) !! "y") ∧
  _state_hooks (model t') !! "xreal" = _state_hooks (model t) !! "xreal".
Proof.
  cbn zeta. unfold CGenerateDataCallback_end_of_training_iteration.
  cbn [image_callback set_image_callback gd_count gd_set_count gd_frequency].
  destruct (_ >? _); [|done].
  unfold CGenerateDataCallback_save_images, CGenerateDataCallback_generate,
    CGANModel_generate.
  cbn [model set_image_callback set_files set_model image_callback _state_hooks
       set_hooks set_training gd_y gd_set_image_count gd_set_count].
  split.
  - rewrite lookup_insert_ne by done. apply lookup_insert_eq.
  - by rewrite !lookup_insert_ne by done.
Qed.

Lemma train_generator_hooks `{Backend} ent (file : list (Img * Img)) t t' :
  gt_dataset (generator_callback t) = DNIMWrapper_init file →
  gt_len (generator_callback t) = length file →
  CGeneratorTrainingCallback_train_generator ent t = Some t' →
  _state_hooks (model t') !! "y"
  = (λ row : Img * Img, [row.2])
      <$> file !! (np_random_raw ent (np_random_calls t) mod length file)%nat ∧
  _state_hooks (model t') !! "xreal" = _state_hooks (model t) !! "xreal".
Proof.
  intros Hds Hlen Hstep.
  apply train_generator_inv in Hstep as (i & Hi & Hat).
  assert (Hpos : (0 < length file)%nat).
  { destruct file; [|simpl; lia]. rewrite Hlen in Hi. discriminate. }
  destruct (sample_randint (np_random_raw ent (np_random_calls t)) _ Hpos)
    as (j & Hj & Hlt & ->).
  rewrite Hlen, Hj in Hi. injection Hi as <-.
  apply train_generator_at_inv in Hat as (y & Hy & ->).
  cbn [generator_callback set_np_random_calls] in Hy.
  rewrite (generator_condition_init _ file), Nat2Z.id in Hy by assumption.
  cbn [model set_generator_callback set_model set_np_random_calls].
  rewrite (proj1 (Adam_step_frame _ _)), (proj1 (backward_frame _ _)),
    (proj1 (Adam_zero_grad_frame _ _)).
  split.
  - rewrite (y_fake_hooks_y (model t) y). by rewrite <- Hy.
  - unfold CGANModel_y_fake, CGANModel_generate. cbn [snd _state_hooks set_hooks].
    by rewrite !lookup_insert_ne by done.
Qed.

Lemma generator_callback_hooks `{Backend} ent (file : list (Img * Img)) t t' :
  gt_dataset (generator_callback t) = DNIMWrapper_init file →
  gt_len (generator_callback t) = length file →
  CGeneratorTrainingCallback_end_of_training_iteration ent t = Some t' →
  _state_hooks (model t') !! "y"
  = (if gt_count (generator_callback t) + 1 >? gt_frequency (generator_callback t)
     then (λ row : Img * Img, [row.2])
            <$> file !! (np_random_raw ent (np_random_calls t) mod length file)%nat
     else _state_hooks (model t) !! "y") ∧
  _state_hooks (model t') !! "xreal" = _state_hooks (model t) !! "xreal".
Proof.
  intros Hds Hlen. unfold CGeneratorTrainingCallback_end_of_training_iteration.
  cbn [generator_callback set_generator_callback gt_count gt_set_count gt_frequency].
  destruct (_ >? _).
  - destruct (CGeneratorTrainingCallback_train_generator ent _) as [t2|] eqn:Ht2;
      [|discriminate].
    cbn [mbind option_bind]. intros [= <-].
    apply (train_generator_hooks ent file) in Ht2; [|assumption..].
    exact Ht2.
  - by intros [= <-].
Qed.

(** ** What the image files show *)

Lemma image_callback_files `{Backend} t :
  let t' := CGenerateDataCallback_end_of_training_iteration t in
  gd_y (image_callback t') = gd_y (image_callback t) ∧
  (files t' = files t ∨
   ∃ name, files t' = files t ++
     [(name, format_images (generator_forward (parameters generator (model t)) false
                                              (gd_y (image_callback t))))]).
Proof.
  cbn zeta. unfold CGenerateDataCallback_end_of_training_iteration.
  cbn [image_callback set_image_callback gd_count gd_set_count gd_frequency].
  destruct (_ >? _); [|split; [reflexivity|by left]].
  split; [reflexivity|]. right. eexists. reflexivity.
Qed.

Lemma generator_callback_keeps_files `{Backend} ent t t' :
  CGeneratorTrainingCallback_end_of_training_iteration ent t = Some t' →
  files t' = files t ∧ image_callback t' = image_callback t.
Proof.
  unfold CGeneratorTrainingCallback_end_of_training_iteration.
  destruct (_ >? _).
  - destruct (CGeneratorTrainingCallback_train_generator ent _) as [t2|] eqn:Ht2;
      [|discriminate].
    cbn [mbind option_bind]. intros [= <-].
    apply train_generator_fields in Ht2
      as (_ & _ & _ & _ & _ & _ & _ & Hi & _ & _ & _ & Hf & _).
    by split.
  - by intros [= <-].
Qed.

Lemma end_of_training_iteration_files_show `{Backend} ent y0 t t' :
  end_of_training_iteration ent t = Some t' → files_show y0 t → files_show y0 t'.
Proof.
  unfold end_of_training_iteration, files_show. destruct (image_callback_first ent).
  - intros Hit [Hy Hall].
    pose proof (image_callback_files t) as (Hy2 & Hf2). cbn zeta in Hy2, Hf2.
    apply generator_callback_keeps_files in Hit as (Hf3 & Hi3).
    rewrite Hi3, Hy2, Hf3. split; [exact Hy|].
    destruct Hf2 as [->|[name ->]]; [exact Hall|].
    apply Forall_app. split; [exact Hall|].
    constructor; [|constructor]. rewrite Hy. eauto.
  - destruct (CGeneratorTrainingCallback_end_of_training_iteration ent t)
      as [t1|] eqn:Ht1; [|discriminate].
    cbn [mbind option_bind]. intros [= <-] [Hy Hall].
    apply generator_callback_keeps_files in Ht1 as (Hf1 & Hi1).
    pose proof (image_callback_files t1) as (Hy2 & Hf2). cbn zeta in Hy2, Hf2.
    rewrite Hy2, Hi1. split; [exact Hy|].
    destruct Hf2 as [->|[name ->]]; rewrite Hf1; [exact Hall|].
    apply Forall_app. split; [exact Hall|].
    constructor; [|constructor]. rewrite Hi1, Hy. eauto.
Qed.

Lemma train_iteration_files_show `{Backend} ent idxs y0 t t' :
  train_iteration ent idxs t = Some t' → files_show y0 t → files_show y0 t'.
Proof.
  unfold train_iteration.
  destruct (discriminator_step idxs t) as [t1|] eqn:Ht1; [|discriminate].
  cbn [mbind option_bind]. intros Hit Hs.
  apply (end_of_training_iteration_files_show ent y0 t1 t' Hit).
  apply discriminator_step_fields in Ht1 as (_ & _ & Hi1 & _ & _ & _ & _ & Hf1 & _).
  unfold files_show in *. by rewrite Hi1, Hf1.
Qed.

Lemma train_epoch_files_show `{Backend} ent batches y0 t t' :
  train_epoch ent batches t = Some t' → files_show y0 t → files_show y0 t'.
Proof.
  revert t. induction batches as [|idxs batches IH]; intros t; cbn [train_epoch].
  - by intros [= <-].
  - destruct (train_iteration ent idxs t) as [t1|] eqn:Ht1; [|discriminate].
    cbn [mbind option_bind]. intros Ht' Hs.
    eapply IH; [exact Ht'|]. by eapply train_iteration_files_show.
Qed.

Lemma fit_from_files_show `{Backend} ent k e y0 t t' :
  fit_from ent k e t = Some t' → files_show y0 t → files_show y0 t'.
Proof.
  revert e t. induction k as [|k IH]; intros e t; cbn [fit_from].
  - by intros [= <-].
  - destruct (train_epoch ent _ t) as [t1|] eqn:Ht1; [|discriminate].
    cbn [mbind option_bind]. intros Ht' Hs.
    eapply IH; [exact Ht'|]. by eapply train_epoch_files_show.
Qed.

Lemma fit_files_show `{Backend} ent y0 t t' :
  fit ent t = Some t' → files_show y0 t → files_show y0 t'.
Proof.
  intros Hfit Hs.
  apply fit_inv in Hfit as [[_ ->]|(t1 & idxs & Ht1 & Ht')]; [exact Hs|].
  eapply train_iteration_files_show; [exact Ht'|].
  by eapply fit_from_files_show.
Qed.

(** X14.  Every image file a run writes shows the same condition, the
    night of the first pair of the dataset (captured when the callback was
    built), rendered by the generator in eval mode with the parameters it had
    at that moment; the batch in training and the random draws never reach
    the files. *)
Theorem X14_saved_images_show_first_night `{Backend} (args : Args)
    (file : list (Img * Img)) (ent : Entropy) (t : Trainer) :
  run args file ent = Some t →
  ∃ day night,
    file !! 0%nat = Some (day, night) ∧
    gd_y (image_callback t) = [night] ∧
    Forall (λ f : string * list Img,
              ∃ ps, f.2 = format_images (generator_forward ps false [night]))
           (files t).
Proof.
  unfold run. intros Hrun.
  destruct (build_trainer args file) as [t0|] eqn:Ht0; [|discriminate].
  cbn [mbind option_bind] in Hrun.
  apply build_trainer_inv in Ht0 as (_ & _ & Hfiles & _ & _ & _ & Hy).
  rewrite CGenerateDataCallback_init_y in Hy.
  destruct (file !! 0%nat) as [[day night]|]; [|discriminate].
  injection Hy as Hy. exists day, night. split; [reflexivity|].
  apply (fit_files_show ent [night]) in Hrun; [exact Hrun|].
  split; [by rewrite <- Hy|]. rewrite Hfiles. constructor.
Qed.

Lemma X14_saved_images_show_first_night_witness :
  is_Some (run (H := toy_backend) scenario_args toy_file (plain_entropy 4)) ∧
  ∀ t, run (H := toy_backend) scenario_args toy_file (plain_entropy 4) = Some t →
    ∃ day night,
      toy_file !! 0%nat = Some (day, night) ∧
      gd_y (image_callback t) = [night] ∧
      Forall (λ f : string * list Z,
                ∃ ps, f.2 = format_images (generator_forward ps false [night]))
             (files t).
Proof.
  split; [apply (bool_decide_unpack _); by vm_compute|].
  intros t.
  apply (X14_saved_images_show_first_night (H := toy_backend) scenario_args toy_file
           (plain_entropy 4) t).
Defined.

(** ** What an iteration leaves in the cache *)

(** X13.  The cache at the end of a training iteration, after both
    callbacks.  The cached real batch ['xreal'] is always the days of the
    current batch.  The cached condition ['y'] (and with it ['xfake'] and
    ['generated_images']) is the nights of the current batch only if no
    callback fired.  If only the image callback fired it is that callback's
    fixed condition; if only the generator callback fired it is the single
    night it drew, a batch of one; and if both fired it is the condition of
    the one the trainer called last. *)
Theorem X13_cache_after_iteration `{Backend} (args : Args) (file : list (Img * Img))
    (ent : Entropy) (idxs : list nat) (t t' : Trainer) :
  configured args file t →
  train_iteration ent idxs t = Some t' →
  ∃ rows,
    mapM (λ i, file !! i) idxs = Some rows ∧
    _state_hooks (model t') !! "xreal" = Some rows.*1 ∧
    let generator_fires :=
      gt_count (generator_callback t) + 1 >? gt_frequency (generator_callback t) in
    let image_fires :=
      gd_count (image_callback t) + 1 >? gd_frequency (image_callback t) in
    let drawn :=
      (λ row : Img * Img, [row.2])
        <$> file !! (np_random_raw ent (np_random_calls t) mod length file)%nat in
    _state_hooks (model t') !! "y"
    = match generator_fires, image_fires with
      | false, false => Some rows.*2
      | true, false => drawn
      | false, true => Some (gd_y (image_callback t))
      | true, true =>
          if image_callback_first ent then drawn else Some (gd_y (image_callback t))
      end.
Proof.
  intros Hcfg Hit. unfold train_iteration in Hit.
  destruct (discriminator_step idxs t) as [t1|] eqn:Ht1; [|discriminate].
  cbn [mbind option_bind] in Hit.
  destruct (discriminator_step_hooks args file idxs t t1 Hcfg Ht1)
    as (rows & Hrows & Hy1 & Hx1).
  apply discriminator_step_fields in Ht1
    as (_ & _ & Hi1 & Hg1 & _ & _ & _ & _ & Hn1).
  destruct Hcfg as (_ & _ & _ & _ & _ & Cds & Clen).
  exists rows. split; [exact Hrows|]. cbn zeta.
  unfold end_of_training_iteration in Hit.
  destruct (image_callback_first ent).
  - pose proof (image_callback_hooks t1) as (Hy2 & Hx2).
    pose proof (image_callback_fields t1) as (_ & Hg2 & _ & _ & _ & Hn2 & _).
    cbn zeta in Hy2, Hx2, Hg2, Hn2.
    apply (generator_callback_hooks ent file) in Hit as (Hy3 & Hx3);
      [|by rewrite Hg2, Hg1..].
    split; [by rewrite Hx3, Hx2|].
    rewrite Hy3, Hg2, Hg1, Hn2, Hn1.
    destruct (gt_count (generator_callback t) + 1 >? gt_frequency (generator_callback t)).
    + by destruct (gd_count (image_callback t) + 1 >? gd_frequency (image_callback t)).
    + rewrite Hy2, Hi1.
      by destruct (gd_count (image_callback t) + 1 >? gd_frequency (image_callback t)).
  - destruct (CGeneratorTrainingCallback_end_of_training_iteration ent t1)
      as [t2|] eqn:Ht2; [|discriminate].
    cbn [mbind option_bind] in Hit. injection Hit as <-.
    pose proof (generator_callback_keeps_files ent t1 t2 Ht2) as (_ & Hi2).
    apply (generator_callback_hooks ent file) in Ht2 as (Hy2 & Hx2);
      [|by rewrite Hg1..].
    pose proof (image_callback_hooks t2) as (Hy3 & Hx3).
    cbn zeta in Hy3, Hx3.
    split; [by rewrite Hx3, Hx2|].
    rewrite Hy3, Hi2, Hi1, Hy2, Hg1, Hn1.
    destruct (gt_count (generator_callback t) + 1 >? gt_frequency (generator_callback t));
      by destruct (gd_count (image_callback t) + 1 >? gd_frequency (image_callback t)).
Qed.

Lemma X13_cache_after_iteration_witness :
  ∃ rows,
    mapM (λ i, toy_file !! i) [0%nat; 1%nat] = Some rows ∧
    is_Some (train_iteration (plain_entropy 4) [0%nat; 1%nat] toy_trainer) ∧
    ∀ t', train_iteration (plain_entropy 4) [0%nat; 1%nat] toy_trainer = Some t' →
      ∃ rows',
        mapM (λ i, toy_file !! i) [0%nat; 1%nat] = Some rows' ∧
        _state_hooks (model t') !! "xreal" = Some rows'.*1 ∧
        let generator_fires :=
          gt_count (generator_callback toy_trainer) + 1
          >? gt_frequency (generator_callback toy_trainer) in
        let image_fires :=
          gd_count (image_callback toy_trainer) + 1
          >? gd_frequency (image_callback toy_trainer) in
        let drawn :=
          (λ row : Z * Z, [row.2])
            <$> toy_file !! (np_random_raw (plain_entropy 4)
                               (np_random_calls toy_trainer) mod length toy_file)%nat in
        _state_hooks (model t') !! "y"
        = match generator_fires, image_fires with
          | false, false => Some rows'.*2
          | true, false => drawn
          | false, true => Some (gd_y (image_callback toy_trainer))
          | true, true =>
              if image_callback_first (plain_entropy 4) then drawn
              else Some (gd_y (image_callback toy_trainer))
          end.
Proof.
  exists [(1, 11); (2, 12)]. split; [reflexivity|].
  split; [apply (bool_decide_unpack _); by vm_compute|].
  intros t'.
  apply (X13_cache_after_iteration (H := toy_backend) scenario_args toy_file
           (plain_entropy 4) [0%nat; 1%nat] toy_trainer t').
  repeat split.
Defined.

(** The second iteration of the scenario, in which both callbacks fire,
    with a draw of index 2: the cache ends with the drawn night [13] when the
    generator callback is called last, and with the image callback's fixed
    night [11] when the image callback is. *)
Example cache_after_both_callbacks :
  (λ t', _state_hooks (model t') !! "y")
    <$> train_epoch {| sampler_order := λ _, seq 0 4; np_random_raw := λ _, 2%nat;
                       image_callback_first := true |}
                    [[0; 1]; [2; 3]]%nat toy_trainer
  = Some (Some [13]) ∧
  (λ t', _state_hooks (model t') !! "y")
    <$> train_epoch {| sampler_order := λ _, seq 0 4; np_random_raw := λ _, 2%nat;
                       image_callback_first := false |}
                    [[0; 1]; [2; 3]]%nat toy_trainer
  = Some (Some [11]).
Proof. by vm_compute. Qed.

(** ** Train and eval mode *)

Lemma discriminator_step_training `{Backend} idxs t t' :
  discriminator_step idxs t = Some t' → training (model t') = training (model t).
Proof.
  intros Hstep.
  by apply discriminator_step_inv in Hstep as (xreal & y & target & loss & _ & ->).
Qed.

Lemma generator_callback_training `{Backend} ent t t' :
  CGeneratorTrainingCallback_end_of_training_iteration ent t = Some t' →
  training (model t') = training (model t).
Proof.
  unfold CGeneratorTrainingCallback_end_of_training_iteration.
  destruct (_ >? _).
  - destruct (CGeneratorTrainingCallback_train_generator ent _) as [t2|] eqn:Ht2;
      [|discriminate].
    cbn [mbind option_bind]. intros [= <-].
    apply train_generator_inv in Ht2 as (i & _ & Hat).
    by apply train_generator_at_inv in Hat as (y & _ & ->).
  - by intros [= <-].
Qed.

Lemma image_callback_training `{Backend} t :
  training (model (CGenerateDataCallback_end_of_training_iteration t))
  = (if gd_count (image_callback t) + 1 >? gd_frequency (image_callback t)
     then true else training (model t)).
Proof.
  unfold CGenerateDataCallback_end_of_training_iteration.
  cbn [image_callback set_image_callback gd_count gd_set_count gd_frequency].
  by destruct (_ >? _).
Qed.

Lemma end_of_training_iteration_training `{Backend} ent t t' :
  end_of_training_iteration ent t = Some t' →
  training (model t) = true → training (model t') = true.
Proof.
  unfold end_of_training_iteration. destruct (image_callback_first ent).
  - intros Hit Htr. apply generator_callback_training in Hit.
    rewrite Hit, image_callback_training, Htr. by destruct (_ >? _).
  - destruct (CGeneratorTrainingCallback_end_of_training_iteration ent t)
      as [t1|] eqn:Ht1; [|discriminate].
    cbn [mbind option_bind]. intros [= <-] Htr.
    apply generator_callback_training in Ht1.
    rewrite image_callback_training, Ht1, Htr. by destruct (_ >? _).
Qed.

Lemma train_iteration_training `{Backend} ent idxs t t' :
  train_iteration ent idxs t = Some t' →
  training (model t) = true → training (model t') = true.
Proof.
  unfold train_iteration.
  destruct (discriminator_step idxs t) as [t1|] eqn:Ht1; [|discriminate].
  cbn [mbind option_bind]. intros Hit Htr.
  apply discriminator_step_training in Ht1.
  apply (end_of_training_iteration_training ent t1 t' Hit). by rewrite Ht1.
Qed.

Lemma train_epoch_training `{Backend} ent batches t t' :
  train_epoch ent batches t = Some t' →
  training (model t) = true → training (model t') = true.
Proof.
  revert t. induction batches as [|idxs batches IH]; intros t; cbn [train_epoch].
  - by intros [= <-].
  - destruct (train_iteration ent idxs t) as [t1|] eqn:Ht1; [|discriminate].
    cbn [mbind option_bind]. intros Ht' Htr.
    eapply IH; [exact Ht'|]. by eapply train_iteration_training.
Qed.

Lemma fit_from_training `{Backend} ent k e t t' :
  fit_from ent k e t = Some t' →
  training (model t) = true → training (model t') = true.
Proof.
  revert e t. induction k as [|k IH]; intros e t; cbn [fit_from].
  - by intros [= <-].
  - destruct (train_epoch ent _ t) as [t1|] eqn:Ht1; [|discriminate].
    cbn [mbind option_bind]. intros Ht' Htr.
    eapply IH; [exact Ht'|]. by eapply train_epoch_training.
Qed.

Lemma fit_training `{Backend} ent t t' :
  fit ent t = Some t' →
  training (model t) = true → training (model t') = true.
Proof.
  intros Hfit Htr.
  apply fit_inv in Hfit as [[_ ->]|(t1 & idxs & Ht1 & Ht')]; [exact Htr|].
  eapply train_iteration_training; [exact Ht'|].
  by eapply fit_from_training.
Qed.

(** X15.  Sampling images never leaks eval mode into training: a training
    iteration that starts in train mode ends in train mode, whichever
    callbacks fire, so the next discriminator step and every generator step
    run with dropout active; and the model a run leaves behind is in train
    mode. *)
Theorem X15_training_mode_is_kept `{Backend} (args : Args) (file : list (Img * Img))
    (ent : Entropy) :
  (∀ idxs t t', train_iteration ent idxs t = Some t' →
     training (model t) = true → training (model t') = true) ∧
  (∀ t, run args file ent = Some t → training (model t) = true).
Proof.
  split.
  - intros idxs t t'. apply train_iteration_training.
  - unfold run. intros t Hrun.
    destruct (build_trainer args file) as [t0|] eqn:Ht0; [|discriminate].
    cbn [mbind option_bind] in Hrun.
    apply fit_training in Hrun; [exact Hrun|].
    by apply build_trainer_inv in Ht0 as (_ & _ & _ & _ & _ & Htr & _).
Qed.

Lemma X15_training_mode_is_kept_witness :
  is_Some (train_iteration (plain_entropy 4) [0%nat; 1%nat] toy_trainer) ∧
  is_Some (run (H := toy_backend) scenario_args toy_file (plain_entropy 4)) ∧
  training (model toy_trainer) = true ∧
  ((∀ idxs (t t' : Trainer (H := toy_backend)),
      train_iteration (plain_entropy 4) idxs t = Some t' →
      training (model t) = true → training (model t') = true) ∧
   (∀ t, run (H := toy_backend) scenario_args toy_file (plain_entropy 4) = Some t →
      training (model t) = true)).
Proof.
  split; [apply (bool_decide_unpack _); by vm_compute|].
  split; [apply (bool_decide_unpack _); by vm_compute|].
  split; [reflexivity|].
  exact (X15_training_mode_is_kept (H := toy_backend) scenario_args toy_file
           (plain_entropy 4)).
Defined.
